(** * The Pinecone API client (src/client.ts) and the vector query tool
      (registerVectorTools), embedded as state-passing functions.

    The client is a class with two fields, [credentials] and
    [indexHostCache]; every method funnels into [request], which calls
    the platform's [fetch].  JavaScript values are dynamically typed: the
    TypeScript annotations of the source are erased at run time, so the
    embedding keeps JSON payloads as [JSValue] and follows the run-time
    rules for truthiness, property access and [||]. *)

From Stdlib Require Import ZArith Ascii String List.
From stdpp Require Import gmap strings list pretty.

Set Default Proof Using "Type".
Open Scope string_scope.
Open Scope Z_scope.

(* ===================================================================== *)
(** ** JavaScript values *)
(* ===================================================================== *)

(** A JavaScript number is kept as an exact decimal [m * 10^e]; [NaN] is
    the result of a failed numeric conversion and [Infinity] that of one
    beyond the largest finite value.  Negative zero is not told apart
    from zero: nothing in the source does (no division, no [Object.is];
    both print as 0).  Numbers that come from arguments and from JSON are
    kept as written; [parseInt] rounds to binary64 (see [to_binary64]). *)
Inductive number :=
  | NaN
  | Infinity (negative : bool)
  | Num (m e : Z).

#[warnings="-register-all"]
Inductive JSValue :=
  | JUndefined
  | JNull
  | JBool (b : bool)
  | JNumber (n : number)
  | JString (s : string)
  | JArray (items : list JSValue)
  | JObject (members : list (string * JSValue)).

(** ToBoolean. *)
Definition truthy (v : JSValue) : bool :=
  match v with
  | JUndefined | JNull => false
  | JBool b => b
  | JNumber NaN => false
  | JNumber (Infinity _) => true
  | JNumber (Num m _) => negb (m =? 0)
  | JString s => negb (String.eqb s "")
  | JArray _ | JObject _ => true
  end.

(** [a || b] when both sides are already evaluated (the right side of the
    uses in the source is a literal or a variable). *)
Definition or_else (a b : JSValue) : JSValue := if truthy a then a else b.

(** Truthiness of an optional string argument ([indexName?], [namespace?],
    [apiKey]): [undefined] and the empty string are falsy. *)
Definition truthy_str (o : option string) : bool :=
  match o with
  | Some s => negb (String.eqb s "")
  | None => false
  end.

(** Own property of an object built by JSON.parse or by an object literal:
    a later member with the same key replaces an earlier one. *)
Fixpoint obj_get (p : string) (members : list (string * JSValue)) : option JSValue :=
  match members with
  | [] => None
  | (k, v) :: rest =>
      match obj_get p rest with
      | Some w => Some w
      | None => if String.eqb k p then Some v else None
      end
  end.

(** What can be thrown across an [await].  The three classes of
    utils/errors are used through their constructors only; the constructor
    arguments are recorded as passed. *)
Inductive Thrown :=
  | AuthenticationError (message : string)
  | RateLimitError (message : string) (retryAfter : number)
  | PineconeApiError (message : JSValue) (statusCode : Z)
  | Error (message : string)
  | TypeError
  | SyntaxError
  | FetchFailed (reason : string).

(** [v.p] for the property names the source reads ([host], [error],
    [message], [indexes], ...): none of them lives on a prototype, so only
    objects can have them; reading a property of [undefined] or [null]
    throws a TypeError. *)
Definition get_prop (v : JSValue) (p : string) : Thrown + JSValue :=
  match v with
  | JUndefined | JNull => inl TypeError
  | JObject o => inr (default JUndefined (obj_get p o))
  | _ => inr JUndefined
  end.

(** [v?.p]. *)
Definition get_prop_opt (v : JSValue) (p : string) : JSValue :=
  match get_prop v p with
  | inl _ => JUndefined
  | inr w => w
  end.

(** [v.length]: arrays and strings have one. *)
Definition get_length (v : JSValue) : Thrown + JSValue :=
  match v with
  | JUndefined | JNull => inl TypeError
  | JArray l => inr (JNumber (Num (Z.of_nat (List.length l)) 0))
  | JString s => inr (JNumber (Num (Z.of_nat (String.length s)) 0))
  | JObject o => inr (default JUndefined (obj_get "length" o))
  | _ => inr JUndefined
  end.

(* ===================================================================== *)
(** ** parseInt(string, 10) *)
(* ===================================================================== *)

(** The Number value for a mathematical integer: the nearest binary64,
    ties to the even significand; an integer of magnitude up to 2^53 is
    its own value, and what rounds to 2^1024 or beyond is an infinity. *)
Definition to_binary64 (z : Z) : number :=
  let a := Z.abs z in
  if a <? 2 ^ 53 then Num z 0
  else
    let e := Z.log2 a - 52 in
    let q := a / 2 ^ e in
    let r := a mod 2 ^ e in
    let q' :=
      if 2 * r <? 2 ^ e then q
      else if 2 ^ e <? 2 * r then q + 1
      else if Z.even q then q else q + 1 in
    let v := q' * 2 ^ e in
    if 2 ^ 1024 <=? v then Infinity (z <? 0) else Num (Z.sgn z * v) 0.

(** Leading white space is skipped, a sign is read, then the longest run
    of decimal digits, whose value is rounded to a Number; without a digit
    the result is NaN.  White space is WhiteSpace and LineTerminator of
    the language: U+0009..U+000D and U+0020, and beyond ASCII U+00A0,
    U+1680, U+2000..U+200A, U+2028, U+2029, U+202F, U+205F, U+3000 and
    U+FEFF, met here in their UTF-8 form. *)

Definition is_StrWhiteSpaceChar (c : ascii) : bool :=
  let n := N_of_ascii c in
  ((9 <=? n) && (n <=? 13) || (n =? 32))%N.

(** U+00A0 is C2 A0. *)
Definition white_space_2 (c1 c2 : ascii) : bool :=
  ((N_of_ascii c1 =? 194) && (N_of_ascii c2 =? 160))%N.

Definition white_space_3 (c1 c2 c3 : ascii) : bool :=
  let a := N_of_ascii c1 in
  let b := N_of_ascii c2 in
  let c := N_of_ascii c3 in
  ((a =? 225) && (b =? 154) && (c =? 128)
   || (a =? 226) && (b =? 128)
      && ((128 <=? c) && (c <=? 138) || (c =? 168) || (c =? 169) || (c =? 175))
   || (a =? 226) && (b =? 129) && (c =? 159)
   || (a =? 227) && (b =? 128) && (c =? 128)
   || (a =? 239) && (b =? 187) && (c =? 191))%N.

(** An ASCII character that is not white space ends the run. *)
Fixpoint skip_white (s : string) : string :=
  match s with
  | String c1 rest1 =>
      if is_StrWhiteSpaceChar c1 then skip_white rest1
      else if (N_of_ascii c1 <? 128)%N then s
      else
        match rest1 with
        | String c2 rest2 =>
            if white_space_2 c1 c2 then skip_white rest2
            else
              match rest2 with
              | String c3 rest3 =>
                  if white_space_3 c1 c2 c3 then skip_white rest3 else s
              | EmptyString => s
              end
        | EmptyString => s
        end
  | EmptyString => s
  end.

Definition digit_value (c : ascii) : option Z :=
  let n := N_of_ascii c in
  if ((48 <=? n) && (n <=? 57))%N then Some (Z.of_N n - 48) else None.

(** Reads the longest prefix of decimal digits; [None] when it is empty. *)
Fixpoint parse_digits (acc : option Z) (s : string) : option Z :=
  match s with
  | String c rest =>
      match digit_value c with
      | Some d => parse_digits (Some (10 * default 0 acc + d)) rest
      | None => acc
      end
  | EmptyString => acc
  end.

Definition parseInt (input : string) : number :=
  let s := skip_white input in
  let '(sign, s) :=
    match s with
    | String "-" rest => (-1, rest)
    | String "+" rest => (1, rest)
    | _ => (1, s)
    end in
  match parse_digits None s with
  | Some n => to_binary64 (sign * n)
  | None => NaN
  end.

(* ===================================================================== *)
(** ** Requests and responses of fetch *)
(* ===================================================================== *)

(** RequestInit, with the fields the source sets. *)
Record RequestInit := {
  method : option string;
  body : option string;
  headers : option (gmap string string);
}.

Definition no_options : RequestInit :=
  {| method := None; body := None; headers := None |}.

(** One call [fetch(url, init)]. *)
Record Request := {
  req_url : string;
  req_method : option string;
  req_body : option string;
  req_headers : gmap string string;
}.

(** A received response: status, header list and body text.  The body
    is taken as already read: a failure of [response.text()] is a
    transport failure like a rejected [fetch]. *)
Record Response := {
  status : Z;
  resp_headers : list (string * string);
  resp_text : string;
}.

Definition ascii_lower (c : ascii) : ascii :=
  let n := N_of_ascii c in
  if ((65 <=? n) && (n <=? 90))%N then ascii_of_N (n + 32) else c.

Fixpoint lower (s : string) : string :=
  match s with
  | String c rest => String (ascii_lower c) (lower rest)
  | EmptyString => EmptyString
  end.

Fixpoint join (sep : string) (l : list string) : string :=
  match l with
  | [] => ""
  | [x] => x
  | x :: rest => x ++ sep ++ join sep rest
  end.

(** A header value is kept without its leading and trailing HTTP white
    space (tab, line feed, carriage return, space). *)
Definition is_HTTP_whitespace (c : ascii) : bool :=
  let n := N_of_ascii c in
  ((n =? 9) || (n =? 10) || (n =? 13) || (n =? 32))%N.

Fixpoint strip_leading (s : string) : string :=
  match s with
  | String c rest => if is_HTTP_whitespace c then strip_leading rest else s
  | EmptyString => s
  end.

Fixpoint strip_trailing (s : string) : string :=
  match s with
  | String c rest =>
      match strip_trailing rest with
      | EmptyString => if is_HTTP_whitespace c then EmptyString else String c EmptyString
      | kept => String c kept
      end
  | EmptyString => s
  end.

Definition normalize_value (value : string) : string :=
  strip_trailing (strip_leading value).

(** [headers.get(name)]: names compare without case; the values are
    normalized; several values are joined with a comma and a space;
    [null] when there is none. *)
Definition Headers_get (hs : list (string * string)) (name : string) : option string :=
  match List.filter (fun kv => String.eqb (lower (fst kv)) (lower name)) hs with
  | [] => None
  | found => Some (join ", " (List.map (fun kv => normalize_value (snd kv)) found))
  end.

(** [response.ok]. *)
Definition ok (r : Response) : bool := (200 <=? status r) && (status r <=? 299).

(* ===================================================================== *)
(** ** The platform *)
(* ===================================================================== *)

(** Built-ins the client calls but does not define.  [JSON_parse] is
    [None] where JSON.parse throws; [network] is the remote side seen
    through [fetch]: given the requests sent so far and the next one, a
    response or a rejection.  [error_message] reads the [message]
    property of a caught error (the error classes are declared in
    utils/errors). *)
Class Runtime := {
  JSON_parse : string -> option JSValue;
  JSON_stringify : JSValue -> string;
  encodeURIComponent : string -> string;
  URLSearchParams_toString : list (string * string) -> string;
  ToString : JSValue -> string;
  error_message : Thrown -> JSValue;
  network : list Request -> Request -> Thrown + Response;
}.

(* ===================================================================== *)
(** ** Client state and the monad of asynchronous methods *)
(* ===================================================================== *)

(** TenantCredentials (declared in types/env): the client reads its
    [apiKey] only, which may be missing. *)
Record TenantCredentials := { apiKey : option string }.

(** The two fields of a PineconeClientImpl instance, and the requests
    handed to [fetch] so far (newest first). *)
Record State := {
  credentials : TenantCredentials;
  indexHostCache : gmap string JSValue;
  fetched : list Request;
}.

(** [createPineconeClient]: a fresh instance owns an empty cache. *)
Definition createPineconeClient (c : TenantCredentials) : State :=
  {| credentials := c; indexHostCache := ∅; fetched := [] |}.

(** An async method: runs from a state to a state and either throws or
    returns.  Mutations made before a throw stay. *)
Definition M (A : Type) : Type := State -> State * (Thrown + A).

Definition ret {A} (a : A) : M A := fun s => (s, inr a).
Definition throw {A} (e : Thrown) : M A := fun s => (s, inl e).
Definition bind {A B} (m : M A) (k : A -> M B) : M B :=
  fun s =>
    match m s with
    | (s', inr a) => k a s'
    | (s', inl e) => (s', inl e)
    end.
(** [try { m } catch (error) { h error }]. *)
Definition try_catch {A} (m : M A) (h : Thrown -> M A) : M A :=
  fun s =>
    match m s with
    | (s', inr a) => (s', inr a)
    | (s', inl e) => h e s'
    end.
(** A synchronous expression that may throw. *)
Definition lift {A} (r : Thrown + A) : M A := fun s => (s, r).

Declare Scope js_scope.
Delimit Scope js_scope with js.
Notation "x <- m ;; k" := (bind m (fun x => k))
  (at level 100, m at next level, right associativity) : js_scope.
Notation "m ;;; k" := (bind m (fun _ => k))
  (at level 100, right associativity) : js_scope.
Open Scope js_scope.

Definition CONTROL_PLANE_URL : string := "https://api.pinecone.io".
Definition API_VERSION : string := "2025-01".

(** The object literal returned by [getAuthHeaders] for key [k]. *)
Definition auth_headers (k : string) : gmap string string :=
  <["Api-Key" := k]>
    (<["Content-Type" := "application/json"]>
       (<["X-Pinecone-Api-Version" := API_VERSION]> ∅)).

Definition missing_key : Thrown :=
  AuthenticationError "No API key provided. Include X-Pinecone-Api-Key header.".

Section Client.
Context {R : Runtime}.

(** [fetch(url, init)]: the request is recorded, the network answers. *)
Definition fetch (r : Request) : M Response :=
  fun s =>
    ({| credentials := credentials s;
        indexHostCache := indexHostCache s;
        fetched := r :: fetched s |},
     network (fetched s) r).

(** [!this.credentials.apiKey] holds for a missing and for an empty key. *)
Definition getAuthHeaders : M (gmap string string) :=
  fun s =>
    match apiKey (credentials s) with
    | Some k =>
        if String.eqb k "" then (s, inl missing_key)
        else (s, inr (auth_headers k))
    | None => (s, inl missing_key)
    end.

(** The message of a failed response:
    [errorJson.error?.message || errorJson.message || message] inside
    the try block, whose catch keeps the default. *)
Definition error_message_of (errorBody : string) (fallback : string) : JSValue :=
  match JSON_parse errorBody with
  | None => JString fallback
  | Some errorJson =>
      match get_prop errorJson "error" with
      | inl _ => JString fallback
      | inr err =>
          let nested := get_prop_opt err "message" in
          if truthy nested then nested
          else
            match get_prop errorJson "message" with
            | inl _ => JString fallback
            | inr top => or_else top (JString fallback)
            end
      end
  end.

(** The statements of [request] after [fetch] has answered: the
    ordered status rules. *)
Definition classify (response : Response) : Thrown + JSValue :=
  if status response =? 429 then
    let retryAfter := Headers_get (resp_headers response) "Retry-After" in
    inl (RateLimitError "Rate limit exceeded"
           (match retryAfter with
            | Some v => if truthy_str (Some v) then parseInt v else Num 60 0
            | None => Num 60 0
            end))
  else if (status response =? 401) || (status response =? 403) then
    inl (AuthenticationError "Authentication failed. Check your API key.")
  else if negb (ok response) then
    let errorBody := resp_text response in
    let message := "API error: " ++ pretty (status response) in
    inl (PineconeApiError (error_message_of errorBody message) (status response))
  else if (status response =? 202) || (status response =? 204) then
    inr JUndefined
  else
    let text := resp_text response in
    if String.eqb text "" then inr JUndefined
    else
      match JSON_parse text with
      | Some v => inr v
      | None => inl SyntaxError
      end.

(** [getAuthHeaders] is evaluated while the argument of [fetch] is
    built, so a missing key throws before [fetch] is called. *)
Definition request (url : string) (options : RequestInit) : M JSValue :=
  auth <- getAuthHeaders ;;
  response <- fetch {| req_url := url;
                       req_method := method options;
                       req_body := body options;
                       req_headers := default ∅ (headers options) ∪ auth |} ;;
  lift (classify response).

Definition controlPlaneRequest (endpoint : string) (options : RequestInit) : M JSValue :=
  request (CONTROL_PLANE_URL ++ endpoint) options.

Definition describeIndex (indexName : string) : M JSValue :=
  controlPlaneRequest ("/indexes/" ++ encodeURIComponent indexName) no_options.

Definition cache_set (k : string) (v : JSValue) : M unit :=
  fun s =>
    ({| credentials := credentials s;
        indexHostCache := <[k := v]> (indexHostCache s);
        fetched := fetched s |}, inr tt).

Definition cache_delete (k : string) : M unit :=
  fun s =>
    ({| credentials := credentials s;
        indexHostCache := delete k (indexHostCache s);
        fetched := fetched s |}, inr tt).

Definition cache_get (k : string) : M JSValue :=
  fun s => (s, inr (default JUndefined (indexHostCache s !! k))).

Definition getIndexHost (indexName : string) : M JSValue :=
  cached <- cache_get indexName ;;
  if truthy cached then ret cached
  else
    index <- describeIndex indexName ;;
    host <- lift (get_prop index "host") ;;
    cache_set indexName host ;;;
    ret host.

Definition dataPlaneRequest (indexName endpoint : string) (options : RequestInit)
  : M JSValue :=
  host <- getIndexHost indexName ;;
  request ("https://" ++ ToString host ++ endpoint) options.

Definition POST (b : string) : RequestInit :=
  {| method := Some "POST"; body := Some b; headers := None |}.
Definition with_method (m : string) : RequestInit :=
  {| method := Some m; body := None; headers := None |}.

(** *** Index operations (control plane) *)

Definition listIndexes : M JSValue :=
  response <- controlPlaneRequest "/indexes" no_options ;;
  indexes <- lift (get_prop response "indexes") ;;
  ret (or_else indexes (JArray [])).

Definition createIndex (req : JSValue) : M JSValue :=
  controlPlaneRequest "/indexes" (POST (JSON_stringify req)).

Definition deleteIndex (indexName : string) : M JSValue :=
  controlPlaneRequest ("/indexes/" ++ encodeURIComponent indexName)
    (with_method "DELETE") ;;;
  cache_delete indexName ;;;
  ret JUndefined.

Definition configureIndex (indexName : string) (req : JSValue) : M JSValue :=
  controlPlaneRequest ("/indexes/" ++ encodeURIComponent indexName)
    {| method := Some "PATCH"; body := Some (JSON_stringify req); headers := None |}.

(** *** Collection operations (control plane) *)

Definition listCollections : M JSValue :=
  response <- controlPlaneRequest "/collections" no_options ;;
  collections <- lift (get_prop response "collections") ;;
  ret (or_else collections (JArray [])).

Definition createCollection (req : JSValue) : M JSValue :=
  controlPlaneRequest "/collections" (POST (JSON_stringify req)).

Definition describeCollection (collectionName : string) : M JSValue :=
  controlPlaneRequest ("/collections/" ++ encodeURIComponent collectionName) no_options.

Definition deleteCollection (collectionName : string) : M JSValue :=
  controlPlaneRequest ("/collections/" ++ encodeURIComponent collectionName)
    (with_method "DELETE") ;;;
  ret JUndefined.

(** *** Backup and restore operations (control plane) *)

Definition listBackups (indexName : option string) : M JSValue :=
  let endpoint :=
    match indexName with
    | Some n =>
        if truthy_str (Some n)
        then "/indexes/" ++ encodeURIComponent n ++ "/backups"
        else "/backups"
    | None => "/backups"
    end in
  response <- controlPlaneRequest endpoint no_options ;;
  backups <- lift (get_prop response "backups") ;;
  ret (or_else backups (JArray [])).

Definition createBackup (indexName : string) (req : JSValue) : M JSValue :=
  controlPlaneRequest ("/indexes/" ++ encodeURIComponent indexName ++ "/backups")
    (POST (JSON_stringify (or_else req (JObject [])))).

Definition describeBackup (backupId : string) : M JSValue :=
  controlPlaneRequest ("/backups/" ++ encodeURIComponent backupId) no_options.

Definition deleteBackup (backupId : string) : M JSValue :=
  controlPlaneRequest ("/backups/" ++ encodeURIComponent backupId)
    (with_method "DELETE") ;;;
  ret JUndefined.

Definition createIndexFromBackup (req : JSValue) : M JSValue :=
  controlPlaneRequest "/indexes/from_backup" (POST (JSON_stringify req)).

Definition listRestoreJobs : M JSValue :=
  response <- controlPlaneRequest "/restore_jobs" no_options ;;
  jobs <- lift (get_prop response "restore_jobs") ;;
  ret (or_else jobs (JArray [])).

Definition describeRestoreJob (restoreId : string) : M JSValue :=
  controlPlaneRequest ("/restore_jobs/" ++ encodeURIComponent restoreId) no_options.

(** *** Vector operations (data plane) *)

Definition upsertVectors (indexName : string) (req : JSValue) : M JSValue :=
  dataPlaneRequest indexName "/vectors/upsert" (POST (JSON_stringify req)).

Definition queryVectors (indexName : string) (req : JSValue) : M JSValue :=
  dataPlaneRequest indexName "/query" (POST (JSON_stringify req)).

Definition fetchVectors_endpoint (ids : list string) (namespace : option string) : string :=
  let params := List.map (fun id => ("ids", id)) ids in
  let params :=
    match namespace with
    | Some ns => if truthy_str (Some ns) then (params ++ [("namespace", ns)])%list else params
    | None => params
    end in
  "/vectors/fetch?" ++ URLSearchParams_toString params.

Definition fetchVectors (indexName : string) (ids : list string)
    (namespace : option string) : M JSValue :=
  dataPlaneRequest indexName (fetchVectors_endpoint ids namespace) no_options.

Definition updateVector (indexName : string) (req : JSValue) : M JSValue :=
  dataPlaneRequest indexName "/vectors/update" (POST (JSON_stringify req)) ;;;
  ret JUndefined.

Definition deleteVectors (indexName : string) (req : JSValue) : M JSValue :=
  dataPlaneRequest indexName "/vectors/delete" (POST (JSON_stringify req)) ;;;
  ret JUndefined.

(** [if (request?.field) params.append(name, request.field)]. *)
Definition append_if (req : JSValue) (field : string)
    (params : list (string * string)) : list (string * string) :=
  let v := get_prop_opt req field in
  if truthy v then (params ++ [(field, ToString v)])%list else params.

Definition listVectorIds_endpoint (req : JSValue) : string :=
  let params := append_if req "namespace" [] in
  let params := append_if req "prefix" params in
  let params := append_if req "limit" params in
  let params := append_if req "paginationToken" params in
  let queryString := URLSearchParams_toString params in
  if String.eqb queryString "" then "/vectors/list"
  else "/vectors/list?" ++ queryString.

Definition listVectorIds (indexName : string) (req : JSValue) : M JSValue :=
  dataPlaneRequest indexName (listVectorIds_endpoint req) no_options.

(** *** Index statistics (data plane) *)

Definition describeIndexStats (indexName : string) (req : JSValue) : M JSValue :=
  dataPlaneRequest indexName "/describe_index_stats"
    (POST (JSON_stringify (or_else req (JObject [])))).

(** *** Namespace operations (data plane) *)

Definition listNamespaces (indexName : string) : M JSValue :=
  response <- dataPlaneRequest indexName "/namespaces" no_options ;;
  namespaces <- lift (get_prop response "namespaces") ;;
  ret (or_else namespaces (JArray [])).

Definition describeNamespace (indexName namespaceName : string) : M JSValue :=
  dataPlaneRequest indexName ("/namespaces/" ++ encodeURIComponent namespaceName)
    no_options.

Definition deleteNamespace (indexName namespaceName : string) : M JSValue :=
  dataPlaneRequest indexName ("/namespaces/" ++ encodeURIComponent namespaceName)
    (with_method "DELETE") ;;;
  ret JUndefined.

(** *** Import operations (data plane) *)

Definition startImport (indexName : string) (req : JSValue) : M JSValue :=
  dataPlaneRequest indexName "/bulk/imports" (POST (JSON_stringify req)).

Definition listImports (indexName : string) : M JSValue :=
  response <- dataPlaneRequest indexName "/bulk/imports" no_options ;;
  imports <- lift (get_prop response "imports") ;;
  ret (or_else imports (JArray [])).

Definition describeImport (indexName importId : string) : M JSValue :=
  dataPlaneRequest indexName ("/bulk/imports/" ++ encodeURIComponent importId)
    no_options.

Definition cancelImport (indexName importId : string) : M JSValue :=
  dataPlaneRequest indexName
    ("/bulk/imports/" ++ encodeURIComponent importId ++ "/cancel")
    (with_method "POST") ;;;
  ret JUndefined.

(** *** Inference operations *)

Definition generateEmbeddings (req : JSValue) : M JSValue :=
  controlPlaneRequest "/embed" (POST (JSON_stringify req)).

Definition rerankDocuments (req : JSValue) : M JSValue :=
  controlPlaneRequest "/rerank" (POST (JSON_stringify req)).

Definition listModels : M JSValue :=
  response <- controlPlaneRequest "/models" no_options ;;
  models <- lift (get_prop response "models") ;;
  ret (or_else models (JArray [])).

Definition describeModel (modelName : string) : M JSValue :=
  controlPlaneRequest ("/models/" ++ encodeURIComponent modelName) no_options.

(** *** Connection *)

Definition testConnection : M JSValue :=
  try_catch
    (listIndexes ;;;
     ret (JObject [("connected", JBool true);
                   ("message", JString "Successfully connected to Pinecone")]))
    (fun error =>
       ret (JObject [("connected", JBool false);
                     ("message", error_message error)])).
End Client.

(* ===================================================================== *)
(** ** The PineconeClient interface as a closed set of calls *)
(* ===================================================================== *)

(** One constructor per method of the interface, with its arguments.
    Request objects and optional request objects are JavaScript values
    ([JUndefined] for an omitted optional argument). *)
Inductive Op :=
  | TestConnection
  | ListIndexes
  | CreateIndex (req : JSValue)
  | DescribeIndex (indexName : string)
  | DeleteIndex (indexName : string)
  | ConfigureIndex (indexName : string) (req : JSValue)
  | ListCollections
  | CreateCollection (req : JSValue)
  | DescribeCollection (collectionName : string)
  | DeleteCollection (collectionName : string)
  | ListBackups (indexName : option string)
  | CreateBackup (indexName : string) (req : JSValue)
  | DescribeBackup (backupId : string)
  | DeleteBackup (backupId : string)
  | CreateIndexFromBackup (req : JSValue)
  | ListRestoreJobs
  | DescribeRestoreJob (restoreId : string)
  | UpsertVectors (indexName : string) (req : JSValue)
  | QueryVectors (indexName : string) (req : JSValue)
  | FetchVectors (indexName : string) (ids : list string) (namespace : option string)
  | UpdateVector (indexName : string) (req : JSValue)
  | DeleteVectors (indexName : string) (req : JSValue)
  | ListVectorIds (indexName : string) (req : JSValue)
  | DescribeIndexStats (indexName : string) (req : JSValue)
  | ListNamespaces (indexName : string)
  | DescribeNamespace (indexName namespaceName : string)
  | DeleteNamespace (indexName namespaceName : string)
  | StartImport (indexName : string) (req : JSValue)
  | ListImports (indexName : string)
  | DescribeImport (indexName importId : string)
  | CancelImport (indexName importId : string)
  | GenerateEmbeddings (req : JSValue)
  | RerankDocuments (req : JSValue)
  | ListModels
  | DescribeModel (modelName : string).

Section Dispatch.
Context {R : Runtime}.

Definition call (op : Op) : M JSValue :=
  match op with
  | TestConnection => testConnection
  | ListIndexes => listIndexes
  | CreateIndex req => createIndex req
  | DescribeIndex n => describeIndex n
  | DeleteIndex n => deleteIndex n
  | ConfigureIndex n req => configureIndex n req
  | ListCollections => listCollections
  | CreateCollection req => createCollection req
  | DescribeCollection n => describeCollection n
  | DeleteCollection n => deleteCollection n
  | ListBackups n => listBackups n
  | CreateBackup n req => createBackup n req
  | DescribeBackup i => describeBackup i
  | DeleteBackup i => deleteBackup i
  | CreateIndexFromBackup req => createIndexFromBackup req
  | ListRestoreJobs => listRestoreJobs
  | DescribeRestoreJob i => describeRestoreJob i
  | UpsertVectors n req => upsertVectors n req
  | QueryVectors n req => queryVectors n req
  | FetchVectors n ids ns => fetchVectors n ids ns
  | UpdateVector n req => updateVector n req
  | DeleteVectors n req => deleteVectors n req
  | ListVectorIds n req => listVectorIds n req
  | DescribeIndexStats n req => describeIndexStats n req
  | ListNamespaces n => listNamespaces n
  | DescribeNamespace n ns => describeNamespace n ns
  | DeleteNamespace n ns => deleteNamespace n ns
  | StartImport n req => startImport n req
  | ListImports n => listImports n
  | DescribeImport n i => describeImport n i
  | CancelImport n i => cancelImport n i
  | GenerateEmbeddings req => generateEmbeddings req
  | RerankDocuments req => rerankDocuments req
  | ListModels => listModels
  | DescribeModel n => describeModel n
  end.

(** The data-plane methods, read off their bodies: the index whose host
    is resolved, the endpoint and the options given to
    [dataPlaneRequest].  [None] for the other methods. *)
Definition data_plane (op : Op) : option (string * string * RequestInit) :=
  match op with
  | UpsertVectors n req => Some (n, "/vectors/upsert", POST (JSON_stringify req))
  | QueryVectors n req => Some (n, "/query", POST (JSON_stringify req))
  | FetchVectors n ids ns => Some (n, fetchVectors_endpoint ids ns, no_options)
  | UpdateVector n req => Some (n, "/vectors/update", POST (JSON_stringify req))
  | DeleteVectors n req => Some (n, "/vectors/delete", POST (JSON_stringify req))
  | ListVectorIds n req => Some (n, listVectorIds_endpoint req, no_options)
  | DescribeIndexStats n req =>
      Some (n, "/describe_index_stats",
            POST (JSON_stringify (or_else req (JObject []))))
  | ListNamespaces n => Some (n, "/namespaces", no_options)
  | DescribeNamespace n ns =>
      Some (n, "/namespaces/" ++ encodeURIComponent ns, no_options)
  | DeleteNamespace n ns =>
      Some (n, "/namespaces/" ++ encodeURIComponent ns, with_method "DELETE")
  | StartImport n req => Some (n, "/bulk/imports", POST (JSON_stringify req))
  | ListImports n => Some (n, "/bulk/imports", no_options)
  | DescribeImport n i =>
      Some (n, "/bulk/imports/" ++ encodeURIComponent i, no_options)
  | CancelImport n i =>
      Some (n, "/bulk/imports/" ++ encodeURIComponent i ++ "/cancel",
            with_method "POST")
  | _ => None
  end.

(** The request [request(url, options)] hands to [fetch] under key [k]. *)
Definition request_of (k url : string) (options : RequestInit) : Request :=
  {| req_url := url;
     req_method := method options;
     req_body := body options;
     req_headers := default ∅ (headers options) ∪ auth_headers k |}.

(** The request of [describeIndex(indexName)]: the resolution
    round-trip. *)
Definition describe_request (k indexName : string) : Request :=
  request_of k (CONTROL_PLANE_URL ++ "/indexes/" ++ encodeURIComponent indexName)
    no_options.

(** The request of a data-plane call once the host is known. *)
Definition data_request (k : string) (host : JSValue) (endpoint : string)
    (options : RequestInit) : Request :=
  request_of k ("https://" ++ ToString host ++ endpoint) options.
End Dispatch.

(* ===================================================================== *)
(** ** The pinecone_query_vectors tool (registerVectorTools) *)
(* ===================================================================== *)

(** What a formatter wraps, before it is rendered as JSON text:
    [formatResponse(data)] and [formatError(error)]; only the latter sets
    [isError]. *)
Inductive ToolResponse :=
  | formatResponse (data : JSValue)
  | formatError (error : Thrown).

Definition isError (r : ToolResponse) : bool :=
  match r with
  | formatResponse _ => false
  | formatError _ => true
  end.

(** The validated arguments of the tool. *)
Record QueryArgs := {
  q_indexName : string;
  q_vector : option (list number);
  q_id : option string;
  q_topK : number;
  q_namespace : option string;
  q_filter : option JSValue;
  q_includeValues : bool;
  q_includeMetadata : bool;
}.

Definition opt_value {A} (f : A -> JSValue) (o : option A) : JSValue :=
  match o with
  | Some a => f a
  | None => JUndefined
  end.

(** The object literal passed to [client.queryVectors]. *)
Definition query_request (a : QueryArgs) : JSValue :=
  JObject
    [("vector", opt_value (fun v => JArray (List.map JNumber v)) (q_vector a));
     ("id", opt_value JString (q_id a));
     ("topK", JNumber (q_topK a));
     ("namespace", opt_value JString (q_namespace a));
     ("filter", opt_value (fun f => f) (q_filter a));
     ("includeValues", JBool (q_includeValues a));
     ("includeMetadata", JBool (q_includeMetadata a))].

Section Tools.
Context {R : Runtime}.

(** [!vector && !id]: an array is truthy even when empty; an id is
    falsy when it is undefined or empty. *)
Definition neither_supplied (a : QueryArgs) : bool :=
  negb (match q_vector a with Some _ => true | None => false end)
  && negb (truthy_str (q_id a)).

Definition pinecone_query_vectors (a : QueryArgs) : M ToolResponse :=
  try_catch
    (if neither_supplied a then
       ret (formatError (Error "Must provide either vector or id"))
     else
       result <- queryVectors (q_indexName a) (query_request a) ;;
       matches <- lift (get_prop result "matches") ;;
       namespace <- lift (get_prop result "namespace") ;;
       matchCount <- lift (get_length matches) ;;
       usage <- lift (get_prop result "usage") ;;
       ret (formatResponse
              (JObject [("matches", matches);
                        ("namespace", namespace);
                        ("matchCount", matchCount);
                        ("usage", usage)])))
    (fun error => ret (formatError error)).
End Tools.

(* ===================================================================== *)
(** ** A reference platform *)
(* ===================================================================== *)

(** Executable versions of the built-ins, used to run the client on
    concrete traffic.  Strings are byte strings (UTF-8). *)
Module Reference.

Definition is_json_space (c : ascii) : bool :=
  let n := N_of_ascii c in ((n =? 32) || (n =? 9) || (n =? 10) || (n =? 13))%N.

Fixpoint skip_ws (s : string) : string :=
  match s with
  | String c rest => if is_json_space c then skip_ws rest else s
  | EmptyString => s
  end.

(** Longest run of digits: their value, their count, the rest. *)
Fixpoint digits (acc : Z) (count : Z) (s : string) : Z * Z * string :=
  match s with
  | String c rest =>
      match digit_value c with
      | Some d => digits (10 * acc + d) (count + 1) rest
      | None => (acc, count, s)
      end
  | EmptyString => (acc, count, s)
  end.

(** number = [-] int [frac] [exp] *)
Definition parse_number (s : string) : option (number * string) :=
  let '(sign, s) :=
    match s with
    | String "-" rest => (-1, rest)
    | _ => (1, s)
    end in
  let '(int, n, s1) := digits 0 0 s in
  let leading_zero :=
    match s with
    | String "0" _ => negb (n =? 1)
    | _ => false
    end in
  if (n =? 0) || leading_zero then None
  else
    let after_frac :=
      match s1 with
      | String "." rest =>
          let '(m, k, s2) := digits int 0 rest in
          if k =? 0 then None else Some (m, k, s2)
      | _ => Some (int, 0, s1)
      end in
    match after_frac with
    | None => None
    | Some (m, k, s2) =>
        let exponent (esign : Z) (rest : string) :=
          let '(e, j, s3) := digits 0 0 rest in
          if j =? 0 then None else Some (Num (sign * m) (esign * e - k), s3) in
        match s2 with
        | String c rest =>
            if (Ascii.eqb c "e" || Ascii.eqb c "E")%bool then
              match rest with
              | String "-" rest' => exponent (-1) rest'
              | String "+" rest' => exponent 1 rest'
              | _ => exponent 1 rest
              end
            else Some (Num (sign * m) (- k), s2)
        | EmptyString => Some (Num (sign * m) (- k), s2)
        end
    end.

Definition hex_value (c : ascii) : option N :=
  let n := N_of_ascii c in
  if ((48 <=? n) && (n <=? 57))%N then Some (n - 48)%N
  else if ((65 <=? n) && (n <=? 70))%N then Some (n - 55)%N
  else if ((97 <=? n) && (n <=? 102))%N then Some (n - 87)%N
  else None.

(** UTF-8 bytes of a code point below 2^16. *)
Definition utf8 (u : N) : string :=
  if (u <? 128)%N then String (ascii_of_N u) ""
  else if (u <? 2048)%N then
    String (ascii_of_N (192 + u / 64)) (String (ascii_of_N (128 + u mod 64)) "")
  else
    String (ascii_of_N (224 + u / 4096))
      (String (ascii_of_N (128 + (u / 64) mod 64))
         (String (ascii_of_N (128 + u mod 64)) "")).

(** The double quote, and a way to write JSON text with apostrophes
    in its place. *)
Definition dquote : ascii := ascii_of_N 34.

Fixpoint dq (s : string) : string :=
  match s with
  | String c rest => String (if Ascii.eqb c "'" then dquote else c) (dq rest)
  | EmptyString => EmptyString
  end.

Definition escape (e : ascii) : option string :=
  if Ascii.eqb e dquote then Some (String dquote "")
  else
    match e with
    | "\"%char => Some "\"
    | "/"%char => Some "/"
    | "b"%char => Some (String (ascii_of_N 8) "")
    | "f"%char => Some (String (ascii_of_N 12) "")
    | "n"%char => Some (String (ascii_of_N 10) "")
    | "r"%char => Some (String (ascii_of_N 13) "")
    | "t"%char => Some (String (ascii_of_N 9) "")
    | _ => None
    end.

(** The characters of a string literal after the opening quote. *)
Fixpoint parse_chars (fuel : nat) (s : string) : option (string * string) :=
  match fuel with
  | O => None
  | S fuel =>
      let continue (c : string) (rest : string) :=
        match parse_chars fuel rest with
        | Some (t, r) => Some (c ++ t, r)
        | None => None
        end in
      match s with
      | String "\" (String "u" (String a (String b (String c (String d rest))))) =>
          match hex_value a, hex_value b, hex_value c, hex_value d with
          | Some a, Some b, Some c, Some d =>
              continue (utf8 (((a * 16 + b) * 16 + c) * 16 + d)%N) rest
          | _, _, _, _ => None
          end
      | String "\" (String e rest) =>
          match escape e with
          | Some c => continue c rest
          | None => None
          end
      | String c rest =>
          if Ascii.eqb c dquote then Some ("", rest)
          else if (N_of_ascii c <? 32)%N then None
          else continue (String c "") rest
      | EmptyString => None
      end
  end.

Definition parse_string (s : string) : option (string * string) :=
  match s with
  | String c rest =>
      if Ascii.eqb c dquote then parse_chars (S (String.length rest)) rest
      else None
  | EmptyString => None
  end.

Fixpoint starts_with (p s : string) : option string :=
  match p, s with
  | EmptyString, _ => Some s
  | String a p', String b s' => if Ascii.eqb a b then starts_with p' s' else None
  | _, _ => None
  end.

Definition parse_scalar (t : string) : option (JSValue * string) :=
  match parse_string t with
  | Some (v, r) => Some (JString v, r)
  | None =>
      match starts_with "null" t, starts_with "true" t, starts_with "false" t with
      | Some r, _, _ => Some (JNull, r)
      | _, Some r, _ => Some (JBool true, r)
      | _, _, Some r => Some (JBool false, r)
      | _, _, _ =>
          match parse_number t with
          | Some (n, r) => Some (JNumber n, r)
          | None => None
          end
      end
  end.

Fixpoint parse_value (fuel : nat) (s : string) : option (JSValue * string) :=
  match fuel with
  | O => None
  | S fuel =>
      match skip_ws s with
      | String "{" rest =>
          match skip_ws rest with
          | String "}" rest' => Some (JObject [], rest')
          | _ =>
              match parse_members fuel rest with
              | Some (ms, r) => Some (JObject ms, r)
              | None => None
              end
          end
      | String "[" rest =>
          match skip_ws rest with
          | String "]" rest' => Some (JArray [], rest')
          | _ =>
              match parse_elements fuel rest with
              | Some (vs, r) => Some (JArray vs, r)
              | None => None
              end
          end
      | t => parse_scalar t
      end
  end
with parse_elements (fuel : nat) (s : string) : option (list JSValue * string) :=
  match fuel with
  | O => None
  | S fuel =>
      match parse_value fuel s with
      | Some (v, r) =>
          match skip_ws r with
          | String "," r' =>
              match parse_elements fuel r' with
              | Some (vs, r'') => Some (v :: vs, r'')
              | None => None
              end
          | String "]" r' => Some ([v], r')
          | _ => None
          end
      | None => None
      end
  end
with parse_members (fuel : nat) (s : string)
    : option (list (string * JSValue) * string) :=
  match fuel with
  | O => None
  | S fuel =>
      match parse_string (skip_ws s) with
      | Some (k, r) =>
          match skip_ws r with
          | String ":" r' =>
              match parse_value fuel r' with
              | Some (v, r'') =>
                  match skip_ws r'' with
                  | String "," r3 =>
                      match parse_members fuel r3 with
                      | Some (ms, r4) => Some ((k, v) :: ms, r4)
                      | None => None
                      end
                  | String "}" r3 => Some ([(k, v)], r3)
                  | _ => None
                  end
              | None => None
              end
          | _ => None
          end
      | None => None
      end
  end.

(** JSON.parse: one value between optional white space. *)
Definition JSON_parse (text : string) : option JSValue :=
  match parse_value (2 * String.length text + 2) text with
  | Some (v, r) =>
      match skip_ws r with
      | EmptyString => Some v
      | _ => None
      end
  | None => None
  end.

(** Decimal text of a number.  Integers are written as JavaScript
    writes them below 10^21; other values are written with an exponent,
    which denotes the same number. *)
Definition number_text (n : number) : string :=
  match n with
  | NaN => "NaN"
  | Infinity negative => if negative then "-Infinity" else "Infinity"
  | Num m e =>
      if e =? 0 then pretty m
      else if 0 <? e then pretty (m * 10 ^ e)
      else pretty m ++ "e" ++ pretty e
  end.

Definition hex_digit (n : N) : ascii :=
  if (n <? 10)%N then ascii_of_N (48 + n) else ascii_of_N (55 + n).

Definition percent (c : ascii) : string :=
  let n := N_of_ascii c in
  String "%" (String (hex_digit (n / 16)) (String (hex_digit (n mod 16)) "")).

Definition is_alnum (c : ascii) : bool :=
  let n := N_of_ascii c in
  ((48 <=? n) && (n <=? 57) || (65 <=? n) && (n <=? 90)
   || (97 <=? n) && (n <=? 122))%N.

Definition one_of (set : string) (c : ascii) : bool :=
  existsb (Ascii.eqb c) (list_ascii_of_string set).

Fixpoint encode (keep : ascii -> bool) (space_plus : bool) (s : string) : string :=
  match s with
  | String c rest =>
      (if keep c then String c ""
       else if space_plus && Ascii.eqb c " " then "+"
       else percent c) ++ encode keep space_plus rest
  | EmptyString => EmptyString
  end.

(** encodeURIComponent keeps letters, digits and [-_.!~*'()]. *)
Definition encodeURIComponent (s : string) : string :=
  encode (fun c => is_alnum c || one_of "-_.!~*'()" c) false s.

(** The application/x-www-form-urlencoded serializer. *)
Definition URLSearchParams_toString (params : list (string * string)) : string :=
  let enc := encode (fun c => is_alnum c || one_of "*-._" c) true in
  join "&" (List.map (fun kv => enc (fst kv) ++ "=" ++ enc (snd kv)) params).

Fixpoint quote_chars (s : string) : string :=
  match s with
  | String c rest =>
      (if Ascii.eqb c dquote then String "\" (String dquote "")
       else if Ascii.eqb c "\" then "\"
       else if (N_of_ascii c <? 32)%N then
         "\u00" ++ String (hex_digit (N_of_ascii c / 16))
                     (String (hex_digit (N_of_ascii c mod 16)) "")
       else String c "") ++ quote_chars rest
  | EmptyString => EmptyString
  end.

Definition quote (s : string) : string :=
  String dquote (quote_chars s) ++ String dquote "".

(** JSON.stringify of a value that is not [undefined]: members whose
    value is [undefined] are left out, [undefined] in an array is
    written as null. *)
Fixpoint JSON_stringify (v : JSValue) : string :=
  match v with
  | JUndefined | JNull => "null"
  | JBool true => "true"
  | JBool false => "false"
  | JNumber NaN | JNumber (Infinity _) => "null"
  | JNumber n => number_text n
  | JString s => quote s
  | JArray items => "[" ++ join "," (List.map JSON_stringify items) ++ "]"
  | JObject members =>
      "{" ++ join ","
               ((fix each (ms : list (string * JSValue)) : list string :=
                   match ms with
                   | [] => []
                   | (_, JUndefined) :: rest => each rest
                   | (k, x) :: rest =>
                       (quote k ++ ":" ++ JSON_stringify x) :: each rest
                   end) members)
      ++ "}"
  end.

(** ToString, as a template literal or [String(v)] applies it. *)
Fixpoint ToString (v : JSValue) : string :=
  match v with
  | JUndefined => "undefined"
  | JNull => "null"
  | JBool true => "true"
  | JBool false => "false"
  | JNumber n => number_text n
  | JString s => s
  | JArray items =>
      join ","
        (List.map (fun x => match x with
                            | JUndefined | JNull => ""
                            | _ => ToString x
                            end) items)
  | JObject _ => "[object Object]"
  end.

(** The [message] of an error: the custom classes keep the message
    they were constructed with. *)
Definition error_message (e : Thrown) : JSValue :=
  match e with
  | AuthenticationError m | RateLimitError m _ | Error m => JString m
  | PineconeApiError m _ => m
  | TypeError => JString "Cannot read properties of undefined"
  | SyntaxError => JString "Unexpected token in JSON"
  | FetchFailed reason => JString reason
  end.

(** The platform over a given remote side. *)
Definition runtime (net : list Request -> Request -> Thrown + Response) : Runtime :=
  Build_Runtime JSON_parse JSON_stringify encodeURIComponent
    URLSearchParams_toString ToString error_message net.

End Reference.

(* ===================================================================== *)
(** ** Vocabulary of the statements *)
(* ===================================================================== *)

(** The state after [fetch] has been called with [r]. *)
Definition sent (r : Request) (s : State) : State :=
  {| credentials := credentials s;
     indexHostCache := indexHostCache s;
     fetched := r :: fetched s |}.

(** The client holds the non-empty key [k]. *)
Definition has_key (k : string) (s : State) : Prop :=
  apiKey (credentials s) = Some k /\ k <> "".

(** The lookup of [getIndexHost] finds nothing it can use: no entry, or an
    entry whose value is falsy. *)
Definition cache_miss (indexName : string) (s : State) : Prop :=
  truthy (default JUndefined (indexHostCache s !! indexName)) = false.

(** Field [p] of a parsed body, [undefined] when the body is not an
    object or has no such field. *)
Definition member (p : string) (json : JSValue) : JSValue :=
  match json with
  | JObject o => default JUndefined (obj_get p o)
  | _ => JUndefined
  end.

(** Whether a field is present at all, whatever its value. *)
Definition present (p : string) (json : JSValue) : bool :=
  match json with
  | JObject o => match obj_get p o with Some _ => true | None => false end
  | _ => false
  end.

(** The state after [indexHostCache.set(n, h)]. *)
Definition cached (n : string) (h : JSValue) (s : State) : State :=
  {| credentials := credentials s;
     indexHostCache := <[n := h]> (indexHostCache s);
     fetched := fetched s |}.

(** The state after [indexHostCache.delete(n)]. *)
Definition evicted (n : string) (s : State) : State :=
  {| credentials := credentials s;
     indexHostCache := delete n (indexHostCache s);
     fetched := fetched s |}.

(** The answer of the network to [r] in state [s], classified. *)
Definition answer {R : Runtime} (r : Request) (s : State) : Thrown + JSValue :=
  match network (fetched s) r with
  | inl e => inl e
  | inr response => classify response
  end.

(** How a method uses the two planes: every method but [deleteIndex] and
    [testConnection] is one plane request followed by a computation on
    its result that touches neither the cache nor the network. *)
Inductive Shape {R : Runtime} (op : Op) : Prop :=
  | shape_control (endpoint : string) (o : RequestInit)
      (post : JSValue -> Thrown + JSValue) :
      data_plane op = None ->
      op <> TestConnection ->
      headers o = None ->
      (forall s, call op s =
                 (v <- controlPlaneRequest endpoint o ;; lift (post v)) s) ->
      Shape op
  | shape_data (n endpoint : string) (o : RequestInit)
      (post : JSValue -> Thrown + JSValue) :
      data_plane op = Some (n, endpoint, o) ->
      op <> TestConnection ->
      headers o = None ->
      (forall s, call op s =
                 (v <- dataPlaneRequest n endpoint o ;; lift (post v)) s) ->
      Shape op
  | shape_delete (n : string) : op = DeleteIndex n -> Shape op
  | shape_test : op = TestConnection -> Shape op.

(** The three headers of a request, with their values. *)
Definition carries_three_headers (k : string) (r : Request) : Prop :=
  req_headers r !! "Api-Key" = Some k
  /\ req_headers r !! "Content-Type" = Some "application/json"
  /\ req_headers r !! "X-Pinecone-Api-Version" = Some "2025-01"
  /\ size (req_headers r) = 3%nat.

(** What [testConnection] returns when [listIndexes] threw [e]. *)
Definition not_connected {R : Runtime} (e : Thrown) : JSValue :=
  JObject [("connected", JBool false); ("message", error_message e)].

(** The message of an ApiError read with "present" meaning that the
    field exists, whatever it holds: the nested error.message when
    present, else the top-level message when present, else the
    fallback. *)
Definition message_when_present {R : Runtime} (text : string) (code : Z) : JSValue :=
  let fallback := JString ("API error: " ++ pretty code) in
  match JSON_parse text with
  | None => fallback
  | Some json =>
      if present "message" (member "error" json)
      then member "message" (member "error" json)
      else if present "message" json then member "message" json
      else fallback
  end.

(** What the specification calls the integer value of a header: the
    value reads as an integer when it is white space, an optional sign,
    decimal digits (leading zeros, then a number as it is printed) and
    then anything that does not go on with a digit. *)

(** UTF-8 of a code point of the basic plane. *)
Definition utf8 (cp : N) : string :=
  (if cp <? 128 then String (ascii_of_N cp) ""
   else if cp <? 2048 then
     String (ascii_of_N (192 + cp / 64)) (String (ascii_of_N (128 + cp mod 64)) "")
   else
     String (ascii_of_N (224 + cp / 4096))
       (String (ascii_of_N (128 + (cp / 64) mod 64))
          (String (ascii_of_N (128 + cp mod 64)) "")))%N.

(** The code points of WhiteSpace and LineTerminator. *)
Definition WhiteSpace : list N :=
  [9; 10; 11; 12; 13; 32; 160; 5760;
   8192; 8193; 8194; 8195; 8196; 8197; 8198; 8199; 8200; 8201; 8202;
   8232; 8233; 8239; 8287; 12288; 65279]%N.

Definition blanks (cps : list N) : string :=
  fold_right (fun cp rest => utf8 cp ++ rest) "" cps.

Fixpoint zeros (k : nat) : string :=
  match k with
  | O => ""
  | S k => String "0" (zeros k)
  end.

Definition is_sign (sign : string) : Prop := sign = "" \/ sign = "+" \/ sign = "-".

Definition signed (sign : string) (n : N) : Z :=
  if String.eqb sign "-" then - Z.of_N n else Z.of_N n.

Definition no_digit_first (rest : string) : bool :=
  match rest with
  | String c _ => negb ((48 <=? N_of_ascii c) && (N_of_ascii c <=? 57))%N
  | EmptyString => true
  end.

Definition integer_text (value : string) (z : Z) : Prop :=
  exists (cps : list N) (sign : string) (k : nat) (n : N) (rest : string),
    Forall (fun cp => In cp WhiteSpace) cps
    /\ is_sign sign
    /\ no_digit_first rest = true
    /\ value = blanks cps ++ sign ++ zeros k ++ pretty n ++ rest
    /\ z = signed sign n.

(* ===================================================================== *)
(** ** Scenarios: clients and remote sides to run them against *)
(* ===================================================================== *)

Definition tenant (k : string) : TenantCredentials := {| apiKey := Some k |}.

(** A remote side that answers the i-th request with the i-th response
    of a script and rejects every later one. *)
Definition scripted (answers : list Response)
    : list Request -> Request -> Thrown + Response :=
  fun history _ =>
    match answers !! List.length history with
    | Some r => inr r
    | None => inl (FetchFailed "fetch failed")
    end.

Definition respond (code : Z) (hs : list (string * string)) (text : string) : Response :=
  {| status := code; resp_headers := hs; resp_text := text |}.

(** A client holding a key, before any call. *)
Definition demo : State := createPineconeClient (tenant "pc-key").

(** A client without a key. *)
Definition no_key : State := createPineconeClient {| apiKey := None |}.

Definition top3 : JSValue := JObject [("topK", JNumber (Num 3 0))].

(** One answer each: a throttled, a rejected, a failing and an accepted
    request. *)
Definition throttled : Runtime :=
  Reference.runtime (scripted [respond 429 [("Retry-After", "37")] ""]).
Definition throttled_bare : Runtime :=
  Reference.runtime (scripted [respond 429 [("Content-Type", "text/plain")] ""]).
Definition rejected : Runtime :=
  Reference.runtime
    (scripted [respond 401 [] (Reference.dq "{'error':{'message':'leak'}}")]).
Definition failing : Runtime :=
  Reference.runtime
    (scripted [respond 500 [] (Reference.dq "{'error':{'message':'boom'}}")]).
Definition empty_message : Runtime :=
  Reference.runtime (scripted [respond 500 [] (Reference.dq "{'message':''}")]).
Definition accepted : Runtime :=
  Reference.runtime (scripted [respond 202 [] ""]).

(** A describe call, then two data-plane calls. *)
Definition serving : Runtime :=
  Reference.runtime
    (scripted
       [respond 200 [] (Reference.dq "{'name':'idx','host':'idx-abc.svc.pinecone.io'}");
        respond 200 [] (Reference.dq "{'namespaces':[{'name':'a'}]}");
        respond 200 [] (Reference.dq "{'matches':[],'namespace':''}")]).

(** Every describe call answers with an empty host. *)
Definition hostless : Runtime :=
  Reference.runtime
    (fun _ _ => inr (respond 200 [] (Reference.dq "{'name':'idx','host':''}"))).

(** The index does not exist. *)
Definition missing_index : Runtime :=
  Reference.runtime
    (scripted
       [respond 404 []
          (Reference.dq "{'error':{'code':'NOT_FOUND','message':'Resource idx not found'}}")]).

(** Resolve, use, delete, and the index is gone. *)
Definition deleting : Runtime :=
  Reference.runtime
    (scripted
       [respond 200 [] (Reference.dq "{'name':'idx','host':'idx-abc.svc.pinecone.io'}");
        respond 200 [] (Reference.dq "{'namespaces':[]}");
        respond 202 [] "";
        respond 404 [] (Reference.dq "{'error':{'message':'Resource idx not found'}}")]).

(** A describe call and a query with one match. *)
Definition querying : Runtime :=
  Reference.runtime
    (scripted
       [respond 200 [] (Reference.dq "{'name':'idx','host':'idx-abc.svc.pinecone.io'}");
        respond 200 []
          (Reference.dq "{'matches':[{'id':'v1','score':1}],'namespace':''}")]).

(** Arguments of the query tool with a vector and an id, and with
    neither. *)
Definition both_supplied : QueryArgs :=
  {| q_indexName := "idx";
     q_vector := Some [Num 1 0; Num 0 0];
     q_id := Some "v1";
     q_topK := Num 3 0;
     q_namespace := None;
     q_filter := None;
     q_includeValues := false;
     q_includeMetadata := true |}.

Definition none_supplied : QueryArgs :=
  {| q_indexName := "idx";
     q_vector := None;
     q_id := None;
     q_topK := Num 3 0;
     q_namespace := None;
     q_filter := None;
     q_includeValues := false;
     q_includeMetadata := true |}.

(** The client after a data-plane call has cached the host of "idx". *)
Definition warmed : State := (call (R := deleting) (ListNamespaces "idx") demo).1.

(* ===================================================================== *)
(** ** The control-plane and list-shaped methods, read off their bodies *)
(* ===================================================================== *)

Section Descriptors.
Context {R : Runtime}.

(** The endpoint and options a method gives to [controlPlaneRequest];
    [testConnection] does so through [listIndexes].  [None] for the
    data-plane methods. *)
Definition control_plane (op : Op) : option (string * RequestInit) :=
  match op with
  | TestConnection | ListIndexes => Some ("/indexes", no_options)
  | CreateIndex req => Some ("/indexes", POST (JSON_stringify req))
  | DescribeIndex n => Some ("/indexes/" ++ encodeURIComponent n, no_options)
  | DeleteIndex n =>
      Some ("/indexes/" ++ encodeURIComponent n, with_method "DELETE")
  | ConfigureIndex n req =>
      Some ("/indexes/" ++ encodeURIComponent n,
            {| method := Some "PATCH"; body := Some (JSON_stringify req);
               headers := None |})
  | ListCollections => Some ("/collections", no_options)
  | CreateCollection req => Some ("/collections", POST (JSON_stringify req))
  | DescribeCollection n =>
      Some ("/collections/" ++ encodeURIComponent n, no_options)
  | DeleteCollection n =>
      Some ("/collections/" ++ encodeURIComponent n, with_method "DELETE")
  | ListBackups n =>
      Some (if truthy_str n
            then "/indexes/" ++ encodeURIComponent (default "" n) ++ "/backups"
            else "/backups", no_options)
  | CreateBackup n req =>
      Some ("/indexes/" ++ encodeURIComponent n ++ "/backups",
            POST (JSON_stringify (or_else req (JObject []))))
  | DescribeBackup i => Some ("/backups/" ++ encodeURIComponent i, no_options)
  | DeleteBackup i =>
      Some ("/backups/" ++ encodeURIComponent i, with_method "DELETE")
  | CreateIndexFromBackup req =>
      Some ("/indexes/from_backup", POST (JSON_stringify req))
  | ListRestoreJobs => Some ("/restore_jobs", no_options)
  | DescribeRestoreJob i =>
      Some ("/restore_jobs/" ++ encodeURIComponent i, no_options)
  | GenerateEmbeddings req => Some ("/embed", POST (JSON_stringify req))
  | RerankDocuments req => Some ("/rerank", POST (JSON_stringify req))
  | ListModels => Some ("/models", no_options)
  | DescribeModel n => Some ("/models/" ++ encodeURIComponent n, no_options)
  | _ => None
  end.

(** The envelope field a list-shaped method unwraps. *)
Definition list_field (op : Op) : option string :=
  match op with
  | ListIndexes => Some "indexes"
  | ListCollections => Some "collections"
  | ListBackups _ => Some "backups"
  | ListRestoreJobs => Some "restore_jobs"
  | ListNamespaces _ => Some "namespaces"
  | ListImports _ => Some "imports"
  | ListModels => Some "models"
  | _ => None
  end.

(** The request a method sends first when nothing has to be resolved: the
    control-plane request, or the data-plane request to a host the cache
    serves.  [None] when the host must be resolved first. *)
Definition direct_request (k : string) (op : Op) (s : State) : option Request :=
  match control_plane op, data_plane op with
  | Some (endpoint, o), _ =>
      Some (request_of k (CONTROL_PLANE_URL ++ endpoint) o)
  | None, Some (n, endpoint, o) =>
      let host := default JUndefined (indexHostCache s !! n) in
      if truthy host then Some (data_request k host endpoint o) else None
  | None, None => None
  end.
End Descriptors.

(** What a list-shaped method makes of the payload [v] of its request:
    [v.p || []]. *)
Definition unwrap_list (p : string) (v : JSValue) : Thrown + JSValue :=
  match v with
  | JUndefined | JNull => inl TypeError
  | _ => inr (if truthy (member p v) then member p v else JArray [])
  end.

(** An ASCII letter: the first character of an HTTP-date. *)
Definition is_ascii_letter (c : ascii) : bool :=
  let n := N_of_ascii c in
  ((65 <=? n) && (n <=? 90) || (97 <=? n) && (n <=? 122))%N.

(* ===================================================================== *)
(** ** The formatters and the tool handlers (src/utils/formatters.ts,
       src/tools) *)
(* ===================================================================== *)

(** [formatSuccess(message, data)] wraps the object
    [{ success: true, message, ...(data ? { data } : {}) }] the way
    [formatResponse] wraps its argument. *)
Definition formatSuccess (message : string) (data : JSValue) : ToolResponse :=
  formatResponse
    (JObject ([("success", JBool true); ("message", JString message)]
              ++ (if truthy data then [("data", data)] else []))%list).

(** [...(c && { members })] inside an object literal. *)
Definition spread_if (c : bool) (members : list (string * JSValue))
    : list (string * JSValue) :=
  if c then members else [].

Definition truthy_opt (o : option JSValue) : bool :=
  match o with
  | Some v => truthy v
  | None => false
  end.

Definition defined {A} (o : option A) : bool :=
  match o with
  | Some _ => true
  | None => false
  end.

Definition strings (l : list string) : JSValue := JArray (List.map JString l).

(** [Object.keys(v).length]: the own keys of an object, the indices of an
    array or a string, none for a number or a boolean. *)
Definition keys_count (v : JSValue) : Thrown + JSValue :=
  match v with
  | JUndefined | JNull => inl TypeError
  | JObject o =>
      inr (JNumber (Num (Z.of_nat (List.length (remove_dups (List.map fst o)))) 0))
  | JArray l => inr (JNumber (Num (Z.of_nat (List.length l)) 0))
  | JString s => inr (JNumber (Num (Z.of_nat (String.length s)) 0))
  | _ => inr (JNumber (Num 0 0))
  end.

Fixpoint map_throw (f : JSValue -> Thrown + JSValue) (l : list JSValue)
    : Thrown + list JSValue :=
  match l with
  | [] => inr []
  | x :: rest =>
      match f x with
      | inl e => inl e
      | inr y =>
          match map_throw f rest with
          | inl e => inl e
          | inr ys => inr (y :: ys)
          end
      end
  end.

(** [v.map(f)]: only an array has [map]. *)
Definition array_map (f : JSValue -> Thrown + JSValue) (v : JSValue)
    : Thrown + JSValue :=
  match v with
  | JArray l =>
      match map_throw f l with
      | inl e => inl e
      | inr ys => inr (JArray ys)
      end
  | _ => inl TypeError
  end.

(** [data[0]?.values.length] for an array [data]. *)
Definition first_dimension (data : JSValue) : Thrown + JSValue :=
  match data with
  | JArray (JUndefined :: _) | JArray (JNull :: _) | JArray [] => inr JUndefined
  | JArray (d :: _) =>
      match get_prop d "values" with
      | inl e => inl e
      | inr values => get_length values
      end
  | _ => inl TypeError
  end.

Record CreateIndexArgs := {
  ci_name : string;
  ci_dimension : number;
  ci_metric : string;
  ci_cloud : option string;
  ci_region : option string;
  ci_environment : option string;
  ci_podType : option string;
  ci_pods : option number;
  ci_replicas : option number;
  ci_deletionProtection : option string;
  ci_tags : option JSValue;
}.

(** The [spec] the create-index handler builds, when it builds one. *)
Definition create_index_spec (a : CreateIndexArgs) : option JSValue :=
  if truthy_str (ci_cloud a) && truthy_str (ci_region a) then
    Some (JObject
            [("serverless",
              JObject [("cloud", opt_value JString (ci_cloud a));
                       ("region", opt_value JString (ci_region a))])])
  else if truthy_str (ci_environment a) && truthy_str (ci_podType a) then
    Some (JObject
            [("pod",
              JObject ([("environment", opt_value JString (ci_environment a));
                        ("pod_type", opt_value JString (ci_podType a))]
                       ++ spread_if (truthy (opt_value JNumber (ci_pods a)))
                            [("pods", opt_value JNumber (ci_pods a))]
                       ++ spread_if (truthy (opt_value JNumber (ci_replicas a)))
                            [("replicas", opt_value JNumber (ci_replicas a))])%list)])
  else None.

Definition create_index_request (a : CreateIndexArgs) (spec : JSValue) : JSValue :=
  JObject ([("name", JString (ci_name a));
            ("dimension", JNumber (ci_dimension a));
            ("metric", JString (ci_metric a));
            ("spec", spec)]
           ++ spread_if (truthy_str (ci_deletionProtection a))
                [("deletion_protection", opt_value JString (ci_deletionProtection a))]
           ++ spread_if (truthy_opt (ci_tags a))
                [("tags", opt_value (fun t => t) (ci_tags a))])%list.

(** The request object of the configure-index handler: a field is set
    when its argument is not [undefined]. *)
Definition configure_index_request (replicas : option number) (podType : option string)
    (deletionProtection : option string) (tags : option JSValue) : JSValue :=
  JObject (spread_if (defined replicas || defined podType)
             [("spec",
               JObject
                 [("pod",
                   JObject (spread_if (defined replicas)
                              [("replicas", opt_value JNumber replicas)]
                            ++ spread_if (defined podType)
                                 [("pod_type", opt_value JString podType)])%list)])]
           ++ spread_if (defined deletionProtection)
                [("deletion_protection", opt_value JString deletionProtection)]
           ++ spread_if (defined tags) [("tags", opt_value (fun t => t) tags)])%list.

Definition delete_vectors_request (ids : option (list string)) (deleteAll : option bool)
    (filter : option JSValue) (namespace : option string) : JSValue :=
  JObject [("ids", opt_value strings ids);
           ("deleteAll", opt_value JBool deleteAll);
           ("filter", opt_value (fun f => f) filter);
           ("namespace", opt_value JString namespace)].

Definition update_vector_request (id : string) (values : option (list number))
    (setMetadata : option JSValue) (namespace : option string) : JSValue :=
  JObject [("id", JString id);
           ("values", opt_value (fun v => JArray (List.map JNumber v)) values);
           ("setMetadata", opt_value (fun m => m) setMetadata);
           ("namespace", opt_value JString namespace)].

Definition list_vector_ids_request (namespace prefix : option string) (limit : number)
    (paginationToken : option string) : JSValue :=
  JObject [("namespace", opt_value JString namespace);
           ("prefix", opt_value JString prefix);
           ("limit", JNumber limit);
           ("paginationToken", opt_value JString paginationToken)].

Definition start_import_request (uri : string) (integrationId errorMode : option string)
    : JSValue :=
  JObject ([("uri", JString uri)]
           ++ spread_if (truthy_str integrationId)
                [("integration_id", opt_value JString integrationId)]
           ++ spread_if (truthy_str errorMode)
                [("error_mode", JObject [("on_error", opt_value JString errorMode)])])%list.

Definition create_index_from_backup_request (name backupId : string)
    (deletionProtection : option string) (tags : option JSValue) : JSValue :=
  JObject ([("name", JString name); ("backup_id", JString backupId)]
           ++ spread_if (truthy_str deletionProtection)
                [("deletion_protection", opt_value JString deletionProtection)]
           ++ spread_if (truthy_opt tags) [("tags", opt_value (fun t => t) tags)])%list.

Definition embed_request (model : string) (inputs : list string)
    (inputType : option string) (truncate : string) : JSValue :=
  JObject [("model", JString model);
           ("inputs", JArray (List.map (fun text => JObject [("text", JString text)]) inputs));
           ("parameters",
            JObject (spread_if (truthy_str inputType)
                       [("input_type", opt_value JString inputType)]
                     ++ [("truncate", JString truncate)])%list)].

Definition rerank_request (model query : string) (documents : JSValue)
    (topN : option number) (returnDocuments : bool) (rankFields : option (list string))
    : JSValue :=
  JObject ([("model", JString model); ("query", JString query);
            ("documents", documents)]
           ++ spread_if (truthy (opt_value JNumber topN))
                [("top_n", opt_value JNumber topN)]
           ++ [("return_documents", JBool returnDocuments)]
           ++ spread_if (defined rankFields)
                [("rank_fields", opt_value strings rankFields)])%list.

(** The message of a successful delete-vectors call. *)
Definition delete_vectors_message (ids : option (list string)) (deleteAll : option bool)
    (namespace : option string) : string :=
  if truthy (opt_value JBool deleteAll) then
    "All vectors deleted from namespace '"
    ++ (if truthy_str namespace then default "" namespace else "default") ++ "'"
  else
    match ids with
    | Some l => "Deleted " ++ pretty (List.length l) ++ " vectors"
    | None => "Vectors matching filter deleted"
    end.

Section Handlers.
Context {R : Runtime}.

(** [try { ... } catch (error) { return formatError(error); }]. *)
Definition or_formatError (m : M ToolResponse) : M ToolResponse :=
  try_catch m (fun error => ret (formatError error)).

(** The list tools: [formatResponse({ <field>: items, count: items.length })]. *)
Definition list_response (field : string) (items : JSValue) : M ToolResponse :=
  count <- lift (get_length items) ;;
  ret (formatResponse (JObject [(field, items); ("count", count)])).

(** *** Index tools *)

Definition pinecone_list_indexes : M ToolResponse :=
  or_formatError (indexes <- listIndexes ;; list_response "indexes" indexes).

Definition pinecone_create_index (a : CreateIndexArgs) : M ToolResponse :=
  or_formatError
    (match create_index_spec a with
     | Some spec =>
         index <- createIndex (create_index_request a spec) ;;
         ret (formatSuccess "Index created successfully" index)
     | None =>
         ret (formatError
                (Error "Must provide either (cloud + region) for serverless or (environment + podType) for pod-based index"))
     end).

Definition pinecone_describe_index (indexName : string) : M ToolResponse :=
  or_formatError (index <- describeIndex indexName ;; ret (formatResponse index)).

Definition pinecone_delete_index (indexName : string) : M ToolResponse :=
  or_formatError
    (deleteIndex indexName ;;;
     ret (formatSuccess ("Index '" ++ indexName ++ "' deleted successfully") JUndefined)).

Definition pinecone_configure_index (indexName : string) (replicas : option number)
    (podType deletionProtection : option string) (tags : option JSValue)
    : M ToolResponse :=
  or_formatError
    (index <- configureIndex indexName
                (configure_index_request replicas podType deletionProtection tags) ;;
     ret (formatSuccess "Index configured successfully" index)).

Definition pinecone_describe_index_stats (indexName : string) (filter : option JSValue)
    : M ToolResponse :=
  or_formatError
    (stats <- describeIndexStats indexName
                (if truthy_opt filter
                 then JObject [("filter", opt_value (fun f => f) filter)]
                 else JUndefined) ;;
     ret (formatResponse stats)).

(** *** Vector tools *)

Definition pinecone_upsert_vectors (indexName : string) (vectors : JSValue)
    (namespace : option string) : M ToolResponse :=
  or_formatError
    (result <- upsertVectors indexName
                 (JObject [("vectors", vectors);
                           ("namespace", opt_value JString namespace)]) ;;
     upsertedCount <- lift (get_prop result "upsertedCount") ;;
     ret (formatSuccess ("Upserted " ++ ToString upsertedCount ++ " vectors") result)).

Definition pinecone_fetch_vectors (indexName : string) (ids : list string)
    (namespace : option string) : M ToolResponse :=
  or_formatError
    (result <- fetchVectors indexName ids namespace ;;
     vectors <- lift (get_prop result "vectors") ;;
     ns <- lift (get_prop result "namespace") ;;
     fetchedCount <- lift (keys_count vectors) ;;
     usage <- lift (get_prop result "usage") ;;
     ret (formatResponse
            (JObject [("vectors", vectors); ("namespace", ns);
                      ("fetchedCount", fetchedCount); ("usage", usage)]))).

Definition pinecone_update_vector (indexName id : string) (values : option (list number))
    (setMetadata : option JSValue) (namespace : option string) : M ToolResponse :=
  or_formatError
    (if negb (defined values) && negb (truthy_opt setMetadata) then
       ret (formatError (Error "Must provide either values or setMetadata"))
     else
       updateVector indexName (update_vector_request id values setMetadata namespace) ;;;
       ret (formatSuccess ("Vector '" ++ id ++ "' updated successfully") JUndefined)).

Definition pinecone_delete_vectors (indexName : string) (ids : option (list string))
    (deleteAll : option bool) (filter : option JSValue) (namespace : option string)
    : M ToolResponse :=
  or_formatError
    (if negb (defined ids) && negb (truthy (opt_value JBool deleteAll))
        && negb (truthy_opt filter) then
       ret (formatError (Error "Must provide ids, deleteAll, or filter"))
     else
       deleteVectors indexName (delete_vectors_request ids deleteAll filter namespace) ;;;
       ret (formatSuccess (delete_vectors_message ids deleteAll namespace) JUndefined)).

Definition pinecone_list_vector_ids (indexName : string) (namespace prefix : option string)
    (limit : number) (paginationToken : option string) : M ToolResponse :=
  or_formatError
    (result <- listVectorIds indexName
                 (list_vector_ids_request namespace prefix limit paginationToken) ;;
     vectors <- lift (get_prop result "vectors") ;;
     vectorIds <- lift (array_map (fun v => get_prop v "id") vectors) ;;
     count <- lift (get_length vectors) ;;
     ns <- lift (get_prop result "namespace") ;;
     pagination <- lift (get_prop result "pagination") ;;
     usage <- lift (get_prop result "usage") ;;
     ret (formatResponse
            (JObject [("vectorIds", vectorIds); ("count", count); ("namespace", ns);
                      ("nextToken", get_prop_opt pagination "next");
                      ("hasMore", JBool (truthy (get_prop_opt pagination "next")));
                      ("usage", usage)]))).

(** *** Collection tools *)

Definition pinecone_list_collections : M ToolResponse :=
  or_formatError (collections <- listCollections ;; list_response "collections" collections).

Definition pinecone_create_collection (name source : string) : M ToolResponse :=
  or_formatError
    (collection <- createCollection
                     (JObject [("name", JString name); ("source", JString source)]) ;;
     ret (formatSuccess "Collection created successfully" collection)).

Definition pinecone_describe_collection (collectionName : string) : M ToolResponse :=
  or_formatError
    (collection <- describeCollection collectionName ;; ret (formatResponse collection)).

Definition pinecone_delete_collection (collectionName : string) : M ToolResponse :=
  or_formatError
    (deleteCollection collectionName ;;;
     ret (formatSuccess ("Collection '" ++ collectionName ++ "' deleted successfully")
            JUndefined)).

(** *** Namespace tools *)

Definition pinecone_list_namespaces (indexName : string) : M ToolResponse :=
  or_formatError
    (namespaces <- listNamespaces indexName ;; list_response "namespaces" namespaces).

Definition pinecone_describe_namespace (indexName namespaceName : string)
    : M ToolResponse :=
  or_formatError
    (namespace <- describeNamespace indexName namespaceName ;;
     ret (formatResponse namespace)).

Definition pinecone_delete_namespace (indexName namespaceName : string) : M ToolResponse :=
  or_formatError
    (deleteNamespace indexName namespaceName ;;;
     ret (formatSuccess ("Namespace '" ++ namespaceName ++ "' deleted successfully")
            JUndefined)).

(** *** Backup tools *)

Definition pinecone_list_backups (indexName : option string) : M ToolResponse :=
  or_formatError (backups <- listBackups indexName ;; list_response "backups" backups).

Definition pinecone_create_backup (indexName : string) (name description : option string)
    : M ToolResponse :=
  or_formatError
    (backup <- createBackup indexName
                 (JObject [("name", opt_value JString name);
                           ("description", opt_value JString description)]) ;;
     ret (formatSuccess "Backup created successfully" backup)).

Definition pinecone_describe_backup (backupId : string) : M ToolResponse :=
  or_formatError (backup <- describeBackup backupId ;; ret (formatResponse backup)).

Definition pinecone_delete_backup (backupId : string) : M ToolResponse :=
  or_formatError
    (deleteBackup backupId ;;;
     ret (formatSuccess ("Backup '" ++ backupId ++ "' deleted successfully") JUndefined)).

Definition pinecone_create_index_from_backup (name backupId : string)
    (deletionProtection : option string) (tags : option JSValue) : M ToolResponse :=
  or_formatError
    (index <- createIndexFromBackup
                (create_index_from_backup_request name backupId deletionProtection tags) ;;
     ret (formatSuccess "Index created from backup successfully" index)).

Definition pinecone_list_restore_jobs : M ToolResponse :=
  or_formatError (jobs <- listRestoreJobs ;; list_response "restore_jobs" jobs).

Definition pinecone_describe_restore_job (restoreId : string) : M ToolResponse :=
  or_formatError (job <- describeRestoreJob restoreId ;; ret (formatResponse job)).

(** *** Import tools *)

Definition pinecone_start_import (indexName uri : string)
    (integrationId errorMode : option string) : M ToolResponse :=
  or_formatError
    (importJob <- startImport indexName
                    (start_import_request uri integrationId errorMode) ;;
     ret (formatSuccess "Import started successfully" importJob)).

Definition pinecone_list_imports (indexName : string) : M ToolResponse :=
  or_formatError (imports <- listImports indexName ;; list_response "imports" imports).

Definition pinecone_describe_import (indexName importId : string) : M ToolResponse :=
  or_formatError
    (importJob <- describeImport indexName importId ;; ret (formatResponse importJob)).

Definition pinecone_cancel_import (indexName importId : string) : M ToolResponse :=
  or_formatError
    (cancelImport indexName importId ;;;
     ret (formatSuccess ("Import '" ++ importId ++ "' cancelled successfully") JUndefined)).

(** *** Inference tools *)

Definition pinecone_generate_embeddings (model : string) (inputs : list string)
    (inputType : option string) (truncate : string) : M ToolResponse :=
  or_formatError
    (result <- generateEmbeddings (embed_request model inputs inputType truncate) ;;
     model' <- lift (get_prop result "model") ;;
     data <- lift (get_prop result "data") ;;
     embeddings <- lift (array_map (fun d => get_prop d "values") data) ;;
     count <- lift (get_length data) ;;
     dimension <- lift (first_dimension data) ;;
     usage <- lift (get_prop result "usage") ;;
     ret (formatResponse
            (JObject [("model", model'); ("embeddings", embeddings); ("count", count);
                      ("dimension", dimension); ("usage", usage)]))).

Definition pinecone_rerank_documents (model query : string) (documents : JSValue)
    (topN : option number) (returnDocuments : bool) (rankFields : option (list string))
    : M ToolResponse :=
  or_formatError
    (result <- rerankDocuments
                 (rerank_request model query documents topN returnDocuments rankFields) ;;
     model' <- lift (get_prop result "model") ;;
     data <- lift (get_prop result "data") ;;
     count <- lift (get_length data) ;;
     usage <- lift (get_prop result "usage") ;;
     ret (formatResponse
            (JObject [("model", model'); ("results", data); ("count", count);
                      ("usage", usage)]))).

Definition pinecone_list_models : M ToolResponse :=
  or_formatError (models <- listModels ;; list_response "models" models).

Definition pinecone_describe_model (modelName : string) : M ToolResponse :=
  or_formatError (model <- describeModel modelName ;; ret (formatResponse model)).
End Handlers.

(** The response of the connection tool of src/index.ts: the result of
    [testConnection] as JSON text, or the plain text of its catch
    branch, which alone sets [isError]. *)
Inductive ConnectionResponse :=
  | connection_result (result : JSValue)
  | connection_failed (text : string).

Definition pinecone_test_connection {R : Runtime} : M ConnectionResponse :=
  try_catch
    (result <- testConnection ;; ret (connection_result result))
    (fun error =>
       ret (connection_failed
              ("Connection failed: " ++ ToString (error_message error)))).

(** The registered tools with their validated arguments (the connection
    tool, whose response has another shape, apart). *)
Inductive Tool :=
  | ToolListIndexes
  | ToolCreateIndex (a : CreateIndexArgs)
  | ToolDescribeIndex (indexName : string)
  | ToolDeleteIndex (indexName : string)
  | ToolConfigureIndex (indexName : string) (replicas : option number)
      (podType deletionProtection : option string) (tags : option JSValue)
  | ToolDescribeIndexStats (indexName : string) (filter : option JSValue)
  | ToolUpsertVectors (indexName : string) (vectors : JSValue) (namespace : option string)
  | ToolQueryVectors (a : QueryArgs)
  | ToolFetchVectors (indexName : string) (ids : list string) (namespace : option string)
  | ToolUpdateVector (indexName id : string) (values : option (list number))
      (setMetadata : option JSValue) (namespace : option string)
  | ToolDeleteVectors (indexName : string) (ids : option (list string))
      (deleteAll : option bool) (filter : option JSValue) (namespace : option string)
  | ToolListVectorIds (indexName : string) (namespace prefix : option string)
      (limit : number) (paginationToken : option string)
  | ToolListCollections
  | ToolCreateCollection (name source : string)
  | ToolDescribeCollection (collectionName : string)
  | ToolDeleteCollection (collectionName : string)
  | ToolListNamespaces (indexName : string)
  | ToolDescribeNamespace (indexName namespaceName : string)
  | ToolDeleteNamespace (indexName namespaceName : string)
  | ToolListBackups (indexName : option string)
  | ToolCreateBackup (indexName : string) (name description : option string)
  | ToolDescribeBackup (backupId : string)
  | ToolDeleteBackup (backupId : string)
  | ToolCreateIndexFromBackup (name backupId : string)
      (deletionProtection : option string) (tags : option JSValue)
  | ToolListRestoreJobs
  | ToolDescribeRestoreJob (restoreId : string)
  | ToolStartImport (indexName uri : string) (integrationId errorMode : option string)
  | ToolListImports (indexName : string)
  | ToolDescribeImport (indexName importId : string)
  | ToolCancelImport (indexName importId : string)
  | ToolGenerateEmbeddings (model : string) (inputs : list string)
      (inputType : option string) (truncate : string)
  | ToolRerankDocuments (model query : string) (documents : JSValue)
      (topN : option number) (returnDocuments : bool) (rankFields : option (list string))
  | ToolListModels
  | ToolDescribeModel (modelName : string).

Definition run_tool {R : Runtime} (t : Tool) : M ToolResponse :=
  match t with
  | ToolListIndexes => pinecone_list_indexes
  | ToolCreateIndex a => pinecone_create_index a
  | ToolDescribeIndex n => pinecone_describe_index n
  | ToolDeleteIndex n => pinecone_delete_index n
  | ToolConfigureIndex n r p d t => pinecone_configure_index n r p d t
  | ToolDescribeIndexStats n f => pinecone_describe_index_stats n f
  | ToolUpsertVectors n v ns => pinecone_upsert_vectors n v ns
  | ToolQueryVectors a => pinecone_query_vectors a
  | ToolFetchVectors n ids ns => pinecone_fetch_vectors n ids ns
  | ToolUpdateVector n i v m ns => pinecone_update_vector n i v m ns
  | ToolDeleteVectors n ids d f ns => pinecone_delete_vectors n ids d f ns
  | ToolListVectorIds n ns p l t => pinecone_list_vector_ids n ns p l t
  | ToolListCollections => pinecone_list_collections
  | ToolCreateCollection n src => pinecone_create_collection n src
  | ToolDescribeCollection n => pinecone_describe_collection n
  | ToolDeleteCollection n => pinecone_delete_collection n
  | ToolListNamespaces n => pinecone_list_namespaces n
  | ToolDescribeNamespace n ns => pinecone_describe_namespace n ns
  | ToolDeleteNamespace n ns => pinecone_delete_namespace n ns
  | ToolListBackups n => pinecone_list_backups n
  | ToolCreateBackup n nm d => pinecone_create_backup n nm d
  | ToolDescribeBackup i => pinecone_describe_backup i
  | ToolDeleteBackup i => pinecone_delete_backup i
  | ToolCreateIndexFromBackup n i d t => pinecone_create_index_from_backup n i d t
  | ToolListRestoreJobs => pinecone_list_restore_jobs
  | ToolDescribeRestoreJob i => pinecone_describe_restore_job i
  | ToolStartImport n u i e => pinecone_start_import n u i e
  | ToolListImports n => pinecone_list_imports n
  | ToolDescribeImport n i => pinecone_describe_import n i
  | ToolCancelImport n i => pinecone_cancel_import n i
  | ToolGenerateEmbeddings m i t tr => pinecone_generate_embeddings m i t tr
  | ToolRerankDocuments m q d t r f => pinecone_rerank_documents m q d t r f
  | ToolListModels => pinecone_list_models
  | ToolDescribeModel n => pinecone_describe_model n
  end.

(** What a handler does with its arguments: the client method it calls,
    or the message of the error it returns without calling the client. *)
Definition tool_call (t : Tool) : string + Op :=
  match t with
  | ToolListIndexes => inr ListIndexes
  | ToolCreateIndex a =>
      match create_index_spec a with
      | Some spec => inr (CreateIndex (create_index_request a spec))
      | None =>
          inl "Must provide either (cloud + region) for serverless or (environment + podType) for pod-based index"
      end
  | ToolDescribeIndex n => inr (DescribeIndex n)
  | ToolDeleteIndex n => inr (DeleteIndex n)
  | ToolConfigureIndex n r p d t =>
      inr (ConfigureIndex n (configure_index_request r p d t))
  | ToolDescribeIndexStats n f =>
      inr (DescribeIndexStats n
             (if truthy_opt f then JObject [("filter", opt_value (fun x => x) f)]
              else JUndefined))
  | ToolUpsertVectors n v ns =>
      inr (UpsertVectors n
             (JObject [("vectors", v); ("namespace", opt_value JString ns)]))
  | ToolQueryVectors a =>
      if neither_supplied a then inl "Must provide either vector or id"
      else inr (QueryVectors (q_indexName a) (query_request a))
  | ToolFetchVectors n ids ns => inr (FetchVectors n ids ns)
  | ToolUpdateVector n i v m ns =>
      if negb (defined v) && negb (truthy_opt m)
      then inl "Must provide either values or setMetadata"
      else inr (UpdateVector n (update_vector_request i v m ns))
  | ToolDeleteVectors n ids d f ns =>
      if negb (defined ids) && negb (truthy (opt_value JBool d)) && negb (truthy_opt f)
      then inl "Must provide ids, deleteAll, or filter"
      else inr (DeleteVectors n (delete_vectors_request ids d f ns))
  | ToolListVectorIds n ns p l t =>
      inr (ListVectorIds n (list_vector_ids_request ns p l t))
  | ToolListCollections => inr ListCollections
  | ToolCreateCollection n src =>
      inr (CreateCollection (JObject [("name", JString n); ("source", JString src)]))
  | ToolDescribeCollection n => inr (DescribeCollection n)
  | ToolDeleteCollection n => inr (DeleteCollection n)
  | ToolListNamespaces n => inr (ListNamespaces n)
  | ToolDescribeNamespace n ns => inr (DescribeNamespace n ns)
  | ToolDeleteNamespace n ns => inr (DeleteNamespace n ns)
  | ToolListBackups n => inr (ListBackups n)
  | ToolCreateBackup n nm d =>
      inr (CreateBackup n
             (JObject [("name", opt_value JString nm);
                       ("description", opt_value JString d)]))
  | ToolDescribeBackup i => inr (DescribeBackup i)
  | ToolDeleteBackup i => inr (DeleteBackup i)
  | ToolCreateIndexFromBackup n i d t =>
      inr (CreateIndexFromBackup (create_index_from_backup_request n i d t))
  | ToolListRestoreJobs => inr ListRestoreJobs
  | ToolDescribeRestoreJob i => inr (DescribeRestoreJob i)
  | ToolStartImport n u i e => inr (StartImport n (start_import_request u i e))
  | ToolListImports n => inr (ListImports n)
  | ToolDescribeImport n i => inr (DescribeImport n i)
  | ToolCancelImport n i => inr (CancelImport n i)
  | ToolGenerateEmbeddings m i t tr => inr (GenerateEmbeddings (embed_request m i t tr))
  | ToolRerankDocuments m q d t r f => inr (RerankDocuments (rerank_request m q d t r f))
  | ToolListModels => inr ListModels
  | ToolDescribeModel n => inr (DescribeModel n)
  end.

(** The collection a handler reads from the payload of its client call
    before it formats: [result.matches.length], [Object.keys(result.vectors)],
    [result.vectors.map], [result.data.map], [result.data.length]. *)
Definition payload_collection (t : Tool) : option string :=
  match t with
  | ToolQueryVectors _ => Some "matches"
  | ToolFetchVectors _ _ _ => Some "vectors"
  | ToolListVectorIds _ _ _ _ _ => Some "vectors"
  | ToolGenerateEmbeddings _ _ _ _ => Some "data"
  | ToolRerankDocuments _ _ _ _ _ _ => Some "data"
  | _ => None
  end.

(* ===================================================================== *)
(** ** The worker entry point (src/index.ts) *)
(* ===================================================================== *)

Definition SERVER_NAME : string := "primrose-mcp-pinecone".
Definition SERVER_VERSION : string := "1.0.0".

(** The name each handler is registered under with [server.tool]. *)
Definition tool_name (t : Tool) : string :=
  match t with
  | ToolListIndexes => "pinecone_list_indexes"
  | ToolCreateIndex _ => "pinecone_create_index"
  | ToolDescribeIndex _ => "pinecone_describe_index"
  | ToolDeleteIndex _ => "pinecone_delete_index"
  | ToolConfigureIndex _ _ _ _ _ => "pinecone_configure_index"
  | ToolDescribeIndexStats _ _ => "pinecone_describe_index_stats"
  | ToolUpsertVectors _ _ _ => "pinecone_upsert_vectors"
  | ToolQueryVectors _ => "pinecone_query_vectors"
  | ToolFetchVectors _ _ _ => "pinecone_fetch_vectors"
  | ToolUpdateVector _ _ _ _ _ => "pinecone_update_vector"
  | ToolDeleteVectors _ _ _ _ _ => "pinecone_delete_vectors"
  | ToolListVectorIds _ _ _ _ _ => "pinecone_list_vector_ids"
  | ToolListCollections => "pinecone_list_collections"
  | ToolCreateCollection _ _ => "pinecone_create_collection"
  | ToolDescribeCollection _ => "pinecone_describe_collection"
  | ToolDeleteCollection _ => "pinecone_delete_collection"
  | ToolListNamespaces _ => "pinecone_list_namespaces"
  | ToolDescribeNamespace _ _ => "pinecone_describe_namespace"
  | ToolDeleteNamespace _ _ => "pinecone_delete_namespace"
  | ToolListBackups _ => "pinecone_list_backups"
  | ToolCreateBackup _ _ _ => "pinecone_create_backup"
  | ToolDescribeBackup _ => "pinecone_describe_backup"
  | ToolDeleteBackup _ => "pinecone_delete_backup"
  | ToolCreateIndexFromBackup _ _ _ _ => "pinecone_create_index_from_backup"
  | ToolListRestoreJobs => "pinecone_list_restore_jobs"
  | ToolDescribeRestoreJob _ => "pinecone_describe_restore_job"
  | ToolStartImport _ _ _ _ => "pinecone_start_import"
  | ToolListImports _ => "pinecone_list_imports"
  | ToolDescribeImport _ _ => "pinecone_describe_import"
  | ToolCancelImport _ _ => "pinecone_cancel_import"
  | ToolGenerateEmbeddings _ _ _ _ => "pinecone_generate_embeddings"
  | ToolRerankDocuments _ _ _ _ _ _ => "pinecone_rerank_documents"
  | ToolListModels => "pinecone_list_models"
  | ToolDescribeModel _ => "pinecone_describe_model"
  end.

(** The [tools] array of the default response. *)
Definition advertised_tools : list string :=
  ["pinecone_list_indexes"; "pinecone_create_index"; "pinecone_describe_index";
   "pinecone_delete_index"; "pinecone_configure_index";
   "pinecone_describe_index_stats";
   "pinecone_upsert_vectors"; "pinecone_query_vectors"; "pinecone_fetch_vectors";
   "pinecone_update_vector"; "pinecone_delete_vectors"; "pinecone_list_vector_ids";
   "pinecone_list_collections"; "pinecone_create_collection";
   "pinecone_describe_collection"; "pinecone_delete_collection";
   "pinecone_list_namespaces"; "pinecone_describe_namespace";
   "pinecone_delete_namespace";
   "pinecone_list_backups"; "pinecone_create_backup"; "pinecone_describe_backup";
   "pinecone_delete_backup"; "pinecone_create_index_from_backup";
   "pinecone_list_restore_jobs"; "pinecone_describe_restore_job";
   "pinecone_start_import"; "pinecone_list_imports"; "pinecone_describe_import";
   "pinecone_cancel_import";
   "pinecone_generate_embeddings"; "pinecone_rerank_documents";
   "pinecone_list_models"; "pinecone_describe_model";
   "pinecone_test_connection"].

(** The incoming request as the handler reads it: the path of its URL, its
    method and its headers. *)
Record WorkerRequest := {
  w_pathname : string;
  w_method : string;
  w_headers : list (string * string);
}.

(** What the handler answers: a JSON body or a text body with a status,
    or the answer of the MCP handler of a server built on a new client. *)
Inductive WorkerResponse :=
  | json_response (code : Z) (content : JSValue)
  | text_response (code : Z) (text : string)
  | mcp_session (client : State).

Definition server_info : JSValue :=
  JObject
    [("name", JString SERVER_NAME);
     ("version", JString SERVER_VERSION);
     ("description", JString "Multi-tenant Pinecone MCP Server");
     ("endpoints",
      JObject [("mcp", JString "/mcp (POST) - Streamable HTTP MCP endpoint");
               ("health", JString "/health - Health check")]);
     ("authentication",
      JObject [("description", JString "Pass tenant credentials via request headers");
               ("required_headers",
                JObject [("X-Pinecone-Api-Key",
                          JString "API key for Pinecone authentication")])]);
     ("tools", strings advertised_tools)].

Section Worker.
Context {R : Runtime}.
(** Declared in types/env: reading the credentials off the request, and
    the check that throws when they are not acceptable ([None]: it
    returns). *)
Variable parseTenantCredentials : WorkerRequest -> TenantCredentials.
Variable validateCredentials : TenantCredentials -> option Thrown.

Definition worker_fetch (request : WorkerRequest) : WorkerResponse :=
  if String.eqb (w_pathname request) "/health" then
    json_response 200
      (JObject [("status", JString "ok"); ("server", JString SERVER_NAME)])
  else if String.eqb (w_pathname request) "/mcp"
          && String.eqb (w_method request) "POST" then
    let credentials := parseTenantCredentials request in
    match validateCredentials credentials with
    | Some error =>
        json_response 401
          (JObject [("error", JString "Unauthorized");
                    ("message", error_message error);
                    ("required_headers", strings ["X-Pinecone-Api-Key"])])
    | None => mcp_session (createPineconeClient credentials)
    end
  else if String.eqb (w_pathname request) "/sse" then
    text_response 501
      "SSE endpoint requires Durable Objects. Enable in wrangler.jsonc."
  else json_response 200 server_info.
End Worker.

(* ===================================================================== *)
(** ** More scenarios *)
(* ===================================================================== *)

(** A 429 whose Retry-After is an HTTP-date. *)
Definition throttled_until : Runtime :=
  Reference.runtime
    (scripted [respond 429 [("retry-after", "Wed, 21 Oct 2026 07:28:00 GMT")] ""]).

(** A 200 with an empty body, and a 200 with an empty envelope. *)
Definition empty_ok : Runtime :=
  Reference.runtime (scripted [respond 200 [] ""]).
Definition empty_envelope : Runtime :=
  Reference.runtime (scripted [respond 200 [] "{}"]).

(** Resolve, use, and a delete the server refuses. *)
Definition protected : Runtime :=
  Reference.runtime
    (scripted
       [respond 200 [] (Reference.dq "{'name':'idx','host':'idx-abc.svc.pinecone.io'}");
        respond 200 [] (Reference.dq "{'namespaces':[]}");
        respond 400 [] (Reference.dq "{'error':{'message':'Deletion protection is enabled'}}");
        respond 200 [] (Reference.dq "{'namespaces':[]}")]).

Definition warmed_protected : State :=
  (call (R := protected) (ListNamespaces "idx") demo).1.

(** Arguments of the create-index tool with both a serverless and a pod
    pair, and with half a pair only. *)
Definition both_specs : CreateIndexArgs :=
  {| ci_name := "idx"; ci_dimension := Num 8 0; ci_metric := "cosine";
     ci_cloud := Some "aws"; ci_region := Some "us-east-1";
     ci_environment := Some "us-west1-gcp"; ci_podType := Some "p1.x1";
     ci_pods := Some (Num 2 0); ci_replicas := None;
     ci_deletionProtection := None; ci_tags := None |}.

Definition cloud_only : CreateIndexArgs :=
  {| ci_name := "idx"; ci_dimension := Num 8 0; ci_metric := "cosine";
     ci_cloud := Some "aws"; ci_region := None;
     ci_environment := None; ci_podType := Some "p1.x1";
     ci_pods := None; ci_replicas := None;
     ci_deletionProtection := None; ci_tags := None |}.

(* ===================================================================== *)
(** ** Basic facts about the monad and [request] *)
(* ===================================================================== *)

Lemma truthy_str_false (o : option string) :
  truthy_str o = false <-> o = None \/ o = Some "".
Proof.
  destruct o as [k|]; simpl.
  - rewrite negb_false_iff, String.eqb_eq. split.
    + intros ->. by right.
    + intros [|[= ->]]; done.
  - split; [by left | done].
Qed.

Section Facts.
Context {R : Runtime}.

Lemma getAuthHeaders_absent s :
  truthy_str (apiKey (credentials s)) = false ->
  getAuthHeaders s = (s, inl missing_key).
Proof.
  intros H. apply truthy_str_false in H. unfold getAuthHeaders.
  destruct H as [-> | ->]; done.
Qed.

Lemma getAuthHeaders_present k s :
  has_key k s -> getAuthHeaders s = (s, inr (auth_headers k)).
Proof.
  intros [Hk Hne]. unfold getAuthHeaders. rewrite Hk.
  apply String.eqb_neq in Hne. by rewrite Hne.
Qed.

Lemma request_absent url o s :
  truthy_str (apiKey (credentials s)) = false ->
  request url o s = (s, inl missing_key).
Proof.
  intros H. unfold request, bind. by rewrite getAuthHeaders_absent.
Qed.

(** With a key, [request] calls [fetch] exactly once, with the request
    [request_of], and classifies the answer. *)
Lemma request_present k url o s :
  has_key k s ->
  request url o s =
    (sent (request_of k url o) s,
     match network (fetched s) (request_of k url o) with
     | inl e => inl e
     | inr response => classify response
     end).
Proof.
  intros H. unfold request, bind. rewrite (getAuthHeaders_present k) by done.
  unfold fetch, lift, sent, request_of.
  by destruct (network _ _).
Qed.

Lemma getIndexHost_hit n h s :
  indexHostCache s !! n = Some h -> truthy h = true ->
  getIndexHost n s = (s, inr h).
Proof.
  intros Hc Ht. unfold getIndexHost, bind, cache_get. rewrite Hc. simpl.
  by rewrite Ht.
Qed.

Lemma getIndexHost_miss n s :
  cache_miss n s ->
  getIndexHost n s =
    (index <- describeIndex n ;;
     host <- lift (get_prop index "host") ;;
     cache_set n host ;;;
     ret host) s.
Proof.
  intros Hm. unfold getIndexHost at 1. unfold bind at 1. unfold cache_get.
  unfold cache_miss in Hm. by rewrite Hm.
Qed.
End Facts.

Section Shapes.
Context {R : Runtime}.

Lemma bind_lift_inr {A} (m : M A) s : m s = (v <- m ;; lift (inr v)) s.
Proof. unfold bind, lift. by destruct (m s) as [? [?|?]]. Qed.

Lemma bind_discard (m : M JSValue) s :
  (m ;;; ret JUndefined) s = (v <- m ;; lift ((fun _ => inr JUndefined) v)) s.
Proof. done. Qed.

Lemma bind_unwrap (m : M JSValue) (p : string) s :
  (response <- m ;;
   field <- lift (get_prop response p) ;;
   ret (or_else field (JArray []))) s =
  (v <- m ;;
   lift (match get_prop v p with
         | inl e => inl e
         | inr field => inr (or_else field (JArray []))
         end)) s.
Proof.
  unfold bind, lift, ret. destruct (m s) as [s' [e|v]]; [done|].
  by destruct (get_prop v p).
Qed.

Ltac plane_then_pure :=
  intros ?; simpl;
  first [ apply bind_unwrap | apply bind_discard | apply bind_lift_inr ].

Lemma call_shape (op : Op) : Shape op.
Proof.
  destruct op;
    try (by eapply shape_test);
    try (by eapply shape_delete);
    try (eapply shape_data; [reflexivity | discriminate | reflexivity | plane_then_pure]);
    (eapply shape_control; [reflexivity | discriminate | | ]; cycle 1;
     [plane_then_pure | reflexivity]).
Qed.
End Shapes.

Section Planes.
Context {R : Runtime}.

Lemma controlPlaneRequest_present k endpoint o s :
  has_key k s ->
  controlPlaneRequest endpoint o s =
    (sent (request_of k (CONTROL_PLANE_URL ++ endpoint) o) s,
     answer (request_of k (CONTROL_PLANE_URL ++ endpoint) o) s).
Proof. intros H. unfold controlPlaneRequest. by rewrite (request_present k). Qed.

Lemma describeIndex_present k n s :
  has_key k s ->
  describeIndex n s =
    (sent (describe_request k n) s, answer (describe_request k n) s).
Proof. intros H. unfold describeIndex. by rewrite (controlPlaneRequest_present k). Qed.

(** [request] never touches the cache or the credentials. *)
Lemma request_keeps url o s :
  indexHostCache (request url o s).1 = indexHostCache s
  /\ credentials (request url o s).1 = credentials s.
Proof.
  unfold request, bind, getAuthHeaders.
  destruct (apiKey (credentials s)) as [k|]; [|done].
  destruct (String.eqb k ""); [done|].
  unfold fetch, lift. by destruct (network _ _).
Qed.

Lemma dataPlaneRequest_absent n endpoint o s :
  truthy_str (apiKey (credentials s)) = false ->
  dataPlaneRequest n endpoint o s = (s, inl missing_key).
Proof.
  intros H. unfold dataPlaneRequest, getIndexHost, bind at 1 2.
  unfold cache_get.
  destruct (truthy _).
  - unfold ret. by rewrite request_absent.
  - unfold bind, describeIndex, controlPlaneRequest. by rewrite request_absent.
Qed.

(** Hit: one request, to the cached host. *)
Lemma dataPlaneRequest_hit k n endpoint o h s :
  has_key k s ->
  indexHostCache s !! n = Some h -> truthy h = true ->
  dataPlaneRequest n endpoint o s =
    (sent (data_request k h endpoint o) s,
     answer (data_request k h endpoint o) s).
Proof.
  intros Hk Hc Ht. unfold dataPlaneRequest, bind.
  rewrite (getIndexHost_hit n h) by done.
  by rewrite (request_present k).
Qed.

(** Miss: the describe request goes first; only when it succeeds and
    its result has a readable [host] is the cache written and the data
    request sent. *)
Lemma dataPlaneRequest_miss k n endpoint o s :
  has_key k s -> cache_miss n s ->
  dataPlaneRequest n endpoint o s =
    let s1 := sent (describe_request k n) s in
    match answer (describe_request k n) s with
    | inl e => (s1, inl e)
    | inr index =>
        match get_prop index "host" with
        | inl e => (s1, inl e)
        | inr h =>
            (sent (data_request k h endpoint o) (cached n h s1),
             answer (data_request k h endpoint o) (cached n h s1))
        end
    end.
Proof.
  intros Hk Hm. unfold dataPlaneRequest, bind at 1.
  rewrite getIndexHost_miss by done. unfold bind at 1.
  rewrite (describeIndex_present k) by done. simpl.
  destruct (answer (describe_request k n) s) as [e|index]; [done|].
  unfold bind, lift. destruct (get_prop index "host") as [e|h]; [done|].
  unfold cache_set, ret.
  by rewrite (request_present k).
Qed.

(** A data-plane method leaves the state its [dataPlaneRequest] leaves,
    and fails when it fails. *)
Lemma call_data_plane op n endpoint o :
  data_plane op = Some (n, endpoint, o) ->
  forall s,
    (call op s).1 = (dataPlaneRequest n endpoint o s).1
    /\ (forall e, (dataPlaneRequest n endpoint o s).2 = inl e ->
                  (call op s).2 = inl e).
Proof.
  intros Hd s.
  destruct (call_shape op) as [? ? ? Hn | n' e' o' post Hd' _ _ Hc | ? -> | ->];
    try (rewrite Hd in Hn); try done.
  rewrite Hd in Hd'. injection Hd' as <- <- <-.
  rewrite Hc. unfold bind, lift.
  destruct (dataPlaneRequest n endpoint o s) as [s' [e|v]]; simpl; [|done].
  split; [done|]. by intros ? [= ->].
Qed.
End Planes.

(* ===================================================================== *)
(** ** parseInt and the values that read as an integer *)
(* ===================================================================== *)

Lemma append_cons (c : ascii) (a b : string) : String c a ++ b = String c (a ++ b).
Proof. reflexivity. Qed.

Lemma append_empty (b : string) : "" ++ b = b.
Proof. reflexivity. Qed.

Lemma append_assoc (a b c : string) : (a ++ b) ++ c = a ++ (b ++ c).
Proof.
  induction a as [|x a IH]; [reflexivity|].
  rewrite !append_cons. by rewrite IH.
Qed.

Lemma digit_value_char (d : N) :
  (d < 10)%N -> digit_value (pretty_N_char d) = Some (Z.of_N d).
Proof.
  intros H.
  assert (d = 0 \/ d = 1 \/ d = 2 \/ d = 3 \/ d = 4 \/ d = 5 \/ d = 6
          \/ d = 7 \/ d = 8 \/ d = 9)%N as Hd by lia.
  repeat (destruct Hd as [-> | Hd]; [reflexivity|]). by subst.
Qed.

(** A digit is the character that prints its value. *)
Lemma digit_value_inv (c : ascii) (d : Z) :
  digit_value c = Some d ->
  0 <= d < 10 /\ c = pretty_N_char (Z.to_N d)
  /\ is_StrWhiteSpaceChar c = false /\ (N_of_ascii c <? 128)%N = true
  /\ c <> "-"%char /\ c <> "+"%char.
Proof.
  destruct c as [[] [] [] [] [] [] [] []]; try discriminate;
    intros [= <-]; (split; [lia|]); repeat split; discriminate.
Qed.

Lemma no_digit_first_spec (c : ascii) (rest : string) :
  no_digit_first (String c rest) = true <-> digit_value c = None.
Proof.
  unfold no_digit_first, digit_value.
  destruct ((48 <=? N_of_ascii c)%N && (N_of_ascii c <=? 57)%N); simpl;
    split; congruence.
Qed.

(** The digits that [pretty_N_go] puts in front of [s] are read as the
    number they print, shifted in after what was read before. *)
Lemma parse_digits_pretty_go (x : N) :
  (0 < x)%N ->
  exists j : Z, 0 < j /\ forall s acc,
    parse_digits acc (pretty_N_go x s)
    = parse_digits (Some (default 0 acc * 10 ^ j + Z.of_N x)) s.
Proof.
  induction (N.lt_wf_0 x) as [x _ IH]. intros Hx.
  destruct (N.eq_0_gt_0_cases (x `div` 10)) as [Hq | Hq].
  - exists 1. split; [lia|]. intros s acc.
    rewrite pretty_N_go_step by done. rewrite Hq, pretty_N_go_0. simpl.
    rewrite digit_value_char by (apply N.mod_lt; lia).
    f_equal. f_equal.
    assert (x `mod` 10 = x)%N.
    { pose proof (N.div_mod x 10). lia. }
    lia.
  - destruct (IH (x `div` 10)%N) as (j & Hj & Hgo); [apply N.div_lt; lia | done |].
    exists (j + 1). split; [lia|]. intros s acc.
    rewrite pretty_N_go_step by done. rewrite Hgo. simpl.
    rewrite digit_value_char by (apply N.mod_lt; lia).
    f_equal. f_equal. rewrite Z.pow_add_r by lia.
    pose proof (N.div_mod x 10).
    assert (Z.of_N x = 10 * Z.of_N (x `div` 10) + Z.of_N (x `mod` 10)) by lia.
    lia.
Qed.

Lemma pretty_go_starts_with_digit (x : N) (s : string) :
  (0 < x)%N ->
  exists c rest d, pretty_N_go x s = String c rest /\ digit_value c = Some d.
Proof.
  revert s. induction (N.lt_wf_0 x) as [x _ IH]. intros s Hx.
  rewrite pretty_N_go_step by done.
  destruct (N.eq_0_gt_0_cases (x `div` 10)) as [Hq | Hq].
  - rewrite Hq, pretty_N_go_0. eexists _, _, _. split; [done|].
    apply digit_value_char, N.mod_lt. lia.
  - apply IH; [apply N.div_lt; lia | done].
Qed.

(** What is printed in front of [s] does not depend on [s]. *)
Lemma pretty_go_app (x : N) (s : string) :
  pretty_N_go x s = pretty_N_go x "" ++ s.
Proof.
  revert s. induction (N.lt_wf_0 x) as [x _ IH]. intros s.
  destruct (N.eq_0_gt_0_cases x) as [-> | Hx].
  - by rewrite !pretty_N_go_0.
  - assert (x `div` 10 < x)%N as Hlt by (apply N.div_lt; lia).
    rewrite (pretty_N_go_step x s), (pretty_N_go_step x "") by done.
    rewrite (IH _ Hlt (String _ s)), (IH _ Hlt (String _ "")).
    by rewrite append_assoc.
Qed.

Lemma pretty_starts_with_digit (n : N) :
  exists c rest d, pretty n = String c rest /\ digit_value c = Some d.
Proof.
  unfold pretty, pretty_N. case_decide as Hn.
  - by exists "0"%char, "", 0.
  - apply pretty_go_starts_with_digit. lia.
Qed.

(** Reading a printed number, after nothing or after zeros only. *)
Lemma parse_digits_pretty (n : N) (acc : option Z) (rest : string) :
  default 0 acc = 0 ->
  parse_digits acc (pretty n ++ rest) = parse_digits (Some (Z.of_N n)) rest.
Proof.
  intros Hacc. unfold pretty, pretty_N. case_decide as Hn.
  - subst. rewrite append_cons, append_empty. simpl. by rewrite Hacc.
  - assert (0 < n)%N as Hpos by lia.
    rewrite <- pretty_go_app.
    destruct (parse_digits_pretty_go n Hpos) as (j & _ & Hgo).
    rewrite Hgo, Hacc. f_equal.
Qed.

Lemma parse_digits_zeros (k : nat) (acc : option Z) (s : string) :
  default 0 acc = 0 ->
  exists acc', default 0 acc' = 0 /\ parse_digits acc (zeros k ++ s) = parse_digits acc' s.
Proof.
  revert acc. induction k as [|k IH]; intros acc Hacc.
  - by exists acc.
  - simpl zeros. rewrite append_cons. simpl. rewrite Hacc. by apply IH.
Qed.

Lemma parse_digits_stops (m : Z) (rest : string) :
  no_digit_first rest = true -> parse_digits (Some m) rest = Some m.
Proof.
  destruct rest as [|c rest]; [done|].
  intros H. apply no_digit_first_spec in H. simpl. by rewrite H.
Qed.

(** A sign or a digit ends the white space. *)
Lemma skip_white_ascii (c : ascii) (rest : string) :
  is_StrWhiteSpaceChar c = false -> (N_of_ascii c <? 128)%N = true ->
  skip_white (String c rest) = String c rest.
Proof. intros H1 H2. simpl. by rewrite H1, H2. Qed.

Lemma skip_white_blanks (cps : list N) (s : string) :
  Forall (fun cp => In cp WhiteSpace) cps ->
  skip_white (blanks cps ++ s) = skip_white s.
Proof.
  induction 1 as [|cp cps Hcp _ IH]; [done|].
  unfold blanks. simpl fold_right. fold (blanks cps).
  rewrite append_assoc.
  unfold WhiteSpace in Hcp. simpl in Hcp.
  repeat (destruct Hcp as [<- | Hcp];
          [vm_compute utf8; rewrite ?append_cons, append_empty; exact IH|]).
  done.
Qed.

(** [parseInt] by the first character after the white space. *)
Lemma parseInt_cases (input : string) :
  parseInt input
  = match skip_white input with
    | String c t =>
        let '(sign, s) :=
          if Ascii.eqb c "-" then (-1, t)
          else if Ascii.eqb c "+" then (1, t)
          else (1, String c t) in
        match parse_digits None s with
        | Some n => to_binary64 (sign * n)
        | None => NaN
        end
    | EmptyString => NaN
    end.
Proof.
  unfold parseInt. destruct (skip_white input) as [|c t]; [done|].
  destruct c as [[] [] [] [] [] [] [] []]; reflexivity.
Qed.

Lemma to_binary64_exact (z : Z) : Z.abs z <= 2 ^ 53 -> to_binary64 z = Num z 0.
Proof.
  intros Hz. unfold to_binary64.
  destruct (Z.abs z <? 2 ^ 53) eqn:Hlt; [done|].
  apply Z.ltb_ge in Hlt.
  change (2 ^ 53) with 9007199254740992 in Hz, Hlt.
  assert (z = 9007199254740992 \/ z = -9007199254740992) as [-> | ->] by lia;
    reflexivity.
Qed.

(** Digits after a positive number print as one number, up to the first
    character that is no digit. *)
Lemma pretty_go_absorb (s : string) (x : N) :
  (0 < x)%N ->
  exists (n : N) (rest : string),
    (0 < n)%N /\ no_digit_first rest = true /\ pretty_N_go x s = pretty_N_go n rest.
Proof.
  revert x. induction s as [|c s IH]; intros x Hx.
  - by exists x, "".
  - destruct (digit_value c) as [d|] eqn:Hd.
    + destruct (digit_value_inv c d Hd) as (Hrange & Hc & _).
      destruct (IH (10 * x + Z.to_N d)%N) as (n & rest & Hn & Hrest & Hgo); [lia|].
      exists n, rest. split; [done|]. split; [done|].
      rewrite <- Hgo. rewrite (pretty_N_go_step (10 * x + Z.to_N d)) by lia.
      assert ((10 * x + Z.to_N d) `div` 10 = x)%N as ->.
      { symmetry. apply (N.div_unique _ 10 x (Z.to_N d)); lia. }
      assert ((10 * x + Z.to_N d) `mod` 10 = Z.to_N d)%N as ->.
      { symmetry. apply (N.mod_unique _ 10 x (Z.to_N d)); lia. }
      by rewrite <- Hc.
    + exists x, (String c s). split; [done|]. split; [|done].
      by apply no_digit_first_spec.
Qed.

(** A string that starts with a digit is zeros, a printed number and a
    rest that does not go on with a digit. *)
Lemma digits_split (s : string) (c : ascii) (d : Z) :
  digit_value c = Some d ->
  exists (k : nat) (n : N) (rest : string),
    String c s = zeros k ++ pretty n ++ rest /\ no_digit_first rest = true.
Proof.
  revert c d. induction s as [|c' s IH]; intros c d Hd;
    destruct (digit_value_inv c d Hd) as (Hrange & Hc & _).
  - exists O, (Z.to_N d), "". split; [|done].
    rewrite append_empty. unfold pretty, pretty_N. case_decide as Hz.
    + rewrite Hc, Hz. done.
    + rewrite (pretty_N_go_step (Z.to_N d)) by lia.
      assert (Z.to_N d `div` 10 = 0)%N as -> by (apply N.div_small; lia).
      assert (Z.to_N d `mod` 10 = Z.to_N d)%N as -> by (apply N.mod_small; lia).
      by rewrite pretty_N_go_0, <- Hc.
  - assert (d = 0 \/ 0 < d) as [-> | Hpos] by lia.
    + simpl in Hc. subst c.
      destruct (digit_value c') as [d'|] eqn:Hd'.
      * destruct (IH c' d' Hd') as (k & n & rest & Hs & Hrest).
        exists (S k), n, rest. split; [|done].
        simpl zeros. by rewrite append_cons, <- Hs.
      * exists O, 0%N, (String c' s). split; [done|].
        by apply no_digit_first_spec.
    + destruct (pretty_go_absorb (String c' s) (Z.to_N d)) as (n & rest & Hn & Hrest & Hgo);
        [lia|].
      exists O, n, rest. split; [|done].
      rewrite append_empty. unfold pretty, pretty_N. case_decide as Hz; [lia|].
      rewrite <- pretty_go_app, <- Hgo.
      rewrite (pretty_N_go_step (Z.to_N d)) by lia.
      assert (Z.to_N d `div` 10 = 0)%N as -> by (apply N.div_small; lia).
      assert (Z.to_N d `mod` 10 = Z.to_N d)%N as -> by (apply N.mod_small; lia).
      by rewrite pretty_N_go_0, <- Hc.
Qed.

Lemma parse_digits_some (s : string) (m : Z) :
  parse_digits None s = Some m ->
  exists c t d, s = String c t /\ digit_value c = Some d.
Proof.
  destruct s as [|c t]; [done|]. simpl.
  destruct (digit_value c) as [d|] eqn:Hd; [|done]. intros _. by exists c, t, d.
Qed.

Lemma ascii_white (c : ascii) :
  is_StrWhiteSpaceChar c = true ->
  In (N_of_ascii c) WhiteSpace /\ utf8 (N_of_ascii c) = String c "".
Proof.
  destruct c as [[] [] [] [] [] [] [] []]; try discriminate; intros _;
    (split; [simpl; tauto | reflexivity]).
Qed.

Lemma white_space_2_utf8 (c1 c2 : ascii) :
  white_space_2 c1 c2 = true -> utf8 160 = String c1 (String c2 "").
Proof.
  unfold white_space_2. intros H. apply andb_true_iff in H as [H1 H2].
  apply N.eqb_eq in H1, H2.
  rewrite <- (ascii_N_embedding c1), <- (ascii_N_embedding c2), H1, H2. reflexivity.
Qed.

Lemma white_space_3_utf8 (c1 c2 c3 : ascii) :
  white_space_3 c1 c2 c3 = true ->
  exists cp, In cp WhiteSpace /\ utf8 cp = String c1 (String c2 (String c3 "")).
Proof.
  intros H.
  exists ((N_of_ascii c1 - 224) * 4096 + (N_of_ascii c2 - 128) * 64
          + (N_of_ascii c3 - 128))%N.
  destruct c1 as [[] [] [] [] [] [] [] []]; try discriminate H;
    destruct c2 as [[] [] [] [] [] [] [] []]; try discriminate H;
    destruct c3 as [[] [] [] [] [] [] [] []]; try discriminate H;
    (split; [simpl; tauto | reflexivity]).
Qed.

(** What [skip_white] removes is white space. *)
Lemma skip_white_split_bounded (n : nat) (s : string) :
  (String.length s <= n)%nat ->
  exists cps, Forall (fun cp => In cp WhiteSpace) cps /\ s = blanks cps ++ skip_white s.
Proof.
  revert s. induction n as [|n IH]; intros s Hlen.
  { destruct s; [|simpl in Hlen; lia]. by exists []. }
  destruct s as [|c1 rest1]; [by exists []|].
  simpl in Hlen. simpl skip_white.
  destruct (is_StrWhiteSpaceChar c1) eqn:H1.
  { destruct (IH rest1) as (cps & Hw & Hs); [lia|].
    destruct (ascii_white c1 H1) as [Hin Hu].
    exists (N_of_ascii c1 :: cps). split; [by constructor|].
    unfold blanks. simpl fold_right. fold (blanks cps).
    rewrite Hu, !append_cons, append_empty. by rewrite <- Hs. }
  destruct (N_of_ascii c1 <? 128)%N; [by exists []|].
  destruct rest1 as [|c2 rest2]; [by exists []|].
  destruct (white_space_2 c1 c2) eqn:H2.
  { destruct (IH rest2) as (cps & Hw & Hs); [simpl in Hlen; lia|].
    exists (160%N :: cps). split; [constructor; [simpl; tauto | done]|].
    unfold blanks. simpl fold_right. fold (blanks cps).
    rewrite (white_space_2_utf8 c1 c2 H2), !append_cons, append_empty.
    by rewrite <- Hs. }
  destruct rest2 as [|c3 rest3]; [by exists []|].
  destruct (white_space_3 c1 c2 c3) eqn:H3; [|by exists []].
  destruct (IH rest3) as (cps & Hw & Hs); [simpl in Hlen; lia|].
  destruct (white_space_3_utf8 c1 c2 c3 H3) as (cp & Hin & Hu).
  exists (cp :: cps). split; [by constructor|].
  unfold blanks. simpl fold_right. fold (blanks cps).
  rewrite Hu, !append_cons, append_empty. by rewrite <- Hs.
Qed.

Lemma skip_white_split (s : string) :
  exists cps, Forall (fun cp => In cp WhiteSpace) cps /\ s = blanks cps ++ skip_white s.
Proof. by apply (skip_white_split_bounded (String.length s)). Qed.

(** A value that reads as an integer is parsed to the Number of that
    integer. *)
Lemma parseInt_integer_text (value : string) (z : Z) :
  integer_text value z -> parseInt value = to_binary64 z.
Proof.
  intros (cps & sign & k & n & rest & Hw & Hsign & Hrest & -> & ->).
  assert (parse_digits None (zeros k ++ pretty n ++ rest) = Some (Z.of_N n)) as Hdigits.
  { destruct (parse_digits_zeros k None (pretty n ++ rest) eq_refl) as (acc & Hacc & ->).
    by rewrite (parse_digits_pretty n acc rest Hacc), parse_digits_stops. }
  rewrite parseInt_cases, skip_white_blanks by done.
  destruct Hsign as [-> | [-> | ->]].
  - rewrite append_empty.
    assert (exists c t d, zeros k ++ pretty n ++ rest = String c t
                          /\ digit_value c = Some d) as (c & t & d & Ht & Hd).
    { destruct k as [|k].
      - destruct (pretty_starts_with_digit n) as (c & t & d & Hp & Hd).
        exists c, (t ++ rest), d. by rewrite append_empty, Hp, append_cons.
      - by exists "0"%char, (zeros k ++ pretty n ++ rest), 0. }
    rewrite Ht in Hdigits |- *.
    destruct (digit_value_inv c d Hd) as (_ & _ & Hnw & Hascii & Hminus & Hplus).
    rewrite (skip_white_ascii c t Hnw Hascii).
    apply Ascii.eqb_neq in Hminus, Hplus. rewrite Hminus, Hplus, Hdigits.
    unfold signed. simpl. f_equal. lia.
  - rewrite append_cons, append_empty.
    rewrite (skip_white_ascii "+" _ eq_refl eq_refl). simpl Ascii.eqb. cbv iota.
    rewrite Hdigits. unfold signed. simpl. f_equal. lia.
  - rewrite append_cons, append_empty.
    rewrite (skip_white_ascii "-" _ eq_refl eq_refl). simpl Ascii.eqb. cbv iota.
    rewrite Hdigits. unfold signed. simpl. done.
Qed.

(** Every other value is parsed to NaN. *)
Lemma parseInt_not_integer (value : string) :
  (forall z, ~ integer_text value z) -> parseInt value = NaN.
Proof.
  intros Hnot. rewrite parseInt_cases.
  destruct (skip_white_split value) as (cps & Hw & Hv).
  destruct (skip_white value) as [|c t]; [done|].
  assert (forall sign s m,
            is_sign sign -> String c t = sign ++ s -> parse_digits None s = Some m ->
            False) as Hno.
  { intros sign s m Hsign Hct Hm.
    destruct (parse_digits_some s m Hm) as (c' & t' & d & -> & Hd).
    destruct (digits_split t' c' d Hd) as (k & n & rest & Hs & Hrest).
    apply (Hnot (signed sign n)). exists cps, sign, k, n, rest.
    repeat split; try done. by rewrite Hv, Hct, Hs. }
  destruct (Ascii.eqb c "-") eqn:Hminus.
  { apply Ascii.eqb_eq in Hminus as ->.
    destruct (parse_digits None t) as [m|] eqn:Hm; [|done].
    destruct (Hno "-" t m); [by right; right | done | done]. }
  destruct (Ascii.eqb c "+") eqn:Hplus.
  { apply Ascii.eqb_eq in Hplus as ->.
    destruct (parse_digits None t) as [m|] eqn:Hm; [|done].
    destruct (Hno "+" t m); [by right; left | done | done]. }
  destruct (parse_digits None (String c t)) as [m|] eqn:Hm; [|done].
  destruct (Hno "" (String c t) m); [by left | done | done].
Qed.

Lemma append_empty_inv (a b : string) : a ++ b = "" -> b = "".
Proof. destruct a; [done|]. rewrite append_cons. discriminate. Qed.

Lemma integer_text_nonempty (z : Z) : ~ integer_text "" z.
Proof.
  intros (cps & sign & k & n & rest & _ & _ & _ & Hv & _).
  destruct (pretty_starts_with_digit n) as (c & t & d & Hp & _).
  rewrite Hp in Hv. symmetry in Hv.
  do 3 apply append_empty_inv in Hv. by rewrite append_cons in Hv.
Qed.

Example parseInt_signed : parseInt "  -12px" = Num (-12) 0.
Proof. reflexivity. Qed.

Example JSON_parse_nested :
  Reference.JSON_parse (Reference.dq "{'error':{'message':'boom'}, 'n':[1, -2.50e3, null]}")
  = Some (JObject [("error", JObject [("message", JString "boom")]);
                   ("n", JArray [JNumber (Num 1 0); JNumber (Num (-250) 1); JNull])]).
Proof. reflexivity. Qed.

Example JSON_parse_rejects :
  List.map Reference.JSON_parse ["01"; "1."; "[1,]"; "{}x"; ""; "<html>"]
  = [None; None; None; None; None; None].
Proof. reflexivity. Qed.

Example JSON_parse_duplicate_key :
  member "host" <$> Reference.JSON_parse (Reference.dq "{'host':'a','host':'b'}")
  = Some (JString "b").
Proof. reflexivity. Qed.

Example encodeURIComponent_path :
  Reference.encodeURIComponent "my index/1" = "my%20index%2F1".
Proof. reflexivity. Qed.

Example parseInt_37 : parseInt "37" = Num 37 0.
Proof. reflexivity. Qed.

Example parseInt_date : parseInt "Wed, 21 Oct 2015 07:28:00 GMT" = NaN.
Proof. reflexivity. Qed.

Example parseInt_leading_zeros : parseInt "007" = Num 7 0.
Proof. reflexivity. Qed.

Example parseInt_rounds : parseInt "9007199254740993" = Num 9007199254740992 0.
Proof. reflexivity. Qed.

Example to_binary64_ties_to_even :
  List.map to_binary64 [2 ^ 53 + 1; 2 ^ 53 + 3; - (2 ^ 53 + 3); 2 ^ 54 + 6]
  = [Num (2 ^ 53) 0; Num (2 ^ 53 + 4) 0; Num (- (2 ^ 53 + 4)) 0; Num (2 ^ 54 + 8) 0].
Proof. reflexivity. Qed.

Example to_binary64_largest :
  List.map to_binary64 [2 ^ 1024 - 2 ^ 970 - 1; 2 ^ 1024 - 2 ^ 970; - 10 ^ 400]
  = [Num (2 ^ 1024 - 2 ^ 971) 0; Infinity false; Infinity true].
Proof. vm_compute. reflexivity. Qed.

Example parseInt_no_break_space :
  parseInt (utf8 160 ++ utf8 65279 ++ "12") = Num 12 0.
Proof. reflexivity. Qed.

Example Headers_get_normalizes :
  List.map (fun hs => Headers_get hs "Retry-After")
    [[("retry-after", " 37 ")]; [("Retry-After", " ")];
     [("Retry-After", "120"); ("RETRY-AFTER", "60")]; [("Content-Type", "text/plain")]]
  = [Some "37"; Some ""; Some "120, 60"; None].
Proof. reflexivity. Qed.

(* ===================================================================== *)
(** ** Classification of responses *)
(* ===================================================================== *)

Lemma get_prop_opt_member v p : get_prop_opt v p = member p v.
Proof. by destruct v. Qed.

Lemma get_prop_member v p w : get_prop v p = inr w -> w = member p v.
Proof. destruct v; simpl; congruence. Qed.

Lemma get_prop_throws v p e : get_prop v p = inl e -> forall q, member q v = JUndefined.
Proof. by destruct v. Qed.

Section Classification.
Context {R : Runtime}.

(** C3. A response with status 429 makes [request] fail with a
    RateLimitError.  Its delay is 60 when there is no Retry-After header
    or an empty one; the Number of the integer the header reads as when
    it reads as one (that integer itself up to 2^53); and NaN for every
    other header value. *)
Theorem rate_limit_retry_after (k url : string) (o : RequestInit) (s : State)
    (response : Response) :
  has_key k s ->
  network (fetched s) (request_of k url o) = inr response ->
  status response = 429 ->
  exists delay,
    request url o s
    = (sent (request_of k url o) s,
       inl (RateLimitError "Rate limit exceeded" delay))
    /\ (Headers_get (resp_headers response) "Retry-After" = None
        \/ Headers_get (resp_headers response) "Retry-After" = Some "" ->
        delay = Num 60 0)
    /\ (forall value z,
          Headers_get (resp_headers response) "Retry-After" = Some value ->
          integer_text value z ->
          delay = to_binary64 z /\ (Z.abs z <= 2 ^ 53 -> delay = Num z 0))
    /\ (forall value,
          Headers_get (resp_headers response) "Retry-After" = Some value ->
          value <> "" ->
          (forall z, ~ integer_text value z) ->
          delay = NaN).
Proof.
  intros Hk Hnet Hst. rewrite (request_present k) by done. rewrite Hnet.
  unfold classify. rewrite Hst. simpl.
  eexists. split; [reflexivity|]. split; [|split].
  - by intros [-> | ->].
  - intros value z -> Hint.
    assert (truthy_str (Some value) = true) as Ht.
    { destruct (truthy_str _) eqn:Ht; [done|].
      apply truthy_str_false in Ht as [|[= ->]]; [done|].
      by destruct (integer_text_nonempty z). }
    simpl in Ht. rewrite Ht, (parseInt_integer_text value z Hint).
    split; [done|]. apply to_binary64_exact.
  - intros value -> Hne Hnot.
    assert (negb (String.eqb value EmptyString) = true) as ->.
    { apply negb_true_iff. by apply String.eqb_neq. }
    by apply parseInt_not_integer.
Qed.

(** C4. A response with status 401 or 403 makes [request] fail with the
    fixed AuthenticationError; the body plays no part. *)
Theorem auth_failure_fixed_message (k url : string) (o : RequestInit) (s : State)
    (response : Response) :
  has_key k s ->
  network (fetched s) (request_of k url o) = inr response ->
  status response = 401 \/ status response = 403 ->
  request url o s
  = (sent (request_of k url o) s,
     inl (AuthenticationError "Authentication failed. Check your API key.")).
Proof.
  intros Hk Hnet Hst. rewrite (request_present k) by done. rewrite Hnet.
  unfold classify. by destruct Hst as [-> | ->].
Qed.

(** C5, amended.  Any other status outside 200..299 makes [request]
    fail with a PineconeApiError carrying the status and: the nested
    error.message of the parsed body when it is truthy, else the
    top-level message when it is truthy, else "API error: " followed by
    the status; the last also when the body does not parse. *)
Theorem api_error_message (k url : string) (o : RequestInit) (s : State)
    (response : Response) :
  has_key k s ->
  network (fetched s) (request_of k url o) = inr response ->
  ok response = false ->
  status response <> 429 -> status response <> 401 -> status response <> 403 ->
  exists message,
    request url o s
    = (sent (request_of k url o) s,
       inl (PineconeApiError message (status response)))
    /\ let fallback := JString ("API error: " ++ pretty (status response)) in
       match JSON_parse (resp_text response) with
       | None => message = fallback
       | Some json =>
           let nested := member "message" (member "error" json) in
           let top := member "message" json in
           message = if truthy nested then nested
                     else if truthy top then top
                     else fallback
       end.
Proof.
  intros Hk Hnet Hok H429 H401 H403.
  rewrite (request_present k) by done. rewrite Hnet.
  unfold classify. apply Z.eqb_neq in H429, H401, H403.
  rewrite H429, H401, H403, Hok. simpl.
  eexists. split; [reflexivity|].
  unfold error_message_of.
  destruct (JSON_parse (resp_text response)) as [json|]; [|done].
  destruct (get_prop json "error") as [e|err] eqn:Herr.
  - by rewrite !(get_prop_throws json "error" e Herr).
  - apply get_prop_member in Herr as ->. rewrite get_prop_opt_member.
    destruct (truthy (member "message" (member "error" json))); [done|].
    destruct (get_prop json "message") as [e|top] eqn:Htop.
    + by rewrite (get_prop_throws json "message" e Htop).
    + by apply get_prop_member in Htop as ->.
Qed.

(** C6. Status 202 or 204, and any other status in 200..299 with an
    empty body, make [request] return [undefined].  This holds for
    every platform, also one whose JSON.parse throws on every input:
    no parse is attempted. *)
Theorem empty_success_is_undefined (k url : string) (o : RequestInit) (s : State)
    (response : Response) :
  has_key k s ->
  network (fetched s) (request_of k url o) = inr response ->
  status response = 202 \/ status response = 204
  \/ (ok response = true /\ resp_text response = "") ->
  request url o s = (sent (request_of k url o) s, inr JUndefined).
Proof.
  intros Hk Hnet Hst. rewrite (request_present k) by done. rewrite Hnet.
  unfold classify, ok.
  destruct Hst as [-> | [-> | [Hok ->]]]; [done | done |].
  unfold ok in Hok. apply andb_true_iff in Hok as [H1 H2].
  apply Z.leb_le in H1, H2.
  assert ((status response =? 429) = false) as -> by (apply Z.eqb_neq; lia).
  assert ((status response =? 401) = false) as -> by (apply Z.eqb_neq; lia).
  assert ((status response =? 403) = false) as -> by (apply Z.eqb_neq; lia).
  apply Z.leb_le in H1, H2. rewrite H1, H2. simpl.
  by destruct (_ || _).
Qed.
End Classification.

(** The two examples of the specification: Retry-After: 37, and no such
    header. *)
Lemma rate_limit_retry_after_witness :
  has_key "pc-key" demo
  /\ integer_text "37" 37
  /\ (request (R := throttled) "https://api.pinecone.io/indexes" no_options demo).2
     = inl (RateLimitError "Rate limit exceeded" (Num 37 0))
  /\ (request (R := throttled_bare) "https://api.pinecone.io/indexes" no_options demo).2
     = inl (RateLimitError "Rate limit exceeded" (Num 60 0)).
Proof.
  assert (has_key "pc-key" demo) as Hk by (split; [reflexivity | discriminate]).
  assert (integer_text "37" 37) as Htext.
  { exists [], "", O, 37%N, "".
    split; [constructor|]. split; [by left|]. split; [reflexivity|].
    split; reflexivity. }
  assert (Z.abs 37 <= 2 ^ 53) as Hsmall by (vm_compute; discriminate).
  split; [exact Hk|]. split; [exact Htext|].
  destruct (rate_limit_retry_after (R := throttled) "pc-key"
              "https://api.pinecone.io/indexes" no_options demo
              (respond 429 [("Retry-After", "37")] "") Hk eq_refl eq_refl)
    as (delay & Hreq & _ & Hint & _).
  destruct (rate_limit_retry_after (R := throttled_bare) "pc-key"
              "https://api.pinecone.io/indexes" no_options demo
              (respond 429 [("Content-Type", "text/plain")] "") Hk eq_refl eq_refl)
    as (delay' & Hreq' & Hnone & _).
  rewrite Hreq, Hreq'. simpl. split; f_equal; f_equal.
  - exact (proj2 (Hint "37" 37 eq_refl Htext) Hsmall).
  - exact (Hnone (or_introl eq_refl)).
Defined.

(** C3 as worded fails on a header that is present and holds no integer:
    with an HTTP-date, which Retry-After may carry, the delay is no
    integer at all. *)
Lemma rate_limit_retry_after_counterexample :
  ~ (forall (R : Runtime) (k url : string) (o : RequestInit) (s : State)
       (response : Response) (value : string),
       has_key k s ->
       network (fetched s) (request_of k url o) = inr response ->
       status response = 429 ->
       Headers_get (resp_headers response) "Retry-After" = Some value ->
       exists z : Z,
         request url o s
         = (sent (request_of k url o) s,
            inl (RateLimitError "Rate limit exceeded" (Num z 0)))).
Proof.
  intros H.
  specialize (H throttled_until "pc-key" "https://api.pinecone.io/indexes"
                no_options demo
                (respond 429 [("retry-after", "Wed, 21 Oct 2026 07:28:00 GMT")] "")
                "Wed, 21 Oct 2026 07:28:00 GMT").
  assert (has_key "pc-key" demo) as Hk by (split; [reflexivity | discriminate]).
  destruct (H Hk eq_refl eq_refl eq_refl) as [z Hz].
  apply (f_equal snd) in Hz. vm_compute in Hz. discriminate Hz.
Qed.

Lemma auth_failure_fixed_message_witness :
  has_key "pc-key" demo
  /\ (request (R := rejected) "https://api.pinecone.io/indexes" no_options demo).2
     = inl (AuthenticationError "Authentication failed. Check your API key.").
Proof.
  assert (has_key "pc-key" demo) as Hk by (split; [reflexivity | discriminate]).
  split; [exact Hk|].
  rewrite (auth_failure_fixed_message (R := rejected) "pc-key"
             "https://api.pinecone.io/indexes" no_options demo
             (respond 401 [] (Reference.dq "{'error':{'message':'leak'}}")) Hk eq_refl
             (or_introl eq_refl)).
  reflexivity.
Defined.

(** The example of the specification: status 500 with body
    {"error":{"message":"boom"}}. *)
Lemma api_error_message_witness :
  has_key "pc-key" demo
  /\ (request (R := failing) "https://api.pinecone.io/indexes" no_options demo).2
     = inl (PineconeApiError (JString "boom") 500).
Proof.
  assert (has_key "pc-key" demo) as Hk by (split; [reflexivity | discriminate]).
  split; [exact Hk|].
  destruct (api_error_message (R := failing) "pc-key"
              "https://api.pinecone.io/indexes" no_options demo
              (respond 500 [] (Reference.dq "{'error':{'message':'boom'}}"))
              Hk eq_refl eq_refl)
    as (message & Hreq & Hmsg); [discriminate.. |].
  rewrite Hreq. simpl. f_equal. f_equal. exact Hmsg.
Defined.

(** C5 as worded fails on a field that is present and empty: the body
    {"message":""} has a top-level message, yet the error carries the
    fallback text. *)
Lemma api_error_message_counterexample :
  ~ (forall (R : Runtime) (k url : string) (o : RequestInit) (s : State)
       (response : Response),
       has_key k s ->
       network (fetched s) (request_of k url o) = inr response ->
       ok response = false ->
       status response <> 429 -> status response <> 401 -> status response <> 403 ->
       request url o s
       = (sent (request_of k url o) s,
          inl (PineconeApiError
                 (message_when_present (resp_text response) (status response))
                 (status response)))).
Proof.
  intros H.
  specialize (H empty_message "pc-key" "https://api.pinecone.io/indexes"
                no_options demo (respond 500 [] (Reference.dq "{'message':''}"))).
  assert (has_key "pc-key" demo) as Hk by (split; [reflexivity | discriminate]).
  specialize (H Hk eq_refl eq_refl).
  do 3 (specialize (H ltac:(discriminate))).
  vm_compute in H. discriminate H.
Qed.

Lemma empty_success_is_undefined_witness :
  has_key "pc-key" demo
  /\ (request (R := accepted) "https://api.pinecone.io/indexes/a"
        (with_method "DELETE") demo).2 = inr JUndefined.
Proof.
  assert (has_key "pc-key" demo) as Hk by (split; [reflexivity | discriminate]).
  split; [exact Hk|].
  rewrite (empty_success_is_undefined (R := accepted) "pc-key"
             "https://api.pinecone.io/indexes/a" (with_method "DELETE") demo
             (respond 202 [] "") Hk eq_refl (or_introl eq_refl)).
  reflexivity.
Defined.

(* ===================================================================== *)
(** ** Endpoint resolution *)
(* ===================================================================== *)

Section Resolution.
Context {R : Runtime}.

Lemma cache_hit_or_miss n s :
  (exists h, indexHostCache s !! n = Some h /\ truthy h = true) \/ cache_miss n s.
Proof.
  unfold cache_miss. destruct (indexHostCache s !! n) as [h|] eqn:Hc; simpl.
  - destruct (truthy h) eqn:Ht; eauto.
  - by right.
Qed.

(** [dataPlaneRequest] on a miss, whatever the credentials. *)
Lemma dataPlaneRequest_resolve n endpoint o s :
  cache_miss n s ->
  dataPlaneRequest n endpoint o s =
    match describeIndex n s with
    | (s1, inl e) => (s1, inl e)
    | (s1, inr index) =>
        match get_prop index "host" with
        | inl e => (s1, inl e)
        | inr h => request ("https://" ++ ToString h ++ endpoint) o (cached n h s1)
        end
    end.
Proof.
  intros Hm. unfold dataPlaneRequest, bind at 1.
  rewrite getIndexHost_miss by done. unfold bind at 1.
  destruct (describeIndex n s) as [s1 [e|index]]; [done|].
  unfold bind, lift. by destruct (get_prop index "host").
Qed.

Lemma describeIndex_keeps n s :
  indexHostCache (describeIndex n s).1 = indexHostCache s.
Proof. apply request_keeps. Qed.

(** The cache after a data-plane request: unchanged, or one entry
    written after a describe call that succeeded. *)
Lemma dataPlaneRequest_cache n endpoint o s :
  indexHostCache (dataPlaneRequest n endpoint o s).1 = indexHostCache s
  \/ exists s1 index h,
       cache_miss n s
       /\ describeIndex n s = (s1, inr index)
       /\ get_prop index "host" = inr h
       /\ indexHostCache (dataPlaneRequest n endpoint o s).1
          = <[n := h]> (indexHostCache s).
Proof.
  destruct (cache_hit_or_miss n s) as [(h & Hc & Ht) | Hm].
  - left. unfold dataPlaneRequest, bind. rewrite (getIndexHost_hit n h) by done.
    apply request_keeps.
  - rewrite dataPlaneRequest_resolve by done.
    pose proof (describeIndex_keeps n s) as Hd.
    destruct (describeIndex n s) as [s1 [e|index]] eqn:Hdesc; simpl in Hd; [by left|].
    destruct (get_prop index "host") as [e|h] eqn:Hh; [by left|].
    right. exists s1, index, h. repeat split; try done.
    destruct (request_keeps ("https://" ++ ToString h ++ endpoint) o (cached n h s1))
      as [-> _].
    simpl. by rewrite Hd.
Qed.

(** On a miss the first request sent is the describe request. *)
Lemma miss_describes_first k n endpoint o s :
  has_key k s -> cache_miss n s ->
  exists later,
    fetched (dataPlaneRequest n endpoint o s).1
    = (later ++ describe_request k n :: fetched s)%list.
Proof.
  intros Hk Hm. rewrite (dataPlaneRequest_miss k) by done. simpl.
  destruct (answer _ s) as [e|index]; [by exists []|].
  destruct (get_prop index "host") as [e|h]; [by exists []|].
  by exists [data_request k h endpoint o].
Qed.
End Resolution.

Section CacheClaims.
Context {R : Runtime}.

Lemma call_fetched op n endpoint o s :
  data_plane op = Some (n, endpoint, o) ->
  fetched (call op s).1 = fetched (dataPlaneRequest n endpoint o s).1
  /\ indexHostCache (call op s).1 = indexHostCache (dataPlaneRequest n endpoint o s).1.
Proof.
  intros Hd. destruct (call_data_plane op n endpoint o Hd s) as [-> _]. done.
Qed.

(** A hit: exactly one request, to the cached host, and no cache write. *)
Lemma call_hit k op n endpoint o h s :
  has_key k s ->
  data_plane op = Some (n, endpoint, o) ->
  indexHostCache s !! n = Some h -> truthy h = true ->
  fetched (call op s).1 = data_request k h endpoint o :: fetched s
  /\ indexHostCache (call op s).1 = indexHostCache s.
Proof.
  intros Hk Hd Hc Ht. destruct (call_fetched op n endpoint o s Hd) as [-> ->].
  by rewrite (dataPlaneRequest_hit k n endpoint o h).
Qed.

(** A miss whose describe call succeeds: the two requests sent and the
    entry written. *)
Lemma resolve_steps k op n endpoint o s s1 index h :
  has_key k s ->
  data_plane op = Some (n, endpoint, o) ->
  cache_miss n s ->
  describeIndex n s = (s1, inr index) ->
  get_prop index "host" = inr h ->
  fetched (call op s).1
  = data_request k h endpoint o :: describe_request k n :: fetched s
  /\ indexHostCache (call op s).1 = <[n := h]> (indexHostCache s)
  /\ has_key k (call op s).1.
Proof.
  intros Hk Hd Hm Hdesc Hh.
  destruct (call_data_plane op n endpoint o Hd s) as [-> _].
  rewrite (dataPlaneRequest_miss k) by done.
  rewrite (describeIndex_present k) in Hdesc by done.
  injection Hdesc as _ ->. simpl. by rewrite Hh.
Qed.

(** C1, amended.  A data-plane call whose lookup misses sends the describe
    request, stores the host it returns under the index name and sends
    its own request to that host: two requests.  When the stored host is
    truthy (a non-empty string), a later data-plane call for the same
    index sends one request, to the stored host, and no describe request;
    so does any call that finds a truthy entry. *)
Theorem resolve_once_then_cached (k : string) (op op2 : Op) (n endpoint endpoint2 : string)
    (o o2 : RequestInit) (s s1 : State) (index h : JSValue) :
  has_key k s ->
  data_plane op = Some (n, endpoint, o) ->
  data_plane op2 = Some (n, endpoint2, o2) ->
  cache_miss n s ->
  describeIndex n s = (s1, inr index) ->
  get_prop index "host" = inr h ->
  let s2 := (call op s).1 in
  fetched s2 = data_request k h endpoint o :: describe_request k n :: fetched s
  /\ indexHostCache s2 = <[n := h]> (indexHostCache s)
  /\ (truthy h = true ->
      fetched (call op2 s2).1 = data_request k h endpoint2 o2 :: fetched s2
      /\ indexHostCache (call op2 s2).1 = indexHostCache s2)
  /\ (forall t h',
        has_key k t -> indexHostCache t !! n = Some h' -> truthy h' = true ->
        fetched (call op2 t).1 = data_request k h' endpoint2 o2 :: fetched t
        /\ indexHostCache (call op2 t).1 = indexHostCache t).
Proof.
  intros Hk Hd Hd2 Hm Hdesc Hh s2.
  destruct (resolve_steps k op n endpoint o s s1 index h) as (Hf & Hc & Hk2);
    try done.
  fold s2 in Hf, Hc, Hk2.
  split; [done|]. split; [done|]. split.
  - intros Ht. apply (call_hit k op2 n endpoint2 o2 h); try done.
    rewrite Hc. apply lookup_insert_eq.
  - intros t h' Hkt Hc' Ht'. by apply (call_hit k op2 n endpoint2 o2 h').
Qed.

(** C9. When the describe call of a miss fails, the data-plane method
    fails with the same error and the cache is as it was. *)
Theorem failed_resolution_propagates (op : Op) (n endpoint : string) (o : RequestInit)
    (s s1 : State) (e : Thrown) :
  data_plane op = Some (n, endpoint, o) ->
  cache_miss n s ->
  describeIndex n s = (s1, inl e) ->
  call op s = (s1, inl e)
  /\ dataPlaneRequest n endpoint o s = (s1, inl e)
  /\ indexHostCache s1 = indexHostCache s.
Proof.
  intros Hd Hm Hdesc.
  assert (dataPlaneRequest n endpoint o s = (s1, inl e)) as Hdp.
  { rewrite dataPlaneRequest_resolve by done. by rewrite Hdesc. }
  split; [|split; [done|]].
  - destruct (call_data_plane op n endpoint o Hd s) as [Hs He].
    rewrite Hdp in Hs, He. specialize (He e eq_refl).
    destruct (call op s) as [s' r]. simpl in *. by subst.
  - pose proof (describeIndex_keeps n s) as Hk. by rewrite Hdesc in Hk.
Qed.

(** C10. When the describe call returns the empty string as host, the
    empty string is stored under the index name, the lookup of the next
    call still misses, and every later data-plane call for that index
    sends the describe request again before anything else. *)
Theorem empty_host_never_served (k : string) (op op2 : Op) (n endpoint endpoint2 : string)
    (o o2 : RequestInit) (s s1 : State) (index : JSValue) :
  has_key k s ->
  data_plane op = Some (n, endpoint, o) ->
  data_plane op2 = Some (n, endpoint2, o2) ->
  cache_miss n s ->
  describeIndex n s = (s1, inr index) ->
  get_prop index "host" = inr (JString "") ->
  let s2 := (call op s).1 in
  indexHostCache s2 !! n = Some (JString "")
  /\ fetched s2
     = data_request k (JString "") endpoint o :: describe_request k n :: fetched s
  /\ cache_miss n s2
  /\ (forall t, has_key k t -> indexHostCache t !! n = Some (JString "") ->
        exists later,
          fetched (call op2 t).1 = (later ++ describe_request k n :: fetched t)%list).
Proof.
  intros Hk Hd Hd2 Hm Hdesc Hh s2.
  destruct (resolve_steps k op n endpoint o s s1 index (JString "")) as (Hf & Hc & _);
    try done.
  fold s2 in Hf, Hc.
  assert (indexHostCache s2 !! n = Some (JString "")) as Hn.
  { rewrite Hc. apply lookup_insert_eq. }
  split; [done|]. split; [done|]. split.
  - unfold cache_miss. by rewrite Hn.
  - intros t Hkt Hc'. destruct (call_fetched op2 n endpoint2 o2 t Hd2) as [-> _].
    apply miss_describes_first; [done|]. unfold cache_miss. by rewrite Hc'.
Qed.
End CacheClaims.

Lemma resolve_once_then_cached_witness :
  has_key "pc-key" demo
  /\ cache_miss "idx" demo
  /\ let s2 := (call (R := serving) (ListNamespaces "idx") demo).1 in
     List.map req_url (fetched s2)
     = ["https://idx-abc.svc.pinecone.io/namespaces";
        "https://api.pinecone.io/indexes/idx"]
     /\ List.map req_url (fetched (call (R := serving) (QueryVectors "idx" top3) s2).1)
        = ["https://idx-abc.svc.pinecone.io/query";
           "https://idx-abc.svc.pinecone.io/namespaces";
           "https://api.pinecone.io/indexes/idx"].
Proof.
  assert (has_key "pc-key" demo) as Hk by (split; [reflexivity | discriminate]).
  split; [exact Hk|]. split; [reflexivity|].
  destruct (resolve_once_then_cached (R := serving) "pc-key"
              (ListNamespaces "idx") (QueryVectors "idx" top3) "idx"
              _ _ _ _ demo _ _ _ Hk eq_refl eq_refl eq_refl eq_refl eq_refl)
    as (Hf & _ & Hhit & _).
  destruct (Hhit eq_refl) as [Hf2 _].
  cbv zeta. rewrite Hf2, Hf. split; reflexivity.
Defined.

(** C1 as worded fails for an empty host: the entry is stored, yet the
    second call sends the describe request again. *)
Lemma resolve_once_then_cached_counterexample :
  ~ (forall (R : Runtime) (k : string) (op op2 : Op) (n endpoint endpoint2 : string)
       (o o2 : RequestInit) (s s1 : State) (index h : JSValue),
       has_key k s ->
       data_plane op = Some (n, endpoint, o) ->
       data_plane op2 = Some (n, endpoint2, o2) ->
       cache_miss n s ->
       describeIndex n s = (s1, inr index) ->
       get_prop index "host" = inr h ->
       let s2 := (call op s).1 in
       fetched (call op2 s2).1 = data_request k h endpoint2 o2 :: fetched s2).
Proof.
  intros H.
  assert (has_key "pc-key" demo) as Hk by (split; [reflexivity | discriminate]).
  specialize (H hostless "pc-key" (ListNamespaces "idx") (QueryVectors "idx" top3)
                "idx" _ _ _ _ demo _ _ _ Hk eq_refl eq_refl eq_refl eq_refl eq_refl).
  vm_compute in H. discriminate H.
Qed.

Lemma failed_resolution_propagates_witness :
  cache_miss "idx" demo
  /\ (call (R := missing_index) (QueryVectors "idx" top3) demo).2
     = inl (PineconeApiError (JString "Resource idx not found") 404)
  /\ indexHostCache (call (R := missing_index) (QueryVectors "idx" top3) demo).1 = ∅.
Proof.
  split; [reflexivity|].
  destruct (failed_resolution_propagates (R := missing_index)
              (QueryVectors "idx" top3) "idx" _ _ demo _ _ eq_refl eq_refl eq_refl)
    as (Hcall & _ & Hcache).
  rewrite Hcall. simpl. split; [reflexivity | exact Hcache].
Defined.

Lemma empty_host_never_served_witness :
  has_key "pc-key" demo
  /\ cache_miss "idx" demo
  /\ let s2 := (call (R := hostless) (ListNamespaces "idx") demo).1 in
     indexHostCache s2 !! "idx" = Some (JString "")
     /\ List.map req_url (fetched (call (R := hostless) (QueryVectors "idx" top3) s2).1)
        = ["https:///query"; "https://api.pinecone.io/indexes/idx";
           "https:///namespaces"; "https://api.pinecone.io/indexes/idx"].
Proof.
  assert (has_key "pc-key" demo) as Hk by (split; [reflexivity | discriminate]).
  split; [exact Hk|]. split; [reflexivity|].
  destruct (empty_host_never_served (R := hostless) "pc-key"
              (ListNamespaces "idx") (QueryVectors "idx" top3) "idx"
              _ _ _ _ demo _ _ Hk eq_refl eq_refl eq_refl eq_refl eq_refl)
    as (Hstored & _ & _ & _).
  split; [exact Hstored | vm_compute; reflexivity].
Defined.

(* ===================================================================== *)
(** ** What every method does to the cache, the key and the headers *)
(* ===================================================================== *)

Lemma auth_headers_three k url o :
  headers o = None -> carries_three_headers k (request_of k url o).
Proof.
  intros Ho. unfold carries_three_headers, request_of. simpl. rewrite Ho. simpl.
  rewrite (left_id_L ∅ (∪)). unfold auth_headers, API_VERSION.
  split; [|split; [|split]].
  - apply lookup_insert_eq.
  - rewrite lookup_insert_ne by done. apply lookup_insert_eq.
  - rewrite !lookup_insert_ne by done. apply lookup_insert_eq.
  - rewrite !map_size_insert_None, map_size_empty; [done|..].
    + apply lookup_empty.
    + rewrite lookup_insert_ne by done. apply lookup_empty.
    + rewrite !lookup_insert_ne by done. apply lookup_empty.
Qed.

Section Invariants.
Context {R : Runtime}.

Lemma bind_lift_fst {A B} (m : M A) (post : A -> Thrown + B) s :
  ((v <- m ;; lift (post v)) s).1 = (m s).1.
Proof. unfold bind, lift. by destruct (m s) as [? [?|?]]. Qed.

Lemma deleteIndex_unfold n s :
  deleteIndex n s =
    match controlPlaneRequest ("/indexes/" ++ encodeURIComponent n)
            (with_method "DELETE") s with
    | (s1, inl e) => (s1, inl e)
    | (s1, inr _) => (evicted n s1, inr JUndefined)
    end.
Proof.
  unfold deleteIndex, bind. by destruct (controlPlaneRequest _ _ s) as [s1 [e|v]].
Qed.

Lemma testConnection_fst s : (testConnection s).1 = (listIndexes s).1.
Proof.
  unfold testConnection, try_catch, bind, ret.
  by destruct (listIndexes s) as [s1 [e|v]].
Qed.

Lemma listIndexes_fst s :
  (listIndexes s).1 = (controlPlaneRequest "/indexes" no_options s).1.
Proof. unfold listIndexes. rewrite bind_unwrap. apply bind_lift_fst. Qed.

(** The cache changes in two ways only: a data-plane method writes the
    host of a describe call that succeeded, and a [deleteIndex] that
    succeeded removes the entry of its index. *)
Lemma cache_changes (op : Op) (s : State) (m : string) :
  indexHostCache (call op s).1 !! m <> indexHostCache s !! m ->
  (exists endpoint o s1 index h,
     data_plane op = Some (m, endpoint, o)
     /\ describeIndex m s = (s1, inr index)
     /\ get_prop index "host" = inr h
     /\ indexHostCache (call op s).1 !! m = Some h)
  \/ (op = DeleteIndex m
      /\ (exists w, (call op s).2 = inr w)
      /\ indexHostCache (call op s).1 !! m = None).
Proof.
  intros Hne.
  destruct (call_shape op) as [ep o post _ _ _ Hc | n ep o post Hd _ _ Hc | n -> | ->].
  - exfalso. apply Hne. rewrite Hc, bind_lift_fst.
    unfold controlPlaneRequest. by destruct (request_keeps (CONTROL_PLANE_URL ++ ep) o s) as [-> _].
  - left. destruct (call_fetched op n ep o s Hd) as [_ Hcache].
    rewrite Hcache in Hne |- *.
    destruct (dataPlaneRequest_cache n ep o s) as [Hsame | (s1 & index & h & _ & Hdesc & Hh & Hins)].
    + exfalso. apply Hne. by rewrite Hsame.
    + rewrite Hins in Hne |- *. destruct (decide (n = m)) as [-> | Hnm].
      * exists ep, o, s1, index, h. repeat split; try done. apply lookup_insert_eq.
      * exfalso. apply Hne. by rewrite lookup_insert_ne.
  - right. simpl in *. rewrite deleteIndex_unfold in Hne |- *.
    unfold controlPlaneRequest in *.
    destruct (request_keeps (CONTROL_PLANE_URL ++ ("/indexes/" ++ encodeURIComponent n))
                (with_method "DELETE") s) as [Hk _].
    destruct (request _ _ s) as [s1 [e|v]]; simpl in *.
    + exfalso. apply Hne. by rewrite Hk.
    + rewrite Hk in Hne |- *. destruct (decide (n = m)) as [-> | Hnm].
      * split; [done|]. split; [by eexists|]. apply lookup_delete_eq.
      * exfalso. apply Hne. by rewrite lookup_delete_ne.
  - exfalso. apply Hne. simpl. rewrite testConnection_fst, listIndexes_fst.
    unfold controlPlaneRequest.
    by destruct (request_keeps (CONTROL_PLANE_URL ++ "/indexes") no_options s) as [-> _].
Qed.
End Invariants.

Section LifecycleClaims.
Context {R : Runtime}.

(** C2. A [deleteIndex] that succeeds has removed the entry of its index
    by the time it returns, so the next data-plane call for that index
    sends the describe request again.  Over all methods, an entry
    changes only by a data-plane call storing the host of a describe call
    that succeeded, or by a [deleteIndex] that succeeded removing it. *)
Theorem delete_evicts (k : string) (op : Op) (n endpoint : string) (o : RequestInit)
    (s s' : State) (v : JSValue) :
  has_key k s ->
  deleteIndex n s = (s', inr v) ->
  data_plane op = Some (n, endpoint, o) ->
  indexHostCache s' = delete n (indexHostCache s)
  /\ indexHostCache s' !! n = None
  /\ (exists later,
        fetched (call op s').1 = (later ++ describe_request k n :: fetched s')%list)
  /\ (forall (op' : Op) (t : State) (m : string),
        indexHostCache (call op' t).1 !! m <> indexHostCache t !! m ->
        (exists endpoint' o' t1 index h,
           data_plane op' = Some (m, endpoint', o')
           /\ describeIndex m t = (t1, inr index)
           /\ get_prop index "host" = inr h
           /\ indexHostCache (call op' t).1 !! m = Some h)
        \/ (op' = DeleteIndex m
            /\ (exists w, (call op' t).2 = inr w)
            /\ indexHostCache (call op' t).1 !! m = None)).
Proof.
  intros Hk Hdel Hd.
  rewrite deleteIndex_unfold, (controlPlaneRequest_present k) in Hdel by done.
  destruct (answer _ s) as [e|w]; [done|]. injection Hdel as <- _.
  assert (indexHostCache
            (evicted n (sent (request_of k (CONTROL_PLANE_URL ++
               ("/indexes/" ++ encodeURIComponent n)) (with_method "DELETE")) s)) !! n
          = None) as Hgone by apply lookup_delete_eq.
  split; [done|]. split; [done|]. split; [|apply cache_changes].
  destruct (call_fetched op n endpoint o
              (evicted n (sent (request_of k (CONTROL_PLANE_URL ++
                 ("/indexes/" ++ encodeURIComponent n)) (with_method "DELETE")) s)) Hd)
    as [-> _].
  apply miss_describes_first; [done|]. unfold cache_miss. by rewrite Hgone.
Qed.

(** C7, amended.  Without a key no method calls [fetch] or changes the
    client: every method but [testConnection] fails with the
    AuthenticationError of [getAuthHeaders], and [testConnection] catches
    that error and returns it as a failed connection.  With a key, every
    request a method sends carries the three headers, and only them. *)
Theorem key_checked_before_network (op : Op) (s : State) :
  (truthy_str (apiKey (credentials s)) = false ->
   (call op s).1 = s
   /\ (op <> TestConnection -> (call op s).2 = inl missing_key)
   /\ (op = TestConnection -> (call op s).2 = inr (not_connected missing_key)))
  /\ (forall k, has_key k s ->
        exists new,
          fetched (call op s).1 = (new ++ fetched s)%list
          /\ Forall (carries_three_headers k) new).
Proof.
  destruct (call_shape op) as [ep o post _ Hnt Ho Hc | n ep o post Hd Hnt Ho Hc | n -> | ->].
  - split.
    + intros Hno. rewrite Hc. unfold bind, controlPlaneRequest.
      rewrite request_absent by done. done.
    + intros k Hk. rewrite Hc, bind_lift_fst, (controlPlaneRequest_present k) by done.
      exists [request_of k (CONTROL_PLANE_URL ++ ep) o]. split; [done|].
      constructor; [by apply auth_headers_three | constructor].
  - split.
    + intros Hno. rewrite Hc. unfold bind.
      rewrite dataPlaneRequest_absent by done. done.
    + intros k Hk. rewrite Hc, bind_lift_fst.
      destruct (cache_hit_or_miss n s) as [(h & Hh & Ht) | Hm].
      * rewrite (dataPlaneRequest_hit k n ep o h) by done.
        exists [data_request k h ep o]. split; [done|].
        constructor; [by apply auth_headers_three | constructor].
      * rewrite (dataPlaneRequest_miss k) by done. simpl.
        destruct (answer _ s) as [e|index].
        { exists [describe_request k n]. split; [done|].
          constructor; [by apply auth_headers_three | constructor]. }
        destruct (get_prop index "host") as [e|h].
        { exists [describe_request k n]. split; [done|].
          constructor; [by apply auth_headers_three | constructor]. }
        exists [data_request k h ep o; describe_request k n]. split; [done|].
        repeat (constructor; [by apply auth_headers_three |]). constructor.
  - split.
    + intros Hno. simpl. rewrite deleteIndex_unfold. unfold controlPlaneRequest.
      rewrite request_absent by done. done.
    + intros k Hk. simpl. rewrite deleteIndex_unfold.
      rewrite (controlPlaneRequest_present k) by done.
      exists [request_of k (CONTROL_PLANE_URL ++ ("/indexes/" ++ encodeURIComponent n))
                (with_method "DELETE")].
      split; [by destruct (answer _ s)|].
      constructor; [by apply auth_headers_three | constructor].
  - split.
    + intros Hno. simpl.
      unfold testConnection, try_catch, listIndexes, bind, controlPlaneRequest.
      rewrite request_absent by done. done.
    + intros k Hk. simpl. rewrite testConnection_fst, listIndexes_fst.
      rewrite (controlPlaneRequest_present k) by done.
      exists [request_of k (CONTROL_PLANE_URL ++ "/indexes") no_options].
      split; [done|].
      constructor; [by apply auth_headers_three | constructor].
Qed.
End LifecycleClaims.

Section ToolClaims.
Context {R : Runtime}.

Lemma neither_supplied_iff (a : QueryArgs) :
  neither_supplied a = true <-> q_vector a = None /\ truthy_str (q_id a) = false.
Proof.
  unfold neither_supplied. rewrite andb_true_iff, !negb_true_iff.
  destruct (q_vector a); intuition congruence.
Qed.

(** Past the check, the handler leaves the state [queryVectors] leaves:
    reading the result and formatting touch nothing. *)
Lemma pinecone_query_vectors_forwards (a : QueryArgs) (s : State) :
  neither_supplied a = false ->
  (pinecone_query_vectors a s).1
  = (queryVectors (q_indexName a) (query_request a) s).1.
Proof.
  intros Hn. unfold pinecone_query_vectors, try_catch. rewrite Hn.
  unfold bind at 1.
  destruct (queryVectors (q_indexName a) (query_request a) s) as [s1 [e|result]];
    [done|].
  unfold bind, lift, ret. simpl.
  destruct (get_prop result "matches") as [?|matches]; [done|].
  destruct (get_prop result "namespace"); [done|].
  destruct (get_length matches); [done|].
  by destruct (get_prop result "usage").
Qed.

(** C8, amended.  With neither a vector nor a non-empty id the handler
    returns the error "Must provide either vector or id" without calling
    the client: no request is sent and nothing changes.  With at least
    one of them, both included, the check passes and the arguments go to
    [queryVectors] as given; with a key at least one request is sent. *)
Theorem query_needs_vector_or_id (a : QueryArgs) (s : State) :
  (q_vector a = None -> truthy_str (q_id a) = false ->
   pinecone_query_vectors a s
   = (s, inr (formatError (Error "Must provide either vector or id"))))
  /\ (q_vector a <> None \/ truthy_str (q_id a) = true ->
      (pinecone_query_vectors a s).1
      = (queryVectors (q_indexName a) (query_request a) s).1
      /\ forall k, has_key k s ->
           exists later first,
             fetched (pinecone_query_vectors a s).1
             = (later ++ first :: fetched s)%list).
Proof.
  split.
  - intros Hv Hi. unfold pinecone_query_vectors, try_catch.
    by rewrite (proj2 (neither_supplied_iff a) (conj Hv Hi)).
  - intros Hsome.
    assert (neither_supplied a = false) as Hn.
    { destruct (neither_supplied a) eqn:Hn; [|done].
      apply neither_supplied_iff in Hn as [Hv Hi].
      destruct Hsome as [? | Hs]; [done | by rewrite Hi in Hs]. }
    rewrite pinecone_query_vectors_forwards by done. split; [done|].
    intros k Hk. unfold queryVectors.
    destruct (cache_hit_or_miss (q_indexName a) s) as [(h & Hh & Ht) | Hm].
    + rewrite (dataPlaneRequest_hit k _ _ _ h) by done. by eexists [], _.
    + destruct (miss_describes_first k (q_indexName a) "/query"
                  (POST (JSON_stringify (query_request a))) s Hk Hm) as [later ->].
      by eexists later, _.
Qed.
End ToolClaims.

Lemma delete_evicts_witness :
  has_key "pc-key" warmed
  /\ indexHostCache warmed !! "idx" = Some (JString "idx-abc.svc.pinecone.io")
  /\ let s' := (deleteIndex (R := deleting) "idx" warmed).1 in
     indexHostCache s' !! "idx" = None
     /\ List.map req_url (fetched (call (R := deleting) (ListNamespaces "idx") s').1)
        = "https://api.pinecone.io/indexes/idx" :: List.map req_url (fetched s').
Proof.
  assert (has_key "pc-key" warmed) as Hk by (split; [reflexivity | discriminate]).
  split; [exact Hk|]. split; [reflexivity|].
  destruct (delete_evicts (R := deleting) "pc-key" (ListNamespaces "idx") "idx"
              _ _ warmed _ _ Hk eq_refl eq_refl)
    as (_ & Hgone & _ & _).
  split; [exact Hgone | vm_compute; reflexivity].
Defined.

Lemma key_checked_before_network_witness :
  truthy_str (apiKey (credentials no_key)) = false
  /\ call (R := serving) (QueryVectors "idx" top3) no_key = (no_key, inl missing_key)
  /\ has_key "pc-key" demo
  /\ exists new,
       fetched (call (R := serving) (ListNamespaces "idx") demo).1 = new
       /\ Forall (carries_three_headers "pc-key") new.
Proof.
  destruct (key_checked_before_network (R := serving) (QueryVectors "idx" top3) no_key)
    as [Habsent _].
  destruct (Habsent eq_refl) as (Hstate & Hfail & _).
  assert (has_key "pc-key" demo) as Hk by (split; [reflexivity | discriminate]).
  destruct (key_checked_before_network (R := serving) (ListNamespaces "idx") demo)
    as [_ Hpresent].
  destruct (Hpresent "pc-key" Hk) as (new & Hnew & Hthree).
  split; [reflexivity|]. split.
  - rewrite <- Hstate at 2. rewrite <- (Hfail ltac:(discriminate)).
    by destruct (call _ no_key).
  - split; [exact Hk|]. exists new. split; [|exact Hthree].
    rewrite Hnew. apply app_nil_r.
Defined.

(** C7 as worded fails for [testConnection]: without a key it returns
    normally. *)
Lemma key_checked_before_network_counterexample :
  ~ (forall (R : Runtime) (op : Op) (s : State),
       truthy_str (apiKey (credentials s)) = false ->
       exists message, (call op s).2 = inl (AuthenticationError message)).
Proof.
  intros H. destruct (H serving TestConnection no_key eq_refl) as [message Hm].
  vm_compute in Hm. discriminate Hm.
Qed.

Lemma query_needs_vector_or_id_witness :
  q_vector none_supplied = None
  /\ truthy_str (q_id none_supplied) = false
  /\ pinecone_query_vectors (R := querying) none_supplied demo
     = (demo, inr (formatError (Error "Must provide either vector or id")))
  /\ truthy_str (q_id both_supplied) = true
  /\ (pinecone_query_vectors (R := querying) both_supplied demo).1
     = (queryVectors (R := querying) "idx" (query_request both_supplied) demo).1.
Proof.
  destruct (query_needs_vector_or_id (R := querying) none_supplied demo) as [Hnone _].
  destruct (query_needs_vector_or_id (R := querying) both_supplied demo) as [_ Hboth].
  split; [reflexivity|]. split; [reflexivity|]. split; [exact (Hnone eq_refl eq_refl)|].
  split; [reflexivity|]. exact (proj1 (Hboth (or_intror eq_refl))).
Defined.

(** C8 as worded fails when both are supplied: the handler does not
    reject, it sends the describe and the query requests and returns the
    matches. *)
Lemma query_needs_vector_or_id_counterexample :
  ~ (forall (R : Runtime) (a : QueryArgs) (s : State),
       q_vector a <> None -> truthy_str (q_id a) = true ->
       exists e, pinecone_query_vectors a s = (s, inr (formatError e))).
Proof.
  intros H.
  destruct (H querying both_supplied demo ltac:(discriminate) eq_refl) as [e He].
  vm_compute in He. discriminate He.
Qed.

(* ===================================================================== *)
(** ** Further properties of the client *)
(* ===================================================================== *)

Lemma is_ascii_letter_no_digit (c : ascii) (rest : string) :
  is_ascii_letter c = true -> parseInt (String c rest) = NaN.
Proof.
  destruct c as [[] [] [] [] [] [] [] []]; try discriminate; intros _; reflexivity.
Qed.

Ltac pure_after_plane :=
  intros ?; simpl;
  first [ apply bind_unwrap | apply bind_discard | apply bind_lift_inr ].

Section ClientExtras.
Context {R : Runtime}.

Lemma key_or_not s :
  (exists k, has_key k s) \/ truthy_str (apiKey (credentials s)) = false.
Proof.
  destruct (truthy_str (apiKey (credentials s))) eqn:Ht; [left | by right].
  destruct (apiKey (credentials s)) as [k|] eqn:Hk; [|done].
  exists k. split; [done|]. intros ->. done.
Qed.

(** Every method is on exactly one plane. *)
Lemma one_plane (op : Op) :
  (is_Some (control_plane op) /\ data_plane op = None)
  \/ (control_plane op = None /\ is_Some (data_plane op)).
Proof. destruct op; simpl; eauto. Qed.

(** A control-plane method other than [deleteIndex] and [testConnection]
    is its request followed by a computation on the payload. *)
Lemma control_shape op endpoint o :
  control_plane op = Some (endpoint, o) ->
  op <> TestConnection -> (forall n, op <> DeleteIndex n) ->
  exists post : JSValue -> Thrown + JSValue,
    forall s, call op s = (v <- controlPlaneRequest endpoint o ;; lift (post v)) s.
Proof.
  intros Hc Hnt Hnd.
  destruct op; try discriminate; try done; try (by destruct (Hnd indexName));
    try (injection Hc as <- <-; eexists; pure_after_plane).
  destruct indexName as [n|]; simpl in Hc.
  - destruct (negb (String.eqb n "")) eqn:Hn; injection Hc as <- <-;
      eexists; intros s; simpl; unfold listBackups; simpl; rewrite Hn;
      apply bind_unwrap.
  - injection Hc as <- <-. eexists. pure_after_plane.
Qed.

Lemma data_shape op n endpoint o :
  data_plane op = Some (n, endpoint, o) ->
  exists post : JSValue -> Thrown + JSValue,
    forall s, call op s = (v <- dataPlaneRequest n endpoint o ;; lift (post v)) s.
Proof.
  intros Hd.
  destruct (call_shape op) as [? ? ? Hn | n' e' o' post Hd' _ _ Hc | ? -> | ->];
    try (rewrite Hd in Hn); try done.
  rewrite Hd in Hd'. injection Hd' as <- <- <-. by exists post.
Qed.

Lemma classify_empty_ok response :
  ok response = true -> resp_text response = "" -> classify response = inr JUndefined.
Proof.
  intros Hok Ht. unfold classify. unfold ok in Hok.
  apply andb_true_iff in Hok as [H1 H2]. apply Z.leb_le in H1, H2.
  assert ((status response =? 429) = false) as -> by (apply Z.eqb_neq; lia).
  assert ((status response =? 401) = false) as -> by (apply Z.eqb_neq; lia).
  assert ((status response =? 403) = false) as -> by (apply Z.eqb_neq; lia).
  unfold ok. apply Z.leb_le in H1, H2. rewrite H1, H2, Ht. simpl.
  by destruct (_ || _).
Qed.

(** X1. A method that has nothing to resolve (a control-plane method, or
    a data-plane method whose host the cache serves) sends exactly one
    request; when that request fails, the method fails with the same
    error ([testConnection] apart); the credentials are kept, and so is
    the cache unless the method is [deleteIndex]. *)
Theorem direct_call_one_request (k : string) (op : Op) (s : State) (r : Request) :
  has_key k s ->
  direct_request k op s = Some r ->
  fetched (call op s).1 = r :: fetched s
  /\ credentials (call op s).1 = credentials s
  /\ ((forall n, op <> DeleteIndex n) ->
      indexHostCache (call op s).1 = indexHostCache s)
  /\ (op <> TestConnection ->
      forall e, answer r s = inl e -> call op s = (sent r s, inl e)).
Proof.
  intros Hk Hr. unfold direct_request in Hr.
  destruct (control_plane op) as [[endpoint o]|] eqn:Hc.
  - injection Hr as <-.
    destruct op; try discriminate;
      try (destruct (control_shape _ endpoint o Hc) as [post Hcall];
           [done | done |];
           rewrite Hcall; unfold bind;
           rewrite (controlPlaneRequest_present k) by done;
           unfold lift, answer; simpl;
           destruct (network _ _) as [e|response]; simpl;
           [by (repeat split; try done; intros _ ? [= ->])|];
           destruct (classify response) as [e|v]; simpl;
           [by (repeat split; try done; intros _ ? [= ->]) | by repeat split]).
    { injection Hc as <- <-. simpl.
      rewrite testConnection_fst, listIndexes_fst.
      rewrite (controlPlaneRequest_present k) by done. done. }
    injection Hc as <- <-. simpl. rewrite deleteIndex_unfold.
    rewrite (controlPlaneRequest_present k) by done.
    destruct (answer _ s) as [e|v] eqn:Ha; simpl.
    + repeat split; try done. by intros _ ? [= ->].
    + repeat split; try done. intros Hnd. by destruct (Hnd indexName).
  - destruct (data_plane op) as [[[n endpoint] o]|] eqn:Hd; [|done].
    destruct (truthy (default JUndefined (indexHostCache s !! n))) eqn:Ht; [|done].
    injection Hr as <-.
    destruct (indexHostCache s !! n) as [h|] eqn:Hh; [simpl in *|done].
    destruct (data_shape op n endpoint o Hd) as [post Hcall].
    rewrite Hcall. unfold bind.
    rewrite (dataPlaneRequest_hit k n endpoint o h) by done.
    unfold lift. destruct (answer _ s) as [e|v]; simpl.
    + repeat split; try done. by intros _ ? [= ->].
    + by repeat split.
Qed.

End ClientExtras.

Section ClientExtras2.
Context {R : Runtime}.

Lemma classify_returns_iff response :
  (exists v, classify response = inr v)
  <-> ok response = true
      /\ (status response = 202 \/ status response = 204
          \/ resp_text response = ""
          \/ is_Some (JSON_parse (resp_text response))).
Proof.
  unfold classify.
  destruct (status response =? 429) eqn:H429.
  { apply Z.eqb_eq in H429. unfold ok. rewrite H429. simpl.
    split; [by intros [? ?] | by intros [? _]]. }
  destruct (status response =? 401) eqn:H401.
  { apply Z.eqb_eq in H401. unfold ok. rewrite H401. simpl.
    split; [by intros [? ?] | by intros [? _]]. }
  destruct (status response =? 403) eqn:H403.
  { apply Z.eqb_eq in H403. unfold ok. rewrite H403. simpl.
    split; [by intros [? ?] | by intros [? _]]. }
  simpl. destruct (ok response) eqn:Hok; simpl.
  2: { split; [by intros [? ?] | by intros [? _]]. }
  destruct (status response =? 202) eqn:H202.
  { apply Z.eqb_eq in H202. simpl. split; [|by eexists]. intros _. eauto. }
  destruct (status response =? 204) eqn:H204.
  { apply Z.eqb_eq in H204. simpl. split; [|by eexists]. intros _. eauto. }
  simpl. apply Z.eqb_neq in H202, H204.
  destruct (String.eqb (resp_text response) "") eqn:Ht.
  { apply String.eqb_eq in Ht. split; [|by eexists]. intros _. eauto. }
  apply String.eqb_neq in Ht.
  destruct (JSON_parse (resp_text response)) as [v|].
  - split; [|by eexists]. intros _. split; [done|]. do 3 right. by eexists.
  - split; [by intros [? ?]|]. intros [_ [?|[?|[?|[? ?]]]]]; done.
Qed.

(** X2. With a key, [request] returns a value exactly for a response
    whose status is in 200..299 and that is a 202, a 204, has an empty
    body, or has a body that parses; in every other case it throws. *)
Theorem request_returns_iff (k url : string) (o : RequestInit) (s : State)
    (response : Response) :
  has_key k s ->
  network (fetched s) (request_of k url o) = inr response ->
  (exists v, (request url o s).2 = inr v)
  <-> ok response = true
      /\ (status response = 202 \/ status response = 204
          \/ resp_text response = ""
          \/ is_Some (JSON_parse (resp_text response))).
Proof.
  intros Hk Hnet. rewrite (request_present k) by done. rewrite Hnet. simpl.
  apply classify_returns_iff.
Qed.

(** X3. A 429 whose Retry-After header does not hold a number: an empty
    value gives the default 60, a value that starts with a letter (an
    HTTP-date) gives NaN. *)
Theorem retry_after_not_a_number (k url : string) (o : RequestInit) (s : State)
    (response : Response) (value : string) :
  has_key k s ->
  network (fetched s) (request_of k url o) = inr response ->
  status response = 429 ->
  Headers_get (resp_headers response) "Retry-After" = Some value ->
  (value = "" ->
   (request url o s).2 = inl (RateLimitError "Rate limit exceeded" (Num 60 0)))
  /\ (forall c rest, value = String c rest -> is_ascii_letter c = true ->
      (request url o s).2 = inl (RateLimitError "Rate limit exceeded" NaN)).
Proof.
  intros Hk Hnet Hst Hget. rewrite (request_present k) by done. rewrite Hnet.
  unfold classify. rewrite Hst, Hget. simpl. split.
  - by intros ->.
  - intros c rest -> Hc. simpl. by rewrite is_ascii_letter_no_digit.
Qed.

(** The payload of the request of a list-shaped method, unwrapped. *)
Lemma list_call_payload (k : string) (op : Op) (p : string) (s : State)
    (r : Request) (response : Response) (v : JSValue) :
  has_key k s ->
  list_field op = Some p ->
  direct_request k op s = Some r ->
  network (fetched s) r = inr response ->
  classify response = inr v ->
  call op s = (sent r s, unwrap_list p v).
Proof.
  intros Hk Hl Hr Hnet Hv.
  unfold direct_request in Hr.
  assert (forall (m : M JSValue),
            m s = (sent r s, inr v) ->
            (response <- m ;;
             field <- lift (get_prop response p) ;;
             ret (or_else field (JArray []))) s = (sent r s, unwrap_list p v))
    as Hun.
  { intros m Hm. unfold bind, lift, ret. rewrite Hm. unfold or_else.
    destruct v; simpl; try done. }
  destruct op; try discriminate; injection Hl as <-; simpl in *;
    try (injection Hr as <-; apply Hun;
         rewrite (controlPlaneRequest_present k) by done;
         unfold answer; by rewrite Hnet, Hv).
  - injection Hr as <-. unfold listBackups.
    assert (match indexName with
            | Some n => if truthy_str (Some n)
                        then "/indexes/" ++ encodeURIComponent n ++ "/backups"
                        else "/backups"
            | None => "/backups"
            end
            = if truthy_str indexName
              then "/indexes/" ++ encodeURIComponent (default "" indexName)
                   ++ "/backups"
              else "/backups") as -> by (by destruct indexName).
    apply Hun. rewrite (controlPlaneRequest_present k) by done.
    unfold answer. by rewrite Hnet, Hv.
  - destruct (indexHostCache s !! indexName) as [h|] eqn:Hh; [simpl in Hr|done].
    destruct (truthy h) eqn:Ht; [|done]. injection Hr as <-.
    apply Hun. rewrite (dataPlaneRequest_hit k _ _ _ h) by done.
    unfold answer. by rewrite Hnet, Hv.
  - destruct (indexHostCache s !! indexName) as [h|] eqn:Hh; [simpl in Hr|done].
    destruct (truthy h) eqn:Ht; [|done]. injection Hr as <-.
    apply Hun. rewrite (dataPlaneRequest_hit k _ _ _ h) by done.
    unfold answer. by rewrite Hnet, Hv.
Qed.

(** X4. A list-shaped method returns the envelope field of the payload
    when it is truthy and the empty array otherwise; when the payload is
    undefined, as after an empty 2xx body, the method throws a
    TypeError. *)
Theorem list_call_unwraps (k : string) (op : Op) (p : string) (s : State)
    (r : Request) (response : Response) :
  has_key k s ->
  list_field op = Some p ->
  direct_request k op s = Some r ->
  network (fetched s) r = inr response ->
  (forall v, classify response = inr v -> call op s = (sent r s, unwrap_list p v))
  /\ (ok response = true -> resp_text response = "" ->
      call op s = (sent r s, inl TypeError)).
Proof.
  intros Hk Hl Hr Hnet.
  split.
  - intros v Hv. by apply (list_call_payload k op p s r response v).
  - intros Hok Ht.
    by rewrite (list_call_payload k op p s r response JUndefined Hk Hl Hr Hnet
                  (classify_empty_ok response Hok Ht)).
Qed.

(** X5. A [deleteIndex] that fails leaves the cache as it was: an entry
    it would have removed is still served, so the next data-plane call
    for that index sends one request to the cached host and does not
    describe. *)
Theorem failed_delete_keeps_entry (k : string) (op : Op) (n endpoint : string)
    (o : RequestInit) (s s' : State) (h : JSValue) (e : Thrown) :
  has_key k s ->
  indexHostCache s !! n = Some h -> truthy h = true ->
  deleteIndex n s = (s', inl e) ->
  data_plane op = Some (n, endpoint, o) ->
  indexHostCache s' = indexHostCache s
  /\ fetched (call op s').1 = data_request k h endpoint o :: fetched s'.
Proof.
  intros Hk Hc Ht Hdel Hd.
  rewrite deleteIndex_unfold, (controlPlaneRequest_present k) in Hdel by done.
  destruct (answer _ s) as [e'|w]; [|done]. injection Hdel as <- _.
  split; [done|].
  by apply (call_hit k op n endpoint o h).
Qed.

Lemma call_absent (op : Op) (s : State) :
  truthy_str (apiKey (credentials s)) = false -> (call op s).1 = s.
Proof.
  intros Hno.
  destruct (call_shape op) as [ep o post _ _ _ Hc | n ep o post _ _ _ Hc | n -> | ->].
  - rewrite Hc, bind_lift_fst. unfold controlPlaneRequest.
    by rewrite request_absent.
  - rewrite Hc, bind_lift_fst. by rewrite dataPlaneRequest_absent.
  - simpl. rewrite deleteIndex_unfold. unfold controlPlaneRequest.
    by rewrite request_absent.
  - simpl. rewrite testConnection_fst, listIndexes_fst. unfold controlPlaneRequest.
    by rewrite request_absent.
Qed.

(** With a key: the requests a call adds, newest first. *)
Lemma call_trace k (op : Op) (s : State) :
  has_key k s ->
  credentials (call op s).1 = credentials s
  /\ exists new,
       fetched (call op s).1 = (new ++ fetched s)%list
       /\ (1 <= List.length new <= 2)%nat
       /\ (data_plane op = None -> List.length new = 1%nat).
Proof.
  intros Hk.
  destruct (call_shape op) as [ep o post Hn _ _ Hc | n ep o post Hd _ _ Hc | n -> | ->].
  - rewrite Hc, bind_lift_fst, (controlPlaneRequest_present k) by done.
    split; [done|]. eexists [_]. simpl. repeat split; try done; lia.
  - rewrite Hc, bind_lift_fst.
    destruct (cache_hit_or_miss n s) as [(h & Hh & Ht) | Hm].
    + rewrite (dataPlaneRequest_hit k n ep o h) by done.
      split; [done|]. eexists [_]. simpl. repeat split; try done; lia.
    + rewrite (dataPlaneRequest_miss k) by done. simpl.
      destruct (answer _ s) as [e|index].
      { split; [done|]. eexists [_]. simpl. repeat split; try done; lia. }
      destruct (get_prop index "host") as [e|h].
      { split; [done|]. eexists [_]. simpl. repeat split; try done; lia. }
      split; [done|]. eexists [_; _]. simpl. repeat split; try done; try lia.
      by rewrite Hd.
  - simpl. rewrite deleteIndex_unfold, (controlPlaneRequest_present k) by done.
    destruct (answer _ s); (split; [done|]); eexists [_]; simpl;
      repeat split; try done; lia.
  - simpl. rewrite testConnection_fst, listIndexes_fst.
    rewrite (controlPlaneRequest_present k) by done.
    split; [done|]. eexists [_]. simpl. repeat split; try done; lia.
Qed.

(** X6. No method retries or sends extra traffic: a call adds at most
    two requests to those already sent (at most one for a control-plane
    method, none without a key), removes none, and never changes the
    credentials. *)
Theorem at_most_two_requests (op : Op) (s : State) :
  credentials (call op s).1 = credentials s
  /\ exists new,
       fetched (call op s).1 = (new ++ fetched s)%list
       /\ (List.length new <= 2)%nat
       /\ (is_Some (control_plane op) -> (List.length new <= 1)%nat)
       /\ (truthy_str (apiKey (credentials s)) = false -> new = []).
Proof.
  destruct (key_or_not s) as [[k Hk] | Hno].
  - assert (truthy_str (apiKey (credentials s)) = true) as Hyes.
    { destruct Hk as [-> Hne]. simpl. apply negb_true_iff. by apply String.eqb_neq. }
    destruct (call_trace k op s Hk) as (Hc & new & Hf & Hlen & Hone).
    split; [done|]. exists new. repeat split; try done; try lia.
    + intros Hcp. destruct (one_plane op) as [[_ Hd] | [Hn _]].
      * rewrite (Hone Hd). lia.
      * rewrite Hn in Hcp. by destruct Hcp.
    + by rewrite Hyes.
  - rewrite call_absent by done. split; [done|]. exists []. simpl.
    repeat split; try done; lia.
Qed.
End ClientExtras2.

Section ClientExtras3.
Context {R : Runtime}.

(** X7. [testConnection] never throws: it returns an object whose
    [connected] is true exactly when [listIndexes] returned, with the
    message of the error [listIndexes] threw otherwise, and it leaves
    the state [listIndexes] leaves. *)
Theorem testConnection_never_throws (s : State) :
  exists (connected : bool) (message : JSValue),
    call TestConnection s
    = ((listIndexes s).1,
       inr (JObject [("connected", JBool connected); ("message", message)]))
    /\ (connected = true <-> exists v, (listIndexes s).2 = inr v)
    /\ (forall e, (listIndexes s).2 = inl e -> message = error_message e).
Proof.
  simpl. unfold testConnection, try_catch, bind, ret.
  destruct (listIndexes s) as [s1 [e|v]]; simpl.
  - exists false, (error_message e). split; [done|]. split.
    + split; [done | by intros [? ?]].
    + by intros ? [= ->].
  - exists true, (JString "Successfully connected to Pinecone").
    split; [done|]. split; [|done]. split; [by eexists | done].
Qed.

(** The cache after a call, in positive form. *)
Lemma cache_after (op : Op) (s : State) :
  indexHostCache (call op s).1 = indexHostCache s
  \/ (exists n, op = DeleteIndex n
                /\ indexHostCache (call op s).1 = delete n (indexHostCache s))
  \/ (exists n endpoint o h,
        data_plane op = Some (n, endpoint, o)
        /\ indexHostCache (call op s).1 = <[n := h]> (indexHostCache s)).
Proof.
  destruct (call_shape op) as [ep o post _ _ _ Hc | n ep o post Hd _ _ Hc | n -> | ->].
  - left. rewrite Hc, bind_lift_fst. unfold controlPlaneRequest.
    by destruct (request_keeps (CONTROL_PLANE_URL ++ ep) o s) as [-> _].
  - destruct (call_fetched op n ep o s Hd) as [_ ->].
    destruct (dataPlaneRequest_cache n ep o s)
      as [Hsame | (s1 & index & h & _ & _ & _ & Hins)]; [by left|].
    right. right. by exists n, ep, o, h.
  - simpl. rewrite deleteIndex_unfold. unfold controlPlaneRequest.
    destruct (request_keeps (CONTROL_PLANE_URL ++ ("/indexes/" ++ encodeURIComponent n))
                (with_method "DELETE") s) as [Hk _].
    destruct (request _ _ s) as [s1 [e|v]]; simpl in *.
    + by left.
    + right. left. exists n. by rewrite Hk.
  - left. simpl. rewrite testConnection_fst, listIndexes_fst.
    unfold controlPlaneRequest.
    by destruct (request_keeps (CONTROL_PLANE_URL ++ "/indexes") no_options s) as [-> _].
Qed.

(** X8. No control-plane method fills the cache, not even
    [describeIndex] or [createIndex], whose payload holds the host: after
    any of them an index that was not cached is still not cached, and the
    next data-plane call for it sends the describe request. *)
Theorem control_plane_never_warms (k : string) (op op2 : Op) (n endpoint : string)
    (o : RequestInit) (s : State) :
  has_key k s ->
  is_Some (control_plane op) ->
  data_plane op2 = Some (n, endpoint, o) ->
  cache_miss n s ->
  cache_miss n (call op s).1
  /\ exists later,
       fetched (call op2 (call op s).1).1
       = (later ++ describe_request k n :: fetched (call op s).1)%list.
Proof.
  intros Hk Hcp Hd Hm.
  assert (cache_miss n (call op s).1) as Hm'.
  { unfold cache_miss in *.
    destruct (cache_after op s) as [-> | [(n' & _ & ->) | (? & ? & ? & ? & Hdp & _)]].
    - done.
    - destruct (decide (n' = n)) as [-> | Hne].
      + by rewrite lookup_delete_eq.
      + by rewrite lookup_delete_ne.
    - destruct (one_plane op) as [[_ Hnone] | [Hnone _]].
      + by rewrite Hnone in Hdp.
      + rewrite Hnone in Hcp. by destruct Hcp. }
  split; [done|].
  destruct (call_fetched op2 n endpoint o (call op s).1 Hd) as [-> _].
  apply miss_describes_first; [|done].
  destruct Hk as [Hk Hne]. split; [|done].
  destruct (call_trace k op s (conj Hk Hne)) as [-> _]. done.
Qed.

(** X9. A call touches the cache entry of its own index only: a
    data-plane method or [deleteIndex] for index [n] leaves the entry of
    every other index as it was. *)
Theorem other_entries_untouched (op : Op) (n m : string) (s : State) :
  (exists endpoint o, data_plane op = Some (n, endpoint, o)) \/ op = DeleteIndex n ->
  m <> n ->
  indexHostCache (call op s).1 !! m = indexHostCache s !! m.
Proof.
  intros Hop Hmn.
  destruct (cache_after op s)
    as [-> | [(n' & Hdel & ->) | (n' & ep' & o' & h & Hdp & ->)]]; [done|..].
  - destruct Hop as [(ep & o & Hd) | Hd].
    + by rewrite Hdel in Hd.
    + rewrite Hdel in Hd. injection Hd as ->. by rewrite lookup_delete_ne.
  - destruct Hop as [(ep & o & Hd) | ->]; [|done].
    rewrite Hd in Hdp. injection Hdp as <- _ _. by rewrite lookup_insert_ne.
Qed.
End ClientExtras3.

(* ===================================================================== *)
(** ** The tool handlers *)
(* ===================================================================== *)

Section ToolExtras.
Context {R : Runtime}.

(** A handler that calls a client method and then only reads and formats
    the result. *)
Lemma or_formatError_forwards {A} (m : M A) (k : A -> M ToolResponse) s :
  (forall a s', exists r, k a s' = (s', r)) ->
  (or_formatError (a <- m ;; k a) s).1 = (m s).1
  /\ (forall e, (m s).2 = inl e ->
                (or_formatError (a <- m ;; k a) s).2 = inr (formatError e))
  /\ exists r, (or_formatError (a <- m ;; k a) s).2 = inr r.
Proof.
  intros Hk. unfold or_formatError, try_catch, bind, ret.
  destruct (m s) as [s1 [e|a]]; simpl.
  - split; [done|]. split; [by intros ? [= ->] | by eexists].
  - destruct (Hk a s1) as [[e|r] ->]; simpl.
    + split; [done|]. split; [done | by eexists].
    + split; [done|]. split; [done | by eexists].
Qed.

Ltac reads_only :=
  intros ? ?; unfold list_response, bind, lift, ret;
  repeat (first [ done | by eexists | case_match ]).

(** Every handler either returns the error of its argument check without
    calling the client, or calls one client method once and then only
    reads and formats. *)
Lemma tool_forwards_aux (t : Tool) (s : State) :
  (forall message, tool_call t = inl message ->
     run_tool t s = (s, inr (formatError (Error message))))
  /\ (forall op, tool_call t = inr op ->
        (run_tool t s).1 = (call op s).1
        /\ (forall e, (call op s).2 = inl e ->
                      (run_tool t s).2 = inr (formatError e))
        /\ exists r, (run_tool t s).2 = inr r).
Proof.
  destruct t; simpl; (split; [intros message Hm | intros op Hop]);
    try discriminate;
    try (injection Hop as <-; simpl; apply or_formatError_forwards; reads_only).
  - unfold pinecone_create_index. destruct (create_index_spec a); [done|].
    by injection Hm as <-.
  - unfold pinecone_create_index. destruct (create_index_spec a); [|done].
    injection Hop as <-. simpl. apply or_formatError_forwards. reads_only.
  - unfold pinecone_query_vectors. destruct (neither_supplied a); [|done].
    by injection Hm as <-.
  - unfold pinecone_query_vectors. destruct (neither_supplied a); [done|].
    injection Hop as <-. simpl.
    apply (or_formatError_forwards
             (queryVectors (q_indexName a) (query_request a))).
    reads_only.
  - unfold pinecone_update_vector. destruct (_ && _); [|done].
    by injection Hm as <-.
  - unfold pinecone_update_vector. destruct (_ && _); [done|].
    injection Hop as <-. simpl. apply or_formatError_forwards. reads_only.
  - unfold pinecone_delete_vectors. destruct (_ && _); [|done].
    by injection Hm as <-.
  - unfold pinecone_delete_vectors. destruct (_ && _); [done|].
    injection Hop as <-. simpl. apply or_formatError_forwards. reads_only.
Qed.
End ToolExtras.

Section ToolExtras2.
Context {R : Runtime}.

Lemma call_absent_fails (op : Op) (s : State) :
  truthy_str (apiKey (credentials s)) = false ->
  op <> TestConnection ->
  call op s = (s, inl missing_key).
Proof.
  intros Hno Hnt.
  destruct (call_shape op) as [ep o post _ _ _ Hc | n ep o post _ _ _ Hc | n -> | ->].
  - rewrite Hc. unfold bind, controlPlaneRequest. by rewrite request_absent.
  - rewrite Hc. unfold bind. by rewrite dataPlaneRequest_absent.
  - simpl. rewrite deleteIndex_unfold. unfold controlPlaneRequest.
    by rewrite request_absent.
  - done.
Qed.

Lemma tool_call_not_test (t : Tool) : tool_call t <> inr TestConnection.
Proof. destruct t; simpl; repeat case_match; discriminate. Qed.

(** X10. No handler throws, and the tool layer adds no traffic of its
    own.  A handler whose argument check fails returns that error and
    leaves the client as it was; every other handler leaves the client in
    the state of the one client method it calls, returns the error that
    method threw as an error response, and without a key returns the
    missing-key error without any request. *)
Theorem tool_forwards (t : Tool) (s : State) :
  (exists r, (run_tool t s).2 = inr r)
  /\ (forall message, tool_call t = inl message ->
        run_tool t s = (s, inr (formatError (Error message))))
  /\ (forall op, tool_call t = inr op ->
        (run_tool t s).1 = (call op s).1
        /\ (forall e, (call op s).2 = inl e ->
                      (run_tool t s).2 = inr (formatError e))
        /\ (truthy_str (apiKey (credentials s)) = false ->
            run_tool t s = (s, inr (formatError missing_key)))).
Proof.
  destruct (tool_forwards_aux t s) as [Hlocal Hcall].
  split; [|split; [done|]].
  - destruct (tool_call t) as [message|op] eqn:Ht.
    + rewrite (Hlocal message eq_refl). by eexists.
    + by destruct (Hcall op eq_refl) as (_ & _ & ?).
  - intros op Hop. destruct (Hcall op Hop) as (Hst & Herr & _).
    split; [done|]. split; [done|]. intros Hno.
    assert (op <> TestConnection) as Hnt.
    { intros ->. by apply (tool_call_not_test t). }
    pose proof (call_absent_fails op s Hno Hnt) as Hfail.
    rewrite Hfail in Hst, Herr. simpl in *.
    specialize (Herr missing_key eq_refl).
    destruct (run_tool t s) as [s' r]. simpl in *. by subst.
Qed.

(** X11. The delete-vectors tool.  With no id list, no true [deleteAll]
    and no filter it returns "Must provide ids, deleteAll, or filter" and
    sends nothing; an empty id list passes the check.  When the client
    call returns, the message names all vectors if [deleteAll] is true,
    else the number of ids if a list was given, else the filter. *)
Theorem delete_vectors_checks (indexName : string) (ids : option (list string))
    (deleteAll : option bool) (filter : option JSValue) (namespace : option string)
    (s : State) :
  (ids = None -> deleteAll <> Some true -> truthy_opt filter = false ->
   pinecone_delete_vectors indexName ids deleteAll filter namespace s
   = (s, inr (formatError (Error "Must provide ids, deleteAll, or filter"))))
  /\ (forall s1 v,
        ids <> None \/ deleteAll = Some true \/ truthy_opt filter = true ->
        deleteVectors indexName (delete_vectors_request ids deleteAll filter namespace) s
        = (s1, inr v) ->
        exists message,
          pinecone_delete_vectors indexName ids deleteAll filter namespace s
          = (s1, inr (formatSuccess message JUndefined))
          /\ (deleteAll = Some true ->
              message = "All vectors deleted from namespace '"
                        ++ (if truthy_str namespace then default "" namespace
                            else "default") ++ "'")
          /\ (deleteAll <> Some true -> forall l, ids = Some l ->
              message = "Deleted " ++ pretty (List.length l) ++ " vectors")
          /\ (deleteAll <> Some true -> ids = None ->
              message = "Vectors matching filter deleted")).
Proof.
  unfold pinecone_delete_vectors, or_formatError, try_catch. split.
  - intros -> Hd Hf. rewrite Hf.
    assert (truthy (opt_value JBool deleteAll) = false) as ->; [|done].
    destruct deleteAll as [[]|]; done.
  - intros s1 v Hsome Hdel.
    assert (negb (defined ids) && negb (truthy (opt_value JBool deleteAll))
            && negb (truthy_opt filter) = false) as ->.
    { destruct Hsome as [Hi | [-> | ->]].
      - destruct ids; [done | by destruct Hi].
      - simpl. by rewrite andb_false_r.
      - by rewrite andb_false_r. }
    unfold bind, ret. rewrite Hdel.
    exists (delete_vectors_message ids deleteAll namespace).
    split; [done|]. unfold delete_vectors_message. split; [|split].
    + by intros ->.
    + intros Hd l ->. destruct deleteAll as [[]|]; done.
    + intros Hd ->. destruct deleteAll as [[]|]; done.
Qed.

(** X12. The update-vector tool returns "Must provide either values or
    setMetadata" and sends nothing when neither is given; with either
    one, an empty value list included, it calls [updateVector] with the
    arguments as given. *)
Theorem update_vector_checks (indexName id : string) (values : option (list number))
    (setMetadata : option JSValue) (namespace : option string) (s : State) :
  (values = None -> truthy_opt setMetadata = false ->
   pinecone_update_vector indexName id values setMetadata namespace s
   = (s, inr (formatError (Error "Must provide either values or setMetadata"))))
  /\ (values <> None \/ truthy_opt setMetadata = true ->
      (pinecone_update_vector indexName id values setMetadata namespace s).1
      = (updateVector indexName
           (update_vector_request id values setMetadata namespace) s).1
      /\ forall s1 v,
           updateVector indexName
             (update_vector_request id values setMetadata namespace) s = (s1, inr v) ->
           pinecone_update_vector indexName id values setMetadata namespace s
           = (s1, inr (formatSuccess ("Vector '" ++ id ++ "' updated successfully")
                         JUndefined))).
Proof.
  unfold pinecone_update_vector, or_formatError, try_catch. split.
  - by intros -> ->.
  - intros Hsome.
    assert (negb (defined values) && negb (truthy_opt setMetadata) = false) as ->.
    { destruct Hsome as [Hv | ->].
      - destruct values; [done | by destruct Hv].
      - by rewrite andb_false_r. }
    unfold bind, ret.
    destruct (updateVector _ _ s) as [s1 [e|v]]; simpl; [done|].
    split; [done|]. by intros ? ? [= <- _].
Qed.

Lemma or_formatError_ret_fst {A} (m : M A) (f : A -> ToolResponse) s :
  (or_formatError (a <- m ;; ret (f a)) s).1 = (m s).1.
Proof.
  unfold or_formatError, try_catch, bind, ret. by destruct (m s) as [? [?|?]].
Qed.

(** X13. The create-index tool chooses the deployment spec by
    truthiness: cloud and region together give a serverless spec whatever
    the pod arguments are; otherwise environment and pod type together
    give a pod spec; otherwise, also when only one of a pair is given,
    the handler returns its argument error and sends nothing. *)
Theorem create_index_spec_choice (a : CreateIndexArgs) (s : State) :
  (truthy_str (ci_cloud a) = true -> truthy_str (ci_region a) = true ->
   (pinecone_create_index a s).1
   = (createIndex
        (create_index_request a
           (JObject [("serverless",
                      JObject [("cloud", JString (default "" (ci_cloud a)));
                               ("region", JString (default "" (ci_region a)))])]))
        s).1)
  /\ (truthy_str (ci_cloud a) && truthy_str (ci_region a) = false ->
      truthy_str (ci_environment a) = true -> truthy_str (ci_podType a) = true ->
      exists pod,
        (pinecone_create_index a s).1
        = (createIndex (create_index_request a (JObject [("pod", JObject pod)])) s).1
        /\ obj_get "environment" pod = Some (JString (default "" (ci_environment a)))
        /\ obj_get "pod_type" pod = Some (JString (default "" (ci_podType a))))
  /\ (truthy_str (ci_cloud a) && truthy_str (ci_region a) = false ->
      truthy_str (ci_environment a) && truthy_str (ci_podType a) = false ->
      exists message,
        pinecone_create_index a s = (s, inr (formatError (Error message)))).
Proof.
  unfold pinecone_create_index, create_index_spec. split; [|split].
  - intros Hc Hr. rewrite Hc, Hr. simpl.
    destruct (ci_cloud a) as [c|]; [|done]. destruct (ci_region a) as [r|]; [|done].
    simpl. apply or_formatError_ret_fst.
  - intros -> He Hp. rewrite He, Hp. simpl.
    destruct (ci_environment a) as [e|]; [|done].
    destruct (ci_podType a) as [p|]; [|done]. simpl.
    eexists. split; [apply or_formatError_ret_fst|].
    unfold spread_if. by repeat case_match.
  - intros -> ->. by eexists.
Qed.
End ToolExtras2.

Section ToolExtras3.
Context {R : Runtime}.

Lemma list_tool_run (t : Tool) (op : Op) (p : string) (s : State) :
  tool_call t = inr op ->
  list_field op = Some p ->
  run_tool t s = or_formatError (items <- call op ;; list_response p items) s.
Proof.
  intros Ht Hl.
  destruct t; simpl in Ht; repeat case_match; try discriminate;
    injection Ht as <-; simpl in Hl; try discriminate; by injection Hl as <-.
Qed.


End ToolExtras3.

(* ===================================================================== *)
(** ** The worker entry point *)
(* ===================================================================== *)

Section WorkerExtras.
Context {R : Runtime}.
Variable parseTenantCredentials : WorkerRequest -> TenantCredentials.
Variable validateCredentials : TenantCredentials -> option Thrown.

End WorkerExtras.

(** X17. The info page advertises exactly the registered tools: every
    handler is registered under a name the page lists, every listed name
    but that of the connection tool is the name of a handler, and no name
    is listed twice. *)
Theorem advertised_tools_are_registered :
  (forall t : Tool, In (tool_name t) advertised_tools)
  /\ (forall name, In name advertised_tools ->
        name = "pinecone_test_connection" \/ exists t : Tool, tool_name t = name)
  /\ NoDup advertised_tools
  /\ List.length advertised_tools = 35%nat.
Proof.
  split; [|split; [|split]].
  - intros t. destruct t; simpl; tauto.
  - intros name Hin. unfold advertised_tools in Hin. simpl in Hin.
    set (a := {| ci_name := ""; ci_dimension := NaN; ci_metric := "";
                 ci_cloud := None; ci_region := None; ci_environment := None;
                 ci_podType := None; ci_pods := None; ci_replicas := None;
                 ci_deletionProtection := None; ci_tags := None |}).
    repeat (destruct Hin as [<- | Hin];
            [first [ by left
                   | right;
                     first [ by exists ToolListIndexes
                           | by exists (ToolCreateIndex a)
                           | by exists (ToolDescribeIndex "")
                           | by exists (ToolDeleteIndex "")
                           | by exists (ToolConfigureIndex "" None None None None)
                           | by exists (ToolDescribeIndexStats "" None)
                           | by exists (ToolUpsertVectors "" JNull None)
                           | by exists (ToolQueryVectors none_supplied)
                           | by exists (ToolFetchVectors "" [] None)
                           | by exists (ToolUpdateVector "" "" None None None)
                           | by exists (ToolDeleteVectors "" None None None None)
                           | by exists (ToolListVectorIds "" None None NaN None)
                           | by exists ToolListCollections
                           | by exists (ToolCreateCollection "" "")
                           | by exists (ToolDescribeCollection "")
                           | by exists (ToolDeleteCollection "")
                           | by exists (ToolListNamespaces "")
                           | by exists (ToolDescribeNamespace "" "")
                           | by exists (ToolDeleteNamespace "" "")
                           | by exists (ToolListBackups None)
                           | by exists (ToolCreateBackup "" None None)
                           | by exists (ToolDescribeBackup "")
                           | by exists (ToolDeleteBackup "")
                           | by exists (ToolCreateIndexFromBackup "" "" None None)
                           | by exists ToolListRestoreJobs
                           | by exists (ToolDescribeRestoreJob "")
                           | by exists (ToolStartImport "" "" None None)
                           | by exists (ToolListImports "")
                           | by exists (ToolDescribeImport "" "")
                           | by exists (ToolCancelImport "" "")
                           | by exists (ToolGenerateEmbeddings "" [] None "")
                           | by exists (ToolRerankDocuments "" "" JNull None false None)
                           | by exists ToolListModels
                           | by exists (ToolDescribeModel "") ] ] |]).
    done.
  - apply (bool_decide_unpack (NoDup advertised_tools)). by vm_compute.
  - reflexivity.
Qed.

Section ToolExtras4.
Context {R : Runtime}.

(** X18. A handler that reads a collection from the payload returns a
    TypeError as an error response when the client call returned a payload
    without that collection (no such field, or no object at all), although
    the request itself succeeded; the client is left as the call left it. *)
Theorem shapeless_payload_is_error (t : Tool) (op : Op) (p : string) (s : State)
    (v : JSValue) :
  tool_call t = inr op ->
  payload_collection t = Some p ->
  (call op s).2 = inr v ->
  member p v = JUndefined ->
  run_tool t s = ((call op s).1, inr (formatError TypeError)).
Proof.
  intros Ht Hp Hc Hm.
  destruct t; simpl in Hp; try discriminate; injection Hp as <-; simpl in Ht.
  - destruct (neither_supplied a) eqn:Hn; [discriminate|]. injection Ht as <-.
    simpl in *. unfold pinecone_query_vectors, try_catch, bind, lift, ret.
    rewrite Hn.
    destruct (queryVectors _ _ s) as [s1 [e|w]]; simpl in *; [discriminate|].
    injection Hc as ->. destruct v; simpl in *; try done.
    by rewrite Hm.
  - injection Ht as <-. simpl in *.
    unfold pinecone_fetch_vectors, or_formatError, try_catch, bind, lift, ret.
    destruct (fetchVectors _ _ _ s) as [s1 [e|w]]; simpl in *; [discriminate|].
    injection Hc as ->. destruct v; simpl in *; try done.
    by rewrite Hm.
  - injection Ht as <-. simpl in *.
    unfold pinecone_list_vector_ids, or_formatError, try_catch, bind, lift, ret.
    destruct (listVectorIds _ _ s) as [s1 [e|w]]; simpl in *; [discriminate|].
    injection Hc as ->. destruct v; simpl in *; try done.
    by rewrite Hm.
  - injection Ht as <-. simpl in *.
    unfold pinecone_generate_embeddings, or_formatError, try_catch, bind, lift, ret.
    destruct (generateEmbeddings _ s) as [s1 [e|w]]; simpl in *; [discriminate|].
    injection Hc as ->. destruct v; simpl in *; try done.
    by rewrite Hm.
  - injection Ht as <-. simpl in *.
    unfold pinecone_rerank_documents, or_formatError, try_catch, bind, lift, ret.
    destruct (rerankDocuments _ s) as [s1 [e|w]]; simpl in *; [discriminate|].
    injection Hc as ->. destruct v; simpl in *; try done.
    by rewrite Hm.
Qed.
End ToolExtras4.

(* ===================================================================== *)
(** ** The further properties on concrete traffic *)
(* ===================================================================== *)

Lemma direct_call_one_request_witness :
  has_key "pc-key" demo
  /\ List.map req_url (fetched (call (R := missing_index) (DescribeIndex "idx") demo).1)
     = ["https://api.pinecone.io/indexes/idx"]
  /\ (call (R := missing_index) (DescribeIndex "idx") demo).2
     = inl (PineconeApiError (JString "Resource idx not found") 404).
Proof.
  assert (has_key "pc-key" demo) as Hk by (split; [reflexivity | discriminate]).
  split; [exact Hk|].
  destruct (direct_call_one_request (R := missing_index) "pc-key" (DescribeIndex "idx")
              demo _ Hk eq_refl) as (Hf & _ & _ & Hfail).
  split.
  - rewrite Hf. reflexivity.
  - rewrite (Hfail ltac:(discriminate)
               (PineconeApiError (JString "Resource idx not found") 404) eq_refl).
    reflexivity.
Defined.

Lemma request_returns_iff_witness :
  has_key "pc-key" demo
  /\ (exists v, (request (R := accepted) "https://api.pinecone.io/indexes/a"
                   (with_method "DELETE") demo).2 = inr v)
  /\ ~ (exists v, (request (R := failing) "https://api.pinecone.io/indexes"
                     no_options demo).2 = inr v).
Proof.
  assert (has_key "pc-key" demo) as Hk by (split; [reflexivity | discriminate]).
  split; [exact Hk|]. split.
  - apply (request_returns_iff (R := accepted) "pc-key"
             "https://api.pinecone.io/indexes/a" (with_method "DELETE") demo
             (respond 202 [] "") Hk eq_refl).
    split; [reflexivity | left; reflexivity].
  - intros Hv.
    apply (request_returns_iff (R := failing) "pc-key"
             "https://api.pinecone.io/indexes" no_options demo
             (respond 500 [] (Reference.dq "{'error':{'message':'boom'}}"))
             Hk eq_refl) in Hv.
    destruct Hv as [Hok _]. discriminate Hok.
Defined.

Lemma retry_after_not_a_number_witness :
  has_key "pc-key" demo
  /\ (request (R := throttled_until) "https://api.pinecone.io/indexes" no_options demo).2
     = inl (RateLimitError "Rate limit exceeded" NaN).
Proof.
  assert (has_key "pc-key" demo) as Hk by (split; [reflexivity | discriminate]).
  split; [exact Hk|].
  destruct (retry_after_not_a_number (R := throttled_until) "pc-key"
              "https://api.pinecone.io/indexes" no_options demo
              (respond 429 [("retry-after", "Wed, 21 Oct 2026 07:28:00 GMT")] "")
              "Wed, 21 Oct 2026 07:28:00 GMT" Hk eq_refl eq_refl eq_refl)
    as [_ Hdate].
  exact (Hdate _ _ eq_refl eq_refl).
Defined.

Lemma list_call_unwraps_witness :
  has_key "pc-key" demo
  /\ (call (R := empty_ok) ListIndexes demo).2 = inl TypeError
  /\ (call (R := empty_envelope) ListIndexes demo).2 = inr (JArray []).
Proof.
  assert (has_key "pc-key" demo) as Hk by (split; [reflexivity | discriminate]).
  split; [exact Hk|].
  destruct (list_call_unwraps (R := empty_ok) "pc-key" ListIndexes "indexes" demo
              _ (respond 200 [] "") Hk eq_refl eq_refl eq_refl) as [_ Hempty].
  destruct (list_call_unwraps (R := empty_envelope) "pc-key" ListIndexes "indexes" demo
              _ (respond 200 [] "{}") Hk eq_refl eq_refl eq_refl) as [Henv _].
  split.
  - rewrite (Hempty eq_refl eq_refl). reflexivity.
  - rewrite (Henv (JObject []) eq_refl). reflexivity.
Defined.

Lemma failed_delete_keeps_entry_witness :
  has_key "pc-key" warmed_protected
  /\ indexHostCache warmed_protected !! "idx" = Some (JString "idx-abc.svc.pinecone.io")
  /\ let s' := (deleteIndex (R := protected) "idx" warmed_protected).1 in
     (deleteIndex (R := protected) "idx" warmed_protected).2
     = inl (PineconeApiError (JString "Deletion protection is enabled") 400)
     /\ indexHostCache s' = indexHostCache warmed_protected
     /\ List.map req_url (fetched (call (R := protected) (ListNamespaces "idx") s').1)
        = "https://idx-abc.svc.pinecone.io/namespaces" :: List.map req_url (fetched s').
Proof.
  assert (has_key "pc-key" warmed_protected) as Hk
    by (split; [reflexivity | discriminate]).
  split; [exact Hk|]. split; [reflexivity|].
  destruct (failed_delete_keeps_entry (R := protected) "pc-key" (ListNamespaces "idx")
              "idx" _ _ warmed_protected _ _ _ Hk eq_refl eq_refl eq_refl eq_refl)
    as [Hkept _].
  split; [reflexivity|]. split; [exact Hkept | vm_compute; reflexivity].
Defined.

Lemma control_plane_never_warms_witness :
  has_key "pc-key" demo
  /\ cache_miss "idx" demo
  /\ (call (R := serving) (DescribeIndex "idx") demo).2
     = inr (JObject [("name", JString "idx");
                     ("host", JString "idx-abc.svc.pinecone.io")])
  /\ cache_miss "idx" (call (R := serving) (DescribeIndex "idx") demo).1.
Proof.
  assert (has_key "pc-key" demo) as Hk by (split; [reflexivity | discriminate]).
  split; [exact Hk|]. split; [reflexivity|]. split; [reflexivity|].
  exact (proj1 (control_plane_never_warms (R := serving) "pc-key" (DescribeIndex "idx")
                  (ListNamespaces "idx") "idx" _ _ demo Hk
                  (ex_intro _ _ eq_refl) eq_refl eq_refl)).
Defined.

Lemma other_entries_untouched_witness :
  indexHostCache warmed !! "idx" = Some (JString "idx-abc.svc.pinecone.io")
  /\ (call (R := deleting) (DeleteIndex "other") warmed).2 = inr JUndefined
  /\ indexHostCache (call (R := deleting) (DeleteIndex "other") warmed).1 !! "idx"
     = Some (JString "idx-abc.svc.pinecone.io").
Proof.
  split; [reflexivity|]. split; [reflexivity|].
  rewrite (other_entries_untouched (R := deleting) (DeleteIndex "other") "other" "idx"
             warmed (or_intror eq_refl) ltac:(discriminate)).
  reflexivity.
Defined.

(** An empty id list passes the check of the delete-vectors tool, a false
    [deleteAll] alone does not. *)
Lemma delete_vectors_checks_witness :
  pinecone_delete_vectors (R := serving) "idx" None (Some false) None None demo
  = (demo, inr (formatError (Error "Must provide ids, deleteAll, or filter")))
  /\ (pinecone_delete_vectors (R := serving) "idx" (Some []) (Some false) None None
        demo).2
     = inr (formatSuccess "Deleted 0 vectors" JUndefined).
Proof.
  destruct (delete_vectors_checks (R := serving) "idx" None (Some false) None None demo)
    as [Hnone _].
  destruct (delete_vectors_checks (R := serving) "idx" (Some []) (Some false) None None
              demo) as [_ Hsome].
  split; [exact (Hnone eq_refl ltac:(discriminate) eq_refl)|].
  assert (Some ([] : list string) <> None) as Hlist by discriminate.
  assert ((deleteVectors (R := serving) "idx"
             (delete_vectors_request (Some []) (Some false) None None) demo).2
          = inr JUndefined) as Hret by (vm_compute; reflexivity).
  destruct (deleteVectors (R := serving) "idx"
              (delete_vectors_request (Some []) (Some false) None None) demo)
    as [s1 ret] eqn:Hdel.
  simpl in Hret. subst ret.
  destruct (Hsome s1 JUndefined (or_introl Hlist) eq_refl)
    as (message & -> & _ & Hids & _).
  simpl. rewrite (Hids ltac:(discriminate) [] eq_refl). reflexivity.
Defined.

Lemma create_index_spec_choice_witness :
  (pinecone_create_index (R := accepted) both_specs demo).1
  = (createIndex (R := accepted)
       (create_index_request both_specs
          (JObject [("serverless",
                     JObject [("cloud", JString "aws");
                              ("region", JString "us-east-1")])])) demo).1
  /\ exists message,
       pinecone_create_index (R := accepted) cloud_only demo
       = (demo, inr (formatError (Error message))).
Proof.
  destruct (create_index_spec_choice (R := accepted) both_specs demo) as [Hserverless _].
  destruct (create_index_spec_choice (R := accepted) cloud_only demo) as (_ & _ & Hnone).
  split; [exact (Hserverless eq_refl eq_refl) | exact (Hnone eq_refl eq_refl)].
Defined.


(** Without a key a tool answers with the missing-key error and the
    client is as it was. *)
Lemma tool_forwards_witness :
  tool_call (ToolDescribeIndex "idx") = inr (DescribeIndex "idx")
  /\ run_tool (R := serving) (ToolDescribeIndex "idx") no_key
     = (no_key, inr (formatError missing_key)).
Proof.
  split; [reflexivity|].
  destruct (tool_forwards (R := serving) (ToolDescribeIndex "idx") no_key)
    as (_ & _ & Hcall).
  destruct (Hcall (DescribeIndex "idx") eq_refl) as (_ & _ & Hno).
  exact (Hno eq_refl).
Defined.

Lemma update_vector_checks_witness :
  pinecone_update_vector (R := serving) "idx" "v1" None None None demo
  = (demo, inr (formatError (Error "Must provide either values or setMetadata")))
  /\ (pinecone_update_vector (R := serving) "idx" "v1" (Some []) None None demo).1
     = (updateVector (R := serving) "idx"
          (update_vector_request "v1" (Some []) None None) demo).1.
Proof.
  destruct (update_vector_checks (R := serving) "idx" "v1" None None None demo)
    as [Hnone _].
  destruct (update_vector_checks (R := serving) "idx" "v1" (Some []) None None demo)
    as [_ Hsome].
  split; [exact (Hnone eq_refl eq_refl)|].
  assert (Some ([] : list number) <> None) as Hvalues by discriminate.
  exact (proj1 (Hsome (or_introl Hvalues))).
Defined.

(** An empty JSON object as the answer to a rerank request. *)
Lemma shapeless_payload_is_error_witness :
  has_key "pc-key" demo
  /\ (call (R := empty_envelope)
        (RerankDocuments (rerank_request "m" "q" (JArray []) None false None)) demo).2
     = inr (JObject [])
  /\ (run_tool (R := empty_envelope)
        (ToolRerankDocuments "m" "q" (JArray []) None false None) demo).2
     = inr (formatError TypeError).
Proof.
  assert ((call (R := empty_envelope)
             (RerankDocuments (rerank_request "m" "q" (JArray []) None false None))
             demo).2 = inr (JObject [])) as Hpayload by (vm_compute; reflexivity).
  split; [split; [reflexivity | discriminate]|]. split; [exact Hpayload|].
  rewrite (shapeless_payload_is_error (R := empty_envelope)
             (ToolRerankDocuments "m" "q" (JArray []) None false None) _ "data" demo
             (JObject []) eq_refl eq_refl Hpayload eq_refl).
  reflexivity.
Defined.
